(** * binconvert: the PNG <-> BIN container of [png_to_bin.py]

    A shallow embedding of [convert_png_to_bin] and [read_bin_to_png]
    (src/png_to_bin.py).  The two functions run in a state-and-exception
    monad over a file system; [struct.pack]/[struct.unpack] are modelled on
    [Z] with explicit range checks; the image library (PIL) is an interface
    whose operations the code calls. *)

From Stdlib Require Import ZArith Lia Ascii String List.
From Stdlib Require Strings.Byte.
From Stdlib Require Import DecimalString.
From stdpp Require Import base option list strings gmap.

Local Open Scope Z_scope.

(** ** Bytes *)

Abbreviation byte := Byte.byte.

Definition byte_to_Z (b : byte) : Z := Z.of_N (Byte.to_N b).

(** The byte whose value is [z]; only called on [0 <= z < 256]. *)
Definition Z_to_byte (z : Z) : byte :=
  match Byte.of_N (Z.to_N z) with
  | Some b => b
  | None => Byte.x00
  end.

Global Instance byte_eq_decision : EqDecision byte := Byte.byte_eq_dec.

(** ** Exceptions

    Every exception the modelled calls raise derives from Python's
    [Exception]; it is recorded by class name and by [str(e)]. *)

Record exn := Exception { exn_class : string; str : string }.

Definition struct_error (msg : string) : exn := Exception "struct.error" msg.
Definition ValueError (msg : string) : exn := Exception "ValueError" msg.
Definition FileNotFoundError (p : string) : exn :=
  Exception "FileNotFoundError"
            ("[Errno 2] No such file or directory: '" +:+ p +:+ "'").
Definition IsADirectoryError (p : string) : exn :=
  Exception "IsADirectoryError"
            ("[Errno 21] Is a directory: '" +:+ p +:+ "'").

(** ** struct.pack / struct.unpack, formats '<I' and 'B' *)

Module struct.

(** The four little-endian bytes of [n], without the range check. *)
Definition le32 (n : Z) : list byte :=
  [ Z_to_byte (Z.land n 255);
    Z_to_byte (Z.land (Z.shiftr n 8) 255);
    Z_to_byte (Z.land (Z.shiftr n 16) 255);
    Z_to_byte (Z.land (Z.shiftr n 24) 255) ].

(** [struct.pack('<I', n)]: raises [struct.error] outside [0, 2^32). *)
Definition pack_I (n : Z) : exn + list byte :=
  if (0 <=? n) && (n <? 4294967296) then inr (le32 n)
  else inl (struct_error "'I' format requires 0 <= number <= 4294967295").

(** [struct.pack('B', n)]: raises [struct.error] outside [0, 256). *)
Definition pack_B (n : Z) : exn + list byte :=
  if (0 <=? n) && (n <? 256) then inr [Z_to_byte n]
  else inl (struct_error "ubyte format requires 0 <= number <= 255").

(** [struct.unpack('<I', b)[0]]: the buffer must hold exactly 4 bytes. *)
Definition unpack_I (b : list byte) : exn + Z :=
  match b with
  | [b0; b1; b2; b3] =>
      inr (Z.lor (byte_to_Z b0)
          (Z.lor (Z.shiftl (byte_to_Z b1) 8)
          (Z.lor (Z.shiftl (byte_to_Z b2) 16)
                 (Z.shiftl (byte_to_Z b3) 24))))
  | _ => inl (struct_error "unpack requires a buffer of 4 bytes")
  end.

(** [struct.unpack('B', b)[0]]: the buffer must hold exactly 1 byte. *)
Definition unpack_B (b : list byte) : exn + Z :=
  match b with
  | [b0] => inr (byte_to_Z b0)
  | _ => inl (struct_error "unpack requires a buffer of 1 bytes")
  end.

End struct.

(** ** Paths

    A path is its normalised string, as [str(Path(p))] gives it, with '/' as
    the separator.  [name], [suffix] and [with_suffix] follow
    [pathlib.PurePath]. *)

Local Open Scope string_scope.

Definition is_char (c d : ascii) : bool := Ascii.eqb c d.

Fixpoint contains_char (d : ascii) (s : string) : bool :=
  match s with
  | EmptyString => false
  | String c r => is_char c d || contains_char d r
  end.

(** The text after the last separator. *)
Fixpoint last_component (p : string) : string :=
  match p with
  | EmptyString => EmptyString
  | String c r =>
      if contains_char "/" r then last_component r
      else if is_char c "/" then r else String c r
  end.

(** [Path.name]: the final path component; [Path('.')] has none. *)
Definition name (p : string) : string :=
  if String.eqb p "." then "" else last_component p.

(** [s[s.rfind('.'):]] when [s] has a dot. *)
Fixpoint from_last_dot (s : string) : option string :=
  match s with
  | EmptyString => None
  | String c r =>
      match from_last_dot r with
      | Some t => Some t
      | None => if is_char c "." then Some (String c r) else None
      end
  end.

(** [Path.suffix]: [name[i:]] for [i = name.rfind('.')] when
    [0 < i < len(name) - 1], and [''] otherwise. *)
Definition suffix (p : string) : string :=
  let n := name p in
  match from_last_dot n with
  | Some t =>
      if (1 <? String.length t)%nat && (String.length t <? String.length n)%nat
      then t else ""
  | None => ""
  end.

(** [Path.with_suffix(s)] for a valid [s] ('.bin', '.png'): raises
    [ValueError] on an empty name, otherwise replaces the old suffix. *)
Definition with_suffix (p s : string) : exn + string :=
  if String.eqb (name p) "" then
    inl (ValueError ("PosixPath('" +:+ p +:+ "') has an empty name"))
  else
    inr (substring 0 (String.length p - String.length (suffix p)) p +:+ s).

(** [str.lower] on the ASCII letters. A byte above 127 is left as it is: no
    character outside ASCII lowers to one of ['.'], ['p'], ['n'], ['g'], so
    the comparison with ['.png'] is the one Python makes. *)
Definition lower_ascii (c : ascii) : ascii :=
  let n := nat_of_ascii c in
  if (65 <=? n)%nat && (n <=? 90)%nat then ascii_of_nat (n + 32) else c.

Fixpoint lower (s : string) : string :=
  match s with
  | EmptyString => EmptyString
  | String c r => String (lower_ascii c) (lower r)
  end.

(** ** The file system and the monad of the two operations *)

Inductive entry :=
  | File (content : list byte)
  | Dir.

Global Instance entry_eq_decision : EqDecision entry.
Proof. solve_decision. Defined.

Abbreviation filesystem := (gmap string entry).

(** A computation reads and writes the file system and returns a value or
    raises; what it wrote before raising stays written. *)
Definition M (A : Type) : Type := filesystem -> (exn + A) * filesystem.

Definition ret {A} (a : A) : M A := fun fs => (inr a, fs).

Definition raise {A} (e : exn) : M A := fun fs => (inl e, fs).

Definition bind {A B} (m : M A) (k : A -> M B) : M B :=
  fun fs =>
    match m fs with
    | (inr a, fs') => k a fs'
    | (inl e, fs') => (inl e, fs')
    end.

(** A pure call that may raise. *)
Definition lift {A} (r : exn + A) : M A :=
  match r with
  | inr a => ret a
  | inl e => raise e
  end.

(** [try: m  except Exception as e: h e]. *)
Definition try_except {A} (m : M A) (h : exn -> M A) : M A :=
  fun fs =>
    match m fs with
    | (inr a, fs') => (inr a, fs')
    | (inl e, fs') => h e fs'
    end.

Declare Scope mon_scope.
Delimit Scope mon_scope with mon.
Notation "'let*' x ':=' m 'in' k" := (bind m (fun x => k))
  (at level 10, x name, m at level 100, k at level 200)
  : mon_scope.
Notation "'do' m 'in' k" := (bind m (fun _ => k))
  (at level 10, m at level 100, k at level 200)
  : mon_scope.

(** [Path(p).exists()]. *)
Definition Path_exists (p : string) : M bool :=
  fun fs => (inr (bool_decide (is_Some (fs !! p))), fs).

(** [open(p, 'rb')]: the file object is the bytes still to be read. *)
Definition open_rb (p : string) : M (list byte) :=
  fun fs =>
    match fs !! p with
    | Some (File c) => (inr c, fs)
    | Some Dir => (inl (IsADirectoryError p), fs)
    | None => (inl (FileNotFoundError p), fs)
    end.

(** [f.read(n)]: at most [n] bytes, and the file object after them. *)
Definition f_read (n : Z) (f : list byte) : list byte * list byte :=
  (take (Z.to_nat n) f, drop (Z.to_nat n) f).

(** [open(p, 'wb')]: creates or truncates; the file object is its path.
    Parent directories are taken to exist. *)
Definition open_wb (p : string) : M string :=
  fun fs =>
    match fs !! p with
    | Some Dir => (inl (IsADirectoryError p), fs)
    | _ => (inr p, <[p := File []]> fs)
    end.

(** [f.write(b)] on a file opened by [open_wb]: appends.  What is written
    is in the file when the [with] block is left, also by an exception. *)
Definition f_write (f : string) (b : list byte) : M unit :=
  fun fs =>
    match fs !! f with
    | Some (File c) => (inr tt, <[f := File (c ++ b)]> fs)
    | _ => (inr tt, fs)
    end.

(** [s.endswith(d)] for one character. *)
Fixpoint ends_with_char (d : ascii) (s : string) : bool :=
  match s with
  | EmptyString => false
  | String c r =>
      match r with
      | EmptyString => is_char c d
      | String _ _ => ends_with_char d r
      end
  end.

(** [os.remove(p)]: a directory is not removed (EISDIR on Linux); a path
    that ends with a separator names a directory. *)
Definition os_remove (p : string) : M unit :=
  if ends_with_char "/" p then raise (IsADirectoryError p)
  else
    fun fs =>
      match fs !! p with
      | Some (File _) => (inr tt, delete p fs)
      | Some Dir => (inl (IsADirectoryError p), fs)
      | None => (inl (FileNotFoundError p), fs)
      end.

(** ** The image library

    An image is its mode, its size [(width, height)] and the buffer
    [tobytes()] returns. *)

Record Image := { im_mode : string; im_size : Z * Z; im_bytes : list byte }.

Class ImageLib := {
  (** what [Image.open] and the load behind it make of a file's bytes *)
  png_decode : list byte -> exn + Image;
  (** [img.convert(mode)] *)
  Image_convert : Image -> string -> exn + Image;
  (** [Image.frombytes(mode, size, data)] *)
  Image_frombytes : string -> Z * Z -> list byte -> exn + Image;
  (** the bytes [img.save(path, 'PNG')] writes *)
  png_encode : Image -> exn + list byte;
  (** the bytes a save that raises has written by then *)
  png_partial : Image -> list byte
}.

(** [b'PNG\x00'] *)
Definition magic : list byte := [Byte.x50; Byte.x4e; Byte.x47; Byte.x00].

Section Converter.

Context {lib : ImageLib}.

Local Open Scope mon_scope.

(** [Image.open(p)] and the load of the pixel data, which PIL puts off
    until [convert] or [tobytes]: in [convert_png_to_bin] every one of them
    comes before the destination is opened, so a failure of any leaves the
    same result. *)
Definition Image_open (p : string) : M Image :=
  let* c := open_rb p in lift (png_decode c).

(** [img.save(p, 'PNG')]: PIL notes whether the path exists, opens it
    with [open(p, 'w+b')] and runs the PNG writer; when the writer raises,
    the file is closed with what was written, removed if the save had
    created it, and the exception is raised again. *)
Definition Image_save (img : Image) (p : string) : M unit :=
  let* found := Path_exists p in
  let created := negb found in
  let* f := open_wb p in
  match png_encode img with
  | inr b => f_write f b
  | inl e =>
      do f_write f (png_partial img) in
      do (if created then os_remove p else ret tt) in
      raise e
  end.

(** src/png_to_bin.py, lines 27-69: the [try] block of
    [convert_png_to_bin]. *)
Definition convert_png_to_bin_try (png_path : string) (bin_path : option string)
    (include_metadata : bool) : M (bool * string) :=
    (let* found := Path_exists png_path in
     if negb found then
       ret (false, "PNG file not found: " +:+ png_path)
     else if negb (String.eqb (lower (suffix png_path)) ".png") then
       ret (false, "File is not a PNG: " +:+ png_path)
     else
       let* img := Image_open png_path in
       let* bin_path :=
         match bin_path with
         | None => lift (with_suffix png_path ".bin")
         | Some b => ret b
         end in
       let* img :=
         if negb (String.eqb (im_mode img) "RGBA")
         then lift (Image_convert img "RGBA") else ret img in
       let '(width, height) := im_size img in
       let pixel_data := im_bytes img in
       let* f := open_wb bin_path in
       do (if include_metadata then
             do f_write f magic in
             let* w := lift (struct.pack_I width) in
             do f_write f w in
             let* h := lift (struct.pack_I height) in
             do f_write f h in
             let* m := lift (struct.pack_B 4) in
             do f_write f m in
             let* n := lift (struct.pack_I (Z.of_nat (length pixel_data))) in
             do f_write f n in
             f_write f pixel_data
           else
             f_write f pixel_data) in
       ret (true, "Successfully converted: " +:+ png_path +:+ " -> " +:+ bin_path)).

(** src/png_to_bin.py, lines 13-72. *)
Definition convert_png_to_bin (png_path : string) (bin_path : option string)
    (include_metadata : bool) : M (bool * string) :=
  try_except
    (convert_png_to_bin_try png_path bin_path include_metadata)
    (fun e => ret (false, "Error converting PNG: " +:+ str e)).

(** src/png_to_bin.py, lines 89-121: the [try] block of
    [read_bin_to_png]. *)
Definition read_bin_to_png_try (bin_path : string) (png_path : option string)
    (has_metadata : bool) : M (bool * string) :=
    (let* found := Path_exists bin_path in
     if negb found then
       ret (false, "BIN file not found: " +:+ bin_path)
     else
       let* png_path :=
         match png_path with
         | None => lift (with_suffix bin_path ".png")
         | Some p => ret p
         end in
       let* f := open_rb bin_path in
       if has_metadata then
         let '(magic', f) := f_read 4 f in
         if negb (bool_decide (magic' = magic)) then
           ret (false, "Invalid BIN file format (missing PNG magic number)")
         else
           let '(b, f) := f_read 4 f in
           let* width := lift (struct.unpack_I b) in
           let '(b, f) := f_read 4 f in
           let* height := lift (struct.unpack_I b) in
           let '(b, f) := f_read 1 f in
           let* mode_bytes := lift (struct.unpack_B b) in
           let '(b, f) := f_read 4 f in
           let* data_size := lift (struct.unpack_I b) in
           let '(pixel_data, f) := f_read data_size f in
           let* img := lift (Image_frombytes "RGBA" (width, height) pixel_data) in
           do Image_save img png_path in
           ret (true, "Successfully converted: " +:+ bin_path +:+ " -> " +:+ png_path)
       else
         ret (false, "Cannot read raw BIN without metadata (width/height unknown)")).

(** src/png_to_bin.py, lines 75-124. *)
Definition read_bin_to_png (bin_path : string) (png_path : option string)
    (has_metadata : bool) : M (bool * string) :=
  try_except
    (read_bin_to_png_try bin_path png_path has_metadata)
    (fun e => ret (false, "Error converting BIN to PNG: " +:+ str e)).

End Converter.

(** ** A reference image library

    An instance of the interface to run the converter on: an image file
    holds the width and the height (4 bytes each, little-endian) and then
    the uncompressed RGBA buffer. *)

(** [Image.MAX_IMAGE_PIXELS], PIL's default: [Image.open] refuses an image
    of more than twice as many pixels. *)
Definition MAX_IMAGE_PIXELS : Z := 89478485.

(** [str(n)] for [n >= 0]. *)
Definition decimal (n : Z) : string :=
  NilZero.string_of_uint (N.to_uint (Z.to_N n)).

Definition DecompressionBombError (pixels : Z) : exn :=
  Exception "DecompressionBombError"
    ("Image size (" +:+ decimal pixels +:+ " pixels) exceeds limit of "
     +:+ decimal (2 * MAX_IMAGE_PIXELS)
     +:+ " pixels, could be decompression bomb DOS attack.").

Definition raw_decode (c : list byte) : exn + Image :=
  match struct.unpack_I (take 4 c), struct.unpack_I (take 4 (drop 4 c)) with
  | inr w, inr h =>
      if (2 * MAX_IMAGE_PIXELS <? w * h)%Z then inl (DecompressionBombError (w * h))
      else if bool_decide (1 <= w /\ 1 <= h /\ Z.of_nat (length (drop 8 c)) = w * h * 4)
      then inr {| im_mode := "RGBA"; im_size := (w, h); im_bytes := drop 8 c |}
      else inl (Exception "OSError" "image file is truncated")
  | _, _ => inl (Exception "UnidentifiedImageError" "cannot identify image file")
  end.

Definition raw_convert (img : Image) (mode : string) : exn + Image :=
  inr {| im_mode := mode; im_size := im_size img; im_bytes := im_bytes img |}.

Definition raw_frombytes (mode : string) (size : Z * Z) (data : list byte)
  : exn + Image :=
  if bool_decide (Z.of_nat (length data) = size.1 * size.2 * 4)
  then inr {| im_mode := mode; im_size := size; im_bytes := data |}
  else inl (ValueError "not enough image data").

Definition raw_encode (img : Image) : exn + list byte :=
  match struct.pack_I (im_size img).1, struct.pack_I (im_size img).2 with
  | inr w, inr h => inr (w ++ h ++ im_bytes img)%list
  | _, _ => inl (ValueError "cannot write image")
  end.

Definition raw_lib : ImageLib :=
  {| png_decode := raw_decode;
     Image_convert := raw_convert;
     Image_frombytes := raw_frombytes;
     png_encode := raw_encode;
     png_partial := fun _ => [] |}.

(** A 1x1 image file with the pixel (10, 20, 30, 40). *)
Definition pixel_1x1 : list byte := [Byte.x0a; Byte.x14; Byte.x1e; Byte.x28].

Definition file_1x1 : list byte :=
  (struct.le32 1 ++ struct.le32 1 ++ pixel_1x1)%list.

Definition fs_1x1 : filesystem := {[ "a.png" := File file_1x1 ]}.

(** The file of a 16384 x 16384 image, all bytes zero: 268,435,456
    pixels. *)
Definition bomb_pixels : list byte := repeat Byte.x00 (Z.to_nat 1073741824).

Definition bomb_file : list byte :=
  (struct.le32 16384 ++ struct.le32 16384 ++ bomb_pixels)%list.

Definition bomb_fs : filesystem := {[ "bomb.png" := File bomb_file ]}.

(** ** Vocabulary of the statements *)

Local Open Scope Z_scope.

Definition u32 (n : Z) : Prop := 0 <= n < 4294967296.

(** The header layout of the spec, section 6: magic, width, height,
    bytes per pixel, data size, pixel data. *)
Definition container (w h : Z) (bpp : byte) (size : Z) (data : list byte)
  : list byte :=
  (magic ++ struct.le32 w ++ struct.le32 h ++ [bpp] ++ struct.le32 size ++ data)%list.

(** Sample containers. *)

(** A container whose magic reads "PNI\0" and whose other bytes are those
    of a well-formed 1x1 container. *)
Definition bad_magic_1x1 : list byte :=
  ([Byte.x50; Byte.x4e; Byte.x49; Byte.x00]
     ++ drop 4 (container 1 1 Byte.x04 4 pixel_1x1))%list.

(** A 1x1 container whose data-size field says 5 while 4 bytes follow. *)
Definition oversized_1x1 : list byte := container 1 1 Byte.x04 5 pixel_1x1.

(** The 1x1 container cut after three of its four pixel bytes. *)
Definition truncated_1x1 : list byte :=
  container 1 1 Byte.x04 4 [Byte.x0a; Byte.x14; Byte.x1e].

(** The 1x1 container with 7 in place of 4 at offset 12. *)
Definition seven_1x1 : list byte := container 1 1 Byte.x07 4 pixel_1x1.

(** Where an operation writes (lines 39-42 and 95-98): the path given, or
    the source path with the other extension. *)
Definition destination (given : option string) (source ext : string)
  : exn + string :=
  match given with
  | None => with_suffix source ext
  | Some p => inr p
  end.

(** The image of the spec, section 3: [w] by [h] pixels, at least one each
    way, four bytes a pixel. *)
Definition rgba_buffer (w h : Z) (px : list byte) : Prop :=
  1 <= w /\ 1 <= h /\ Z.of_nat (length px) = w * h * 4.

(** Contracts of the image library.  [Image.frombytes] builds the image of
    a buffer that has the size's length; it refuses any other buffer (the
    spec, section 4.2, step 7), of which [frombytes_needs_enough] keeps the
    half about a buffer that is too short ("not enough image data"); an RGBA
    image with a buffer under 2^32 bytes can be saved as PNG. *)
Definition frombytes_builds (lib : ImageLib) : Prop :=
  forall w h px, rgba_buffer w h px ->
    Image_frombytes "RGBA" (w, h) px
    = inr {| im_mode := "RGBA"; im_size := (w, h); im_bytes := px |}.

Definition frombytes_checks_length (lib : ImageLib) : Prop :=
  forall w h px, Z.of_nat (length px) <> w * h * 4 ->
    exists e, Image_frombytes "RGBA" (w, h) px = inl e.

Definition frombytes_needs_enough (lib : ImageLib) : Prop :=
  forall w h px, Z.of_nat (length px) < w * h * 4 ->
    exists e, Image_frombytes "RGBA" (w, h) px = inl e.

Definition png_encode_total (lib : ImageLib) : Prop :=
  forall w h px, rgba_buffer w h px -> u32 (w * h * 4) ->
    exists k, png_encode {| im_mode := "RGBA"; im_size := (w, h); im_bytes := px |}
              = inr k.

(** The four bytes of [n] as a little-endian unsigned integer, as the spec
    words it: the least significant byte first. *)
Definition little_endian_u32 (n : Z) : list byte :=
  [ Z_to_byte (n mod 256);
    Z_to_byte (n / 256 mod 256);
    Z_to_byte (n / 65536 mod 256);
    Z_to_byte (n / 16777216 mod 256) ].

Section Phases.

Context {lib : ImageLib}.

(** What lines 36 and 45-46 make of a source file's bytes: the decoded
    image, converted to RGBA unless it already is. *)
Definition decodes_to_rgba (c : list byte) (img : Image) : Prop :=
  exists img0, png_decode c = inr img0 /\
    (if negb (String.eqb (im_mode img0) "RGBA")
     then Image_convert img0 "RGBA" else inr img0) = inr img.

(** Lines 54-69 for a header container: open, write the six fields. *)
Definition write_container (png_path bin_path : string) (img : Image)
  : M (bool * string) :=
  (let* f := open_wb bin_path in
   do (do f_write f magic in
       let* w := lift (struct.pack_I (im_size img).1) in
       do f_write f w in
       let* h := lift (struct.pack_I (im_size img).2) in
       do f_write f h in
       let* m := lift (struct.pack_B 4) in
       do f_write f m in
       let* n := lift (struct.pack_I (Z.of_nat (length (im_bytes img)))) in
       do f_write f n in
       f_write f (im_bytes img)) in
   ret (true, "Successfully converted: " +:+ png_path +:+ " -> " +:+ bin_path))%mon.

(** Lines 117-121: build the image, save it, report. *)
Definition rebuild (bin_path out : string) (width height : Z)
    (pixel_data : list byte) : M (bool * string) :=
  (let* img := lift (Image_frombytes "RGBA" (width, height) pixel_data) in
   do Image_save img out in
   ret (true, "Successfully converted: " +:+ bin_path +:+ " -> " +:+ out))%mon.

(** Lines 100-121 once the source is open and holds [c]: the header is
    read, or the call is refused. *)
Definition decode_block (bin_path out : string) (has_metadata : bool)
    (c : list byte) : M (bool * string) :=
  (if has_metadata then
     let '(magic', f) := f_read 4 c in
     if negb (bool_decide (magic' = magic)) then
       ret (false, "Invalid BIN file format (missing PNG magic number)")
     else
       let '(b, f) := f_read 4 f in
       let* width := lift (struct.unpack_I b) in
       let '(b, f) := f_read 4 f in
       let* height := lift (struct.unpack_I b) in
       let '(b, f) := f_read 1 f in
       let* mode_bytes := lift (struct.unpack_B b) in
       let '(b, f) := f_read 4 f in
       let* data_size := lift (struct.unpack_I b) in
       let '(pixel_data, f) := f_read data_size f in
       rebuild bin_path out width height pixel_data
   else
     ret (false, "Cannot read raw BIN without metadata (width/height unknown)"))%mon.

End Phases.

(** What PIL's pixel limit and its RGBA buffers give of every image the
    encoder gets to write: four bytes a pixel, and at most
    [2 * MAX_IMAGE_PIXELS] pixels. *)
Definition opens_within_limit (lib : ImageLib) : Prop :=
  forall c img, decodes_to_rgba c img ->
    rgba_buffer (im_size img).1 (im_size img).2 (im_bytes img) /\
    (im_size img).1 * (im_size img).2 <= 2 * MAX_IMAGE_PIXELS.

(** ** The command line *)

(** The usage text (lines 130-137), one string for each [print]. *)
Definition usage : list string :=
  [ "PNG to BIN Converter";
    String "010" "Usage:";
    "  python png_to_bin.py <input.png> [output.bin]";
    "  python png_to_bin.py --to-png <input.bin> [output.png]";
    String "010" "Examples:";
    "  python png_to_bin.py image.png";
    "  python png_to_bin.py image.png image.bin";
    "  python png_to_bin.py --to-png image.bin" ].

Section CommandLine.

Context {lib : ImageLib}.

Local Open Scope mon_scope.

(** src/png_to_bin.py, lines 127-156: [main] on [sys.argv].  The result is
    what was printed, one string for each [print], and the status given to
    [sys.exit]. *)
Definition main (argv : list string) : M (list string * Z) :=
  if (length argv <? 2)%nat then
    ret (usage, 1)
  else if String.eqb (nth 1 argv "") "--to-png" then
    if (length argv <? 3)%nat then
      ret (["Error: Input BIN file required"], 1)
    else
      let bin_file := nth 2 argv "" in
      let png_file := if (3 <? length argv)%nat then Some (nth 3 argv "") else None in
      let* r := read_bin_to_png bin_file png_file true in
      let '(success, message) := r in
      ret ([message], if success then 0 else 1)
  else
    let png_file := nth 1 argv "" in
    let bin_file := if (2 <? length argv)%nat then Some (nth 2 argv "") else None in
    let* r := convert_png_to_bin png_file bin_file true in
    let '(success, message) := r in
    ret ([message], if success then 0 else 1).

End CommandLine.

(** ** The web layer's file names (src/app.py) *)

(** [s.rsplit('.', 1)]: the text before the last dot and the text after
    it, or [s] alone when it has no dot. *)
Definition rsplit_dot (s : string) : list string :=
  match from_last_dot s with
  | Some t =>
      [ substring 0 (String.length s - String.length t) s;
        substring 1 (String.length t - 1) t ]
  | None => [s]
  end.

(** [app.config['ALLOWED_EXTENSIONS_PNG']] and [..._BIN], lines 17-18. *)
Definition ALLOWED_EXTENSIONS_PNG : list string := ["png"].
Definition ALLOWED_EXTENSIONS_BIN : list string := ["bin"].

(** src/app.py, lines 24-26. *)
Definition allowed_png (filename : string) : bool :=
  contains_char "." filename
  && bool_decide (lower (nth 1 (rsplit_dot filename) "") ∈ ALLOWED_EXTENSIONS_PNG).

(** src/app.py, lines 29-31. *)
Definition allowed_bin (filename : string) : bool :=
  contains_char "." filename
  && bool_decide (lower (nth 1 (rsplit_dot filename) "") ∈ ALLOWED_EXTENSIONS_BIN).

(** src/app.py, lines 62 and 109: the name given to the converted file. *)
Definition converted_name (filename ext : string) : string :=
  nth 0 (rsplit_dot filename) "" +:+ ext.

(** ** More vocabulary *)

Section Sources.

Context {lib : ImageLib}.

(** What the encoder needs of its source before it opens the destination
    (lines 29-52): an existing regular file with a '.png' suffix that the
    library decodes and converts, and a destination path. *)
Definition encodable (fs : filesystem) (png_path : string)
    (bin_path : option string) (img : Image) (dest : string) : Prop :=
  exists c, fs !! png_path = Some (File c) /\
    lower (suffix png_path) = ".png" /\
    decodes_to_rgba c img /\
    destination bin_path png_path ".bin" = inr dest.

End Sources.

(** The bytes the encoder leaves at the destination when it succeeds. *)
Definition encoded (include_metadata : bool) (img : Image) : list byte :=
  if include_metadata
  then container (im_size img).1 (im_size img).2 Byte.x04
         (Z.of_nat (length (im_bytes img))) (im_bytes img)
  else im_bytes img.

(** An extension without its dot: not empty, no dot, no separator. *)
Definition plain_ext (e : string) : Prop :=
  e <> "" /\ contains_char "." e = false /\ contains_char "/" e = false.

(** A computation that leaves the path [q] as it is, whatever it returns. *)
Definition preserves (q : string) {A} (m : M A) : Prop :=
  forall fs : filesystem, (m fs).2 !! q = fs !! q.

(** A file named '.png' that holds no image of the reference library. *)
Definition fs_garbage : filesystem :=
  <["old.bin" := File pixel_1x1]> {[ "x.png" := File [Byte.x00; Byte.x01] ]}.

(** ** The web endpoints (src/app.py)

    The endpoints hand the strings [os.path.join] builds to the operating
    system.  werkzeug's [secure_filename] returns one path component or the
    empty string, so the only path they build that is not a normalised one
    is the upload folder followed by a separator: it names the upload
    folder, a directory that exists (line 21). *)

Definition starts_with_char (d : ascii) (s : string) : bool :=
  match s with
  | EmptyString => false
  | String c _ => is_char c d
  end.

(** [os.path.join(a, b)] on POSIX: [b] when it is absolute, otherwise [a],
    a separator unless [a] is empty or ends with one, and [b]. *)
Definition os_path_join (a b : string) : string :=
  if starts_with_char "/" b then b
  else if String.eqb a "" || ends_with_char "/" a then a +:+ b
  else a +:+ "/" +:+ b.

(** What the web layer takes from its host: werkzeug's [secure_filename],
    the directory of app.py ([os.path.dirname(__file__)]) and the size
    [stat] gives for a directory. *)
Class WebHost := {
  secure_filename : string -> string;
  app_dirname : string;
  dir_st_size : string -> Z
}.

(** An uploaded file, werkzeug's [FileStorage]: its [filename] and the
    bytes of its stream. *)
Record FileStorage := { filename : string; stream : list byte }.

(** [file.save(dst)]: [open(dst, 'wb')] and a copy of the stream; a path
    that ends with a separator names a directory. *)
Definition FileStorage_save (file : FileStorage) (dst : string) : M unit :=
  if ends_with_char "/" dst then raise (IsADirectoryError dst)
  else (let* f := open_wb dst in f_write f (stream file))%mon.

(** [os.path.exists(p)]; the directory a path with a separator at its end
    names is the upload folder, which exists. *)
Definition os_path_exists (p : string) : M bool :=
  if ends_with_char "/" p then ret true else Path_exists p.

(** The three-digit groups of [f'{n:,}'], on the digits last to first. *)
Fixpoint group3 (digits : list ascii) : list ascii :=
  match digits with
  | a :: b :: c :: (_ :: _) as more => a :: b :: c :: ","%char :: group3 more
  | _ => digits
  end.

(** [f'{n:,}'] for a size [n >= 0]. *)
Definition format_thousands (n : Z) : string :=
  string_of_list_ascii
    (rev (group3 (rev (list_ascii_of_string
                         (NilZero.string_of_uint (N.to_uint (Z.to_N n))))))).

(** A JSON value of the responses; a response is the object given to
    [jsonify], member by member, and the status code. *)
Inductive json :=
  | JBool (b : bool)
  | JStr (s : string).

Definition response : Type := list (string * json) * Z.

(** [{'success': False, 'error': error}] *)
Definition failure (error : string) : list (string * json) :=
  [("success", JBool false); ("error", JStr error)].

(** The object of a 200 answer, lines 74-81 and 121-128. *)
Definition converted (message converted_filename : string)
    (original_size converted_size : Z) : list (string * json) :=
  [ ("success", JBool true);
    ("message", JStr message);
    ("filename", JStr converted_filename);
    ("original_size", JStr (format_thousands original_size +:+ " bytes"));
    ("converted_size", JStr (format_thousands converted_size +:+ " bytes"));
    ("file_id", JStr converted_filename) ].

Section Web.

Context {lib : ImageLib} {host : WebHost}.

Local Open Scope mon_scope.

(** [app.config['UPLOAD_FOLDER']], line 15. *)
Definition UPLOAD_FOLDER : string := os_path_join app_dirname "uploads".

(** [os.path.getsize(p)]. *)
Definition os_path_getsize (p : string) : M Z :=
  if ends_with_char "/" p then ret (dir_st_size p)
  else
    fun fs =>
      match fs !! p with
      | Some (File c) => (inr (Z.of_nat (length c)), fs)
      | Some Dir => (inr (dir_st_size p), fs)
      | None => (inl (FileNotFoundError p), fs)
      end.

(** src/app.py, lines 40-84.  [request_files] is what the first
    evaluation of [request.files], at line 45, gives: the uploaded files,
    or the exception Flask raises when it cannot take the body, as it does
    for a body above [MAX_CONTENT_LENGTH] (line 16). *)
Definition png_to_bin_api (request_files : exn + gmap string FileStorage)
  : M response :=
  try_except
    (let* files := lift request_files in
     match files !! "file" with
     | None => ret (failure "No file provided", 400)
     | Some file =>
         if String.eqb (filename file) "" then
           ret (failure "No file selected", 400)
         else if negb (allowed_png (filename file)) then
           ret (failure "File must be a PNG image", 400)
         else
           let filename := secure_filename (filename file) in
           let png_path := os_path_join UPLOAD_FOLDER filename in
           do FileStorage_save file png_path in
           let bin_filename := converted_name filename ".bin" in
           let bin_path := os_path_join UPLOAD_FOLDER bin_filename in
           let* r := convert_png_to_bin png_path (Some bin_path) true in
           let '(success, message) := r in
           if negb success then
             ret (failure message, 400)
           else
             let* png_size := os_path_getsize png_path in
             let* bin_size := os_path_getsize bin_path in
             ret (converted message bin_filename png_size bin_size, 200)
     end)
    (fun e => ret (failure ("Error: " +:+ str e), 500)).

(** src/app.py, lines 87-131; [request_files] as above, evaluated at
    line 92. *)
Definition bin_to_png_api (request_files : exn + gmap string FileStorage)
  : M response :=
  try_except
    (let* files := lift request_files in
     match files !! "file" with
     | None => ret (failure "No file provided", 400)
     | Some file =>
         if String.eqb (filename file) "" then
           ret (failure "No file selected", 400)
         else if negb (allowed_bin (filename file)) then
           ret (failure "File must be a BIN file", 400)
         else
           let filename := secure_filename (filename file) in
           let bin_path := os_path_join UPLOAD_FOLDER filename in
           do FileStorage_save file bin_path in
           let png_filename := converted_name filename ".png" in
           let png_path := os_path_join UPLOAD_FOLDER png_filename in
           let* r := read_bin_to_png bin_path (Some png_path) true in
           let '(success, message) := r in
           if negb success then
             ret (failure message, 400)
           else
             let* bin_size := os_path_getsize bin_path in
             let* png_size := os_path_getsize png_path in
             ret (converted message png_filename bin_size png_size, 200)
     end)
    (fun e => ret (failure ("Error: " +:+ str e), 500)).

(** src/app.py, lines 154-167. *)
Definition cleanup_file (filename : string) : M response :=
  try_except
    (let filename := secure_filename filename in
     let file_path := os_path_join UPLOAD_FOLDER filename in
     let* found := os_path_exists file_path in
     do (if found then os_remove file_path else ret tt) in
     ret ([("success", JBool true)], 200))
    (fun e => ret (failure (str e), 500)).

(** Lines 56-81 once the upload has passed the three checks. *)
Definition png_to_bin_api_saved (file : FileStorage) : M response :=
  (let filename := secure_filename (filename file) in
   let png_path := os_path_join UPLOAD_FOLDER filename in
   do FileStorage_save file png_path in
   let bin_filename := converted_name filename ".bin" in
   let bin_path := os_path_join UPLOAD_FOLDER bin_filename in
   let* r := convert_png_to_bin png_path (Some bin_path) true in
   let '(success, message) := r in
   if negb success then
     ret (failure message, 400)
   else
     let* png_size := os_path_getsize png_path in
     let* bin_size := os_path_getsize bin_path in
     ret (converted message bin_filename png_size bin_size, 200))%mon.

(** Lines 103-128 once the upload has passed the three checks. *)
Definition bin_to_png_api_saved (file : FileStorage) : M response :=
  (let filename := secure_filename (filename file) in
   let bin_path := os_path_join UPLOAD_FOLDER filename in
   do FileStorage_save file bin_path in
   let png_filename := converted_name filename ".png" in
   let png_path := os_path_join UPLOAD_FOLDER png_filename in
   let* r := read_bin_to_png bin_path (Some png_path) true in
   let '(success, message) := r in
   if negb success then
     ret (failure message, 400)
   else
     let* bin_size := os_path_getsize bin_path in
     let* png_size := os_path_getsize png_path in
     ret (converted message png_filename bin_size png_size, 200))%mon.

End Web.

(** A host for the examples: a server in /srv/app whose [secure_filename]
    keeps a name as it is, as werkzeug's does for the names used below. *)
Definition plain_host : WebHost :=
  {| secure_filename := fun s => s;
     app_dirname := "/srv/app";
     dir_st_size := fun _ => 4096 |}.

(** The request that uploads the 1x1 image as 'a.png'. *)
Definition upload_1x1 : gmap string FileStorage :=
  {[ "file" := {| filename := "a.png"; stream := file_1x1 |} ]}.

Section WebVocabulary.

Context {host : WebHost}.

(** Where an endpoint saves its upload (lines 57-58 and 104-105) and where
    it has the result written (lines 62-63 and 109-110). *)
Definition upload_path (file : FileStorage) : string :=
  os_path_join UPLOAD_FOLDER (secure_filename (filename file)).

Definition converted_path (file : FileStorage) (ext : string) : string :=
  os_path_join UPLOAD_FOLDER (converted_name (secure_filename (filename file)) ext).

(** The request carries [file], and the three checks of an endpoint let it
    through (lines 45-54 and 92-101). *)
Definition passes (allowed : string -> bool) (files : gmap string FileStorage)
    (file : FileStorage) : Prop :=
  files !! "file" = Some file /\ filename file <> "" /\
  allowed (filename file) = true.



End WebVocabulary.

(** The requests that upload two bytes that are no image as 'x.png', the
    1x1 container cut short as 't.bin', and the 1x1 container as 't.bin'. *)
Definition upload_garbage : gmap string FileStorage :=
  {[ "file" := {| filename := "x.png"; stream := [Byte.x00; Byte.x01] |} ]}.

Definition upload_truncated : gmap string FileStorage :=
  {[ "file" := {| filename := "t.bin"; stream := truncated_1x1 |} ]}.

Definition upload_container : gmap string FileStorage :=
  {[ "file" := {| filename := "t.bin";
                  stream := container 1 1 Byte.x04 4 pixel_1x1 |} ]}.

(** * Properties *)

(** ** Arithmetic of the byte codec *)

Local Open Scope Z_scope.

Lemma byte_to_Z_range (b : byte) : 0 <= byte_to_Z b < 256.
Proof.
  unfold byte_to_Z. pose proof (Byte.to_N_bounded b). lia.
Qed.

Lemma byte_to_Z_to_byte (z : Z) : 0 <= z < 256 -> byte_to_Z (Z_to_byte z) = z.
Proof.
  intros Hz. unfold byte_to_Z, Z_to_byte.
  destruct (Byte.of_N (Z.to_N z)) as [b|] eqn:E.
  - apply Byte.to_of_N in E. rewrite E. lia.
  - apply Byte.of_N_None_iff in E. lia.
Qed.

Lemma Z_to_byte_to_Z (b : byte) : Z_to_byte (byte_to_Z b) = b.
Proof.
  unfold byte_to_Z, Z_to_byte. rewrite N2Z.id, Byte.of_to_N. reflexivity.
Qed.

Lemma land_255_range (n : Z) : 0 <= Z.land n 255 < 256.
Proof.
  change 255 with (Z.ones 8). rewrite Z.land_ones by lia.
  apply Z.mod_pos_bound. lia.
Qed.

Lemma testbit_255 (i : Z) : 0 <= i -> Z.testbit 255 i = (i <? 8).
Proof.
  intros Hi. change 255 with (Z.ones 8).
  destruct (Z.ltb_spec i 8).
  - apply Z.ones_spec_low. lia.
  - apply Z.ones_spec_high. lia.
Qed.

Lemma testbit_u32_high (n i : Z) :
  0 <= n < 4294967296 -> 32 <= i -> Z.testbit n i = false.
Proof.
  intros Hn Hi. rewrite <- (Z.mod_small n (2 ^ 32)) by (change (2 ^ 32) with 4294967296; lia).
  apply Z.mod_pow2_bits_high. lia.
Qed.

Lemma testbit_byte_lane (n k i : Z) :
  0 <= k -> 0 <= i ->
  Z.testbit (Z.shiftl (Z.land (Z.shiftr n k) 255) k) i
  = (k <=? i) && (i <? k + 8) && Z.testbit n i.
Proof.
  intros Hk Hi. rewrite Z.shiftl_spec by lia.
  destruct (Z.leb_spec k i) as [Hki|Hki]; simpl.
  - rewrite Z.land_spec, Z.shiftr_spec, testbit_255 by lia.
    replace (i - k + k) with i by lia.
    destruct (Z.ltb_spec (i - k) 8), (Z.ltb_spec i (k + 8)); try lia;
      simpl; rewrite ?andb_true_r, ?andb_false_r; reflexivity.
  - apply Z.testbit_neg_r. lia.
Qed.

Lemma unpack_pack_I (n : Z) :
  0 <= n < 4294967296 -> struct.unpack_I (struct.le32 n) = inr n.
Proof.
  intros Hn. unfold struct.le32, struct.unpack_I. f_equal.
  rewrite !byte_to_Z_to_byte by apply land_255_range.
  apply Z.bits_inj'. intros i Hi.
  rewrite <- (Z.shiftl_0_r (Z.land n 255)), <- (Z.shiftr_0_r n) at 1.
  rewrite !Z.lor_spec, !testbit_byte_lane by lia.
  destruct (Z.ltb_spec i 32) as [Hlt|Hge].
  - destruct (Z.leb_spec 0 i), (Z.ltb_spec i (0 + 8)), (Z.leb_spec 8 i),
      (Z.ltb_spec i (8 + 8)), (Z.leb_spec 16 i), (Z.ltb_spec i (16 + 8)),
      (Z.leb_spec 24 i), (Z.ltb_spec i (24 + 8)); try lia; simpl;
      rewrite ?orb_false_r; reflexivity.
  - rewrite (testbit_u32_high n i) by lia. rewrite !andb_false_r. reflexivity.
Qed.

(** ** Paths, on examples *)

Example suffix_last_extension :
  suffix "dir.d/Photo.tar.PNG" = ".PNG" /\ suffix "dir.d/photo" = "" /\
  suffix ".png" = "" /\ suffix "photo." = "".
Proof. repeat split. Qed.

Example lower_suffix_png : lower (suffix "dir.d/Photo.PnG") = ".png".
Proof. reflexivity. Qed.

Example with_suffix_replaces :
  with_suffix "x/y.tar.gz" ".bin" = inr "x/y.tar.bin" /\
  with_suffix "x/y" ".png" = inr "x/y.png" /\
  exists e, with_suffix "/" ".png" = inl e.
Proof. repeat split. eexists. reflexivity. Qed.

(** ** Running the monad *)

Lemma bind_inr {A B} (m : M A) (k : A -> M B) fs a fs' :
  m fs = (inr a, fs') -> bind m k fs = k a fs'.
Proof. intros H. unfold bind. rewrite H. reflexivity. Qed.

Lemma bind_inl {A B} (m : M A) (k : A -> M B) fs e fs' :
  m fs = (inl e, fs') -> bind m k fs = (inl e, fs').
Proof. intros H. unfold bind. rewrite H. reflexivity. Qed.

Lemma bind_lift_inr {A B} (a : A) (k : A -> M B) : bind (lift (inr a)) k = k a.
Proof. reflexivity. Qed.

Lemma bind_lift_inl {A B} (e : exn) (k : A -> M B) :
  bind (lift (inl e)) k = raise e.
Proof. reflexivity. Qed.

Lemma try_except_inr {A} (m : M A) h fs a fs' :
  m fs = (inr a, fs') -> try_except m h fs = (inr a, fs').
Proof. intros H. unfold try_except. rewrite H. reflexivity. Qed.

Lemma try_except_inl {A} (m : M A) h fs e fs' :
  m fs = (inl e, fs') -> try_except m h fs = h e fs'.
Proof. intros H. unfold try_except. rewrite H. reflexivity. Qed.

Lemma Path_exists_None p (fs : filesystem) :
  fs !! p = None -> Path_exists p fs = (inr false, fs).
Proof.
  intros H. unfold Path_exists. rewrite H.
  rewrite bool_decide_eq_false_2; [reflexivity|]. intros [x Hx]. discriminate.
Qed.

Lemma Path_exists_Some p (fs : filesystem) x :
  fs !! p = Some x -> Path_exists p fs = (inr true, fs).
Proof.
  intros H. unfold Path_exists. rewrite H.
  rewrite bool_decide_eq_true_2; [reflexivity|]. eauto.
Qed.

Lemma open_rb_File p (fs : filesystem) c :
  fs !! p = Some (File c) -> open_rb p fs = (inr c, fs).
Proof. intros H. unfold open_rb. rewrite H. reflexivity. Qed.

Lemma open_wb_ok p (fs : filesystem) :
  fs !! p ≠ Some Dir -> open_wb p fs = (inr p, <[p := File []]> fs).
Proof.
  intros H. unfold open_wb. destruct (fs !! p) as [[c|]|]; congruence.
Qed.

Lemma f_write_open p (fs : filesystem) c b :
  f_write p b (<[p := File c]> fs) = (inr tt, <[p := File (c ++ b)]> fs).
Proof.
  unfold f_write. rewrite lookup_insert_eq, insert_insert_eq. reflexivity.
Qed.

Section Boundary.

Context {lib : ImageLib}.

(** *** Early returns *)

Lemma convert_png_to_bin_missing png_path bin_path include_metadata (fs : filesystem) :
  fs !! png_path = None ->
  convert_png_to_bin png_path bin_path include_metadata fs
  = (inr (false, "PNG file not found: " +:+ png_path), fs).
Proof.
  intros H. apply try_except_inr. unfold convert_png_to_bin_try.
  erewrite bind_inr by (apply Path_exists_None, H). reflexivity.
Qed.

Lemma convert_png_to_bin_not_png png_path bin_path include_metadata
    (fs : filesystem) x :
  fs !! png_path = Some x ->
  lower (suffix png_path) ≠ ".png" ->
  convert_png_to_bin png_path bin_path include_metadata fs
  = (inr (false, "File is not a PNG: " +:+ png_path), fs).
Proof.
  intros H Hs. apply try_except_inr. unfold convert_png_to_bin_try.
  erewrite bind_inr by (eapply Path_exists_Some, H). simpl.
  destruct (String.eqb_spec (lower (suffix png_path)) ".png"); [contradiction|].
  reflexivity.
Qed.

Lemma convert_png_to_bin_undecodable png_path bin_path include_metadata
    (fs : filesystem) c e :
  fs !! png_path = Some (File c) ->
  lower (suffix png_path) = ".png" ->
  png_decode c = inl e ->
  convert_png_to_bin png_path bin_path include_metadata fs
  = (inr (false, "Error converting PNG: " +:+ str e), fs).
Proof.
  intros Hf Hs Hd. unfold convert_png_to_bin, try_except, convert_png_to_bin_try.
  rewrite (bind_inr _ _ _ _ _ (Path_exists_Some _ _ _ Hf)).
  cbv beta iota delta [negb]. rewrite Hs.
  change (".png" =? ".png")%string with true. cbv iota.
  erewrite bind_inl; [reflexivity|].
  unfold Image_open. rewrite (bind_inr _ _ _ _ _ (open_rb_File _ _ _ Hf)).
  rewrite Hd. reflexivity.
Qed.

Lemma read_bin_to_png_missing bin_path png_path has_metadata (fs : filesystem) :
  fs !! bin_path = None ->
  read_bin_to_png bin_path png_path has_metadata fs
  = (inr (false, "BIN file not found: " +:+ bin_path), fs).
Proof.
  intros H. apply try_except_inr. unfold read_bin_to_png_try.
  erewrite bind_inr by (apply Path_exists_None, H). reflexivity.
Qed.

(** The destination the decoder writes to (lines 95-98). *)
Lemma read_bin_to_png_try_open bin_path png_path has_metadata
    (fs : filesystem) c out :
  fs !! bin_path = Some (File c) ->
  destination png_path bin_path ".png" = inr out ->
  read_bin_to_png_try bin_path png_path has_metadata fs
  = decode_block bin_path out has_metadata c fs.
Proof.
  intros H Hout. unfold read_bin_to_png_try.
  erewrite bind_inr by (eapply Path_exists_Some, H). simpl.
  erewrite bind_inr; cycle 1.
  { destruct png_path; simpl in *.
    - injection Hout as ->. reflexivity.
    - rewrite Hout. reflexivity. }
  erewrite bind_inr by (apply open_rb_File, H). reflexivity.
Qed.

End Boundary.

(** ** The container the encoder writes *)

Lemma le32_length n : length (struct.le32 n) = 4%nat.
Proof. reflexivity. Qed.

Lemma container_length w h bpp size data :
  Z.of_nat (length (container w h bpp size data)) = 17 + Z.of_nat (length data).
Proof.
  unfold container. rewrite !length_app, !le32_length. simpl length. lia.
Qed.

Lemma pack_I_ok n : u32 n -> struct.pack_I n = inr (struct.le32 n).
Proof.
  intros [H0 H1]. unfold struct.pack_I.
  destruct (Z.leb_spec 0 n), (Z.ltb_spec n 4294967296); try lia. reflexivity.
Qed.

Lemma pack_I_inv n b : struct.pack_I n = inr b -> u32 n /\ b = struct.le32 n.
Proof.
  unfold struct.pack_I, u32.
  destruct (Z.leb_spec 0 n), (Z.ltb_spec n 4294967296); simpl; intros E;
    inversion E; subst; auto with lia.
Qed.

Lemma pack_I_error n : ~ u32 n -> exists e, struct.pack_I n = inl e.
Proof.
  intros Hn. destruct (struct.pack_I n) as [e|b] eqn:E; [eauto|].
  apply pack_I_inv in E. tauto.
Qed.

Section Encoder.

Context {lib : ImageLib}.

Lemma convert_png_to_bin_try_open png_path bin_path (fs : filesystem) c img dest :
  fs !! png_path = Some (File c) ->
  lower (suffix png_path) = ".png" ->
  decodes_to_rgba c img ->
  destination bin_path png_path ".bin" = inr dest ->
  convert_png_to_bin_try png_path bin_path true fs
  = write_container png_path dest img fs.
Proof.
  intros Hf Hs (img0 & Hd & Hc) Hdest. unfold convert_png_to_bin_try.
  erewrite bind_inr by (eapply Path_exists_Some, Hf). simpl.
  rewrite Hs. simpl.
  erewrite bind_inr; cycle 1.
  { unfold Image_open. erewrite bind_inr by (apply open_rb_File, Hf).
    rewrite Hd. reflexivity. }
  erewrite bind_inr; cycle 1.
  { destruct bin_path; simpl in *.
    - injection Hdest as ->. reflexivity.
    - rewrite Hdest. reflexivity. }
  erewrite bind_inr; cycle 1.
  { destruct (negb (im_mode img0 =? "RGBA")%string).
    - rewrite Hc. reflexivity.
    - injection Hc as ->. reflexivity. }
  unfold write_container. destruct (im_size img) as [w h]. reflexivity.
Qed.

Lemma write_container_ok png_path dest img (fs : filesystem) :
  fs !! dest ≠ Some Dir ->
  u32 (im_size img).1 -> u32 (im_size img).2 ->
  u32 (Z.of_nat (length (im_bytes img))) ->
  write_container png_path dest img fs
  = (inr (true, "Successfully converted: " +:+ png_path +:+ " -> " +:+ dest),
     <[dest := File (container (im_size img).1 (im_size img).2 Byte.x04
                       (Z.of_nat (length (im_bytes img))) (im_bytes img))]> fs).
Proof.
  intros Hd Hw Hh Hn. unfold write_container.
  erewrite bind_inr by (apply open_wb_ok, Hd).
  erewrite bind_inr; cycle 1.
  { erewrite bind_inr by apply f_write_open.
    rewrite (pack_I_ok _ Hw). erewrite bind_inr by reflexivity.
    erewrite bind_inr by apply f_write_open.
    rewrite (pack_I_ok _ Hh). erewrite bind_inr by reflexivity.
    erewrite bind_inr by apply f_write_open.
    erewrite bind_inr by reflexivity.
    erewrite bind_inr by apply f_write_open.
    rewrite (pack_I_ok _ Hn). erewrite bind_inr by reflexivity.
    erewrite bind_inr by apply f_write_open.
    apply f_write_open. }
  unfold ret, container. rewrite <- !app_assoc. reflexivity.
Qed.

(** A write that raises reports failure: the destination is a directory or a
    field does not fit its four bytes. *)
Lemma write_container_raises png_path dest img (fs : filesystem) :
  ~ (fs !! dest ≠ Some Dir /\ u32 (im_size img).1 /\ u32 (im_size img).2 /\
     u32 (Z.of_nat (length (im_bytes img)))) ->
  exists e fs', write_container png_path dest img fs = (inl e, fs').
Proof.
  intros Hno. unfold write_container.
  destruct (decide (fs !! dest = Some Dir)) as [Hd|Hd].
  { unfold open_wb, bind at 1. rewrite Hd. eauto. }
  erewrite bind_inr by (apply open_wb_ok, Hd).
  destruct (struct.pack_I (im_size img).1) as [e|bw] eqn:Ew.
  { do 2 eexists. erewrite bind_inl; [reflexivity|].
    erewrite bind_inr by apply f_write_open.
    erewrite bind_inl; reflexivity. }
  destruct (struct.pack_I (im_size img).2) as [e|bh] eqn:Eh.
  { do 2 eexists. erewrite bind_inl; [reflexivity|].
    erewrite bind_inr by apply f_write_open.
    erewrite bind_inr by reflexivity.
    erewrite bind_inr by apply f_write_open.
    erewrite bind_inl; reflexivity. }
  destruct (struct.pack_I (Z.of_nat (length (im_bytes img)))) as [e|bn] eqn:En.
  { do 2 eexists. erewrite bind_inl; [reflexivity|].
    erewrite bind_inr by apply f_write_open.
    erewrite bind_inr by reflexivity.
    erewrite bind_inr by apply f_write_open.
    erewrite bind_inr by reflexivity.
    erewrite bind_inr by apply f_write_open.
    erewrite bind_inr by reflexivity.
    erewrite bind_inr by apply f_write_open.
    erewrite bind_inl; reflexivity. }
  apply pack_I_inv in Ew, Eh, En. tauto.
Qed.

End Encoder.

(** ** Reading a container *)

Lemma f_read_app (n : Z) (a r : list byte) :
  length a = Z.to_nat n -> f_read n (a ++ r) = (a, r).
Proof.
  intros H. unfold f_read. rewrite <- H.
  rewrite take_app_length, drop_app_length. reflexivity.
Qed.

Section Decoder.

Context {lib : ImageLib}.

Lemma read_bin_to_png_try_container bin_path png_path (fs : filesystem)
    w h bpp size rest out :
  fs !! bin_path = Some (File (container w h bpp size rest)) ->
  u32 w -> u32 h -> u32 size ->
  destination png_path bin_path ".png" = inr out ->
  read_bin_to_png_try bin_path png_path true fs
  = rebuild bin_path out w h (take (Z.to_nat size) rest) fs.
Proof.
  intros Hf Hw Hh Hs Hout.
  rewrite (read_bin_to_png_try_open _ _ _ _ _ _ Hf Hout).
  unfold decode_block, container.
  rewrite f_read_app by reflexivity.
  rewrite bool_decide_eq_true_2 by reflexivity. cbv beta iota delta [negb].
  rewrite f_read_app by reflexivity. rewrite (unpack_pack_I _ Hw).
  erewrite bind_inr by reflexivity.
  rewrite f_read_app by reflexivity. rewrite (unpack_pack_I _ Hh).
  erewrite bind_inr by reflexivity.
  rewrite f_read_app by reflexivity.
  erewrite bind_inr by reflexivity.
  rewrite f_read_app by reflexivity. rewrite (unpack_pack_I _ Hs).
  erewrite bind_inr by reflexivity.
  reflexivity.
Qed.

(** What [Image_save] does, by what its path names. *)
Lemma Image_save_run img out (fs : filesystem) :
  Image_save img out fs =
  match fs !! out with
  | Some Dir => (inl (IsADirectoryError out), fs)
  | Some (File _) =>
      match png_encode img with
      | inr k => (inr tt, <[out := File k]> fs)
      | inl e => (inl e, <[out := File (png_partial img)]> fs)
      end
  | None =>
      match png_encode img with
      | inr k => (inr tt, <[out := File k]> fs)
      | inl e =>
          if ends_with_char "/" out
          then (inl (IsADirectoryError out), <[out := File (png_partial img)]> fs)
          else (inl e, fs)
      end
  end.
Proof.
  unfold Image_save.
  change (bind (Path_exists out) ?k fs) with (k (bool_decide (is_Some (fs !! out))) fs).
  cbv beta.
  destruct (decide (fs !! out = Some Dir)) as [Hd|Hd].
  { rewrite Hd. unfold bind, open_wb. rewrite Hd. reflexivity. }
  rewrite (bind_inr _ _ _ _ _ (open_wb_ok out fs Hd)).
  destruct (png_encode img) as [e|k].
  2:{ rewrite f_write_open.
      destruct (fs !! out) as [[c|]|] eqn:Hf; first [reflexivity|congruence]. }
  rewrite (bind_inr _ _ _ _ _ (f_write_open out fs [] (png_partial img))).
  destruct (fs !! out) as [[c|]|] eqn:Hf; [|congruence|].
  - rewrite bool_decide_eq_true_2 by eauto. reflexivity.
  - rewrite bool_decide_eq_false_2 by (intros [x Hx]; discriminate).
    unfold negb, bind, os_remove.
    destruct (ends_with_char "/" out); [reflexivity|].
    rewrite lookup_insert_eq, (delete_insert_id fs out _ Hf). reflexivity.
Qed.

Lemma Image_save_ok img out (fs : filesystem) k :
  png_encode img = inr k ->
  fs !! out ≠ Some Dir ->
  Image_save img out fs = (inr tt, <[out := File k]> fs).
Proof.
  intros Hk Hd. rewrite Image_save_run, Hk.
  destruct (fs !! out) as [[c|]|] eqn:Hf; congruence.
Qed.

Lemma rebuild_ok bin_path out w h px (fs : filesystem) img k :
  Image_frombytes "RGBA" (w, h) px = inr img ->
  png_encode img = inr k ->
  fs !! out ≠ Some Dir ->
  rebuild bin_path out w h px fs
  = (inr (true, "Successfully converted: " +:+ bin_path +:+ " -> " +:+ out),
     <[out := File k]> fs).
Proof.
  intros Hi Hk Hd. unfold rebuild. rewrite Hi.
  erewrite bind_inr by reflexivity.
  erewrite bind_inr by (apply Image_save_ok; eassumption).
  reflexivity.
Qed.

Lemma rebuild_rejected bin_path out w h px (fs : filesystem) e :
  Image_frombytes "RGBA" (w, h) px = inl e ->
  rebuild bin_path out w h px fs = (inl e, fs).
Proof.
  intros Hi. unfold rebuild. rewrite Hi. reflexivity.
Qed.

End Decoder.

(** ** The boundary *)

Section Outcomes.

Context {lib : ImageLib}.

Lemma try_except_returns {A} (m : M (bool * A)) (h : exn -> A) (fs : filesystem) :
  exists b a fs',
    try_except m (fun e => ret (false, h e)) fs = (inr (b, a), fs') /\
    forall e fs1, m fs = (inl e, fs1) -> b = false /\ a = h e /\ fs' = fs1.
Proof.
  unfold try_except. destruct (m fs) as [[e|[b a]] fs1].
  - exists false, (h e), fs1. split; [reflexivity|].
    intros e' fs2 [= <- <-]. auto.
  - exists b, a, fs1. split; [reflexivity|]. intros e' fs2 [=].
Qed.

Lemma convert_png_to_bin_header png_path bin_path (fs : filesystem) c img dest :
  fs !! png_path = Some (File c) ->
  lower (suffix png_path) = ".png" ->
  decodes_to_rgba c img ->
  destination bin_path png_path ".bin" = inr dest ->
  convert_png_to_bin png_path bin_path true fs
  = try_except (write_container png_path dest img)
      (fun e => ret (false, "Error converting PNG: " +:+ str e)) fs.
Proof.
  intros Hf Hs Hd Hdest. unfold convert_png_to_bin, try_except.
  rewrite (convert_png_to_bin_try_open _ _ _ _ _ _ Hf Hs Hd Hdest). reflexivity.
Qed.

(** With a header, the encoder succeeds exactly when the destination can be
    written and the three fields fit their four bytes. *)
Lemma convert_png_to_bin_success png_path bin_path (fs : filesystem) c img dest
    msg fs' :
  fs !! png_path = Some (File c) ->
  lower (suffix png_path) = ".png" ->
  decodes_to_rgba c img ->
  destination bin_path png_path ".bin" = inr dest ->
  convert_png_to_bin png_path bin_path true fs = (inr (true, msg), fs') ->
  fs !! dest ≠ Some Dir /\ u32 (im_size img).1 /\ u32 (im_size img).2 /\
  u32 (Z.of_nat (length (im_bytes img))) /\
  fs' = <[dest := File (container (im_size img).1 (im_size img).2 Byte.x04
                          (Z.of_nat (length (im_bytes img))) (im_bytes img))]> fs.
Proof.
  intros Hf Hs Hd Hdest.
  rewrite (convert_png_to_bin_header _ _ _ _ _ _ Hf Hs Hd Hdest).
  destruct (decide (fs !! dest ≠ Some Dir /\ u32 (im_size img).1 /\
                    u32 (im_size img).2 /\
                    u32 (Z.of_nat (length (im_bytes img))))) as [Hok|Hno].
  - destruct Hok as (H1 & H2 & H3 & H4).
    erewrite try_except_inr by (apply write_container_ok; assumption).
    intros [= <- <-]. auto.
  - destruct (write_container_raises png_path dest img fs Hno) as (e & fs1 & He).
    erewrite try_except_inl by exact He. intros [=].
Qed.

Lemma convert_png_to_bin_ok png_path bin_path (fs : filesystem) c img dest :
  fs !! png_path = Some (File c) ->
  lower (suffix png_path) = ".png" ->
  decodes_to_rgba c img ->
  destination bin_path png_path ".bin" = inr dest ->
  fs !! dest ≠ Some Dir ->
  u32 (im_size img).1 -> u32 (im_size img).2 ->
  u32 (Z.of_nat (length (im_bytes img))) ->
  convert_png_to_bin png_path bin_path true fs
  = (inr (true, "Successfully converted: " +:+ png_path +:+ " -> " +:+ dest),
     <[dest := File (container (im_size img).1 (im_size img).2 Byte.x04
                       (Z.of_nat (length (im_bytes img))) (im_bytes img))]> fs).
Proof.
  intros Hf Hs Hd Hdest Hdir Hw Hh Hn.
  rewrite (convert_png_to_bin_header _ _ _ _ _ _ Hf Hs Hd Hdest).
  apply try_except_inr, write_container_ok; assumption.
Qed.

(** Without a header only the buffer is written (lines 65-67). *)
Lemma convert_png_to_bin_raw png_path bin_path (fs : filesystem) c img dest :
  fs !! png_path = Some (File c) ->
  lower (suffix png_path) = ".png" ->
  decodes_to_rgba c img ->
  destination bin_path png_path ".bin" = inr dest ->
  fs !! dest ≠ Some Dir ->
  convert_png_to_bin png_path bin_path false fs
  = (inr (true, "Successfully converted: " +:+ png_path +:+ " -> " +:+ dest),
     <[dest := File (im_bytes img)]> fs).
Proof.
  intros Hf Hs (img0 & Hd & Hc) Hdest Hdir.
  apply try_except_inr. unfold convert_png_to_bin_try.
  erewrite bind_inr by (eapply Path_exists_Some, Hf). simpl.
  rewrite Hs. simpl.
  erewrite bind_inr; cycle 1.
  { unfold Image_open. erewrite bind_inr by (apply open_rb_File, Hf).
    rewrite Hd. reflexivity. }
  erewrite bind_inr; cycle 1.
  { destruct bin_path; simpl in *.
    - injection Hdest as ->. reflexivity.
    - rewrite Hdest. reflexivity. }
  erewrite bind_inr; cycle 1.
  { destruct (negb (im_mode img0 =? "RGBA")%string).
    - rewrite Hc. reflexivity.
    - injection Hc as ->. reflexivity. }
  destruct (im_size img) as [w h].
  erewrite bind_inr by (apply open_wb_ok, Hdir).
  erewrite bind_inr by apply f_write_open. reflexivity.
Qed.

End Outcomes.

(** ** What the decoder does with a container *)

Section Rebuild.

Context {lib : ImageLib}.

Lemma rgba_buffer_u32 w h px :
  rgba_buffer w h px -> u32 (w * h * 4) -> u32 w /\ u32 h.
Proof. unfold rgba_buffer, u32. intros (Hw & Hh & _) Hn. nia. Qed.

Lemma read_bin_to_png_container bin_path png_path (fs : filesystem)
    w h bpp size rest out :
  fs !! bin_path = Some (File (container w h bpp size rest)) ->
  u32 w -> u32 h -> u32 size ->
  destination png_path bin_path ".png" = inr out ->
  read_bin_to_png bin_path png_path true fs
  = try_except (rebuild bin_path out w h (take (Z.to_nat size) rest))
      (fun e => ret (false, "Error converting BIN to PNG: " +:+ str e)) fs.
Proof.
  intros Hf Hw Hh Hs Hout. unfold read_bin_to_png, try_except.
  rewrite (read_bin_to_png_try_container _ _ _ _ _ _ _ _ _ Hf Hw Hh Hs Hout).
  reflexivity.
Qed.

(** The header byte at offset 12 is read and dropped. *)
Lemma decode_block_bpp bin_path out (pre post : list byte) (b1 b2 : byte) :
  length pre = 12%nat ->
  decode_block bin_path out true (pre ++ b1 :: post)
  = decode_block bin_path out true (pre ++ b2 :: post).
Proof.
  intros Hpre.
  do 12 (destruct pre as [|? pre]; [discriminate Hpre|]).
  destruct pre; [|discriminate Hpre].
  reflexivity.
Qed.

(** [rebuild] reads nothing of the file system and writes at most [out]. *)
Lemma rebuild_frame bin_path out w h px (fs1 fs2 : filesystem) :
  (fs1 !! out = Some Dir <-> fs2 !! out = Some Dir) ->
  (fs1 !! out = None <-> fs2 !! out = None) ->
  exists r,
    (rebuild bin_path out w h px fs1 = (r, fs1) /\
     rebuild bin_path out w h px fs2 = (r, fs2)) \/
    (exists k,
       rebuild bin_path out w h px fs1 = (r, <[out := File k]> fs1) /\
       rebuild bin_path out w h px fs2 = (r, <[out := File k]> fs2)).
Proof.
  intros Hdir Hnone. unfold rebuild.
  destruct (Image_frombytes "RGBA" (w, h) px) as [e|img] eqn:Hi.
  { exists (inl e). left. split; reflexivity. }
  rewrite bind_lift_inr. unfold bind. rewrite !Image_save_run.
  destruct (fs1 !! out) as [[c1|]|], (fs2 !! out) as [[c2|]|];
    try (exfalso; destruct Hdir as [Ha Hb]; destruct Hnone as [Hc Hd];
         first [ discriminate (Ha eq_refl) | discriminate (Hb eq_refl)
               | discriminate (Hc eq_refl) | discriminate (Hd eq_refl) ]).
  all: destruct (png_encode img) as [e|k]; try destruct (ends_with_char "/" out);
    eexists;
    first [ left; split; reflexivity | right; eexists; split; reflexivity ].
Qed.

Lemma decode_block_frame bin_path out c (fs1 fs2 : filesystem) :
  (fs1 !! out = Some Dir <-> fs2 !! out = Some Dir) ->
  (fs1 !! out = None <-> fs2 !! out = None) ->
  exists r,
    (decode_block bin_path out true c fs1 = (r, fs1) /\
     decode_block bin_path out true c fs2 = (r, fs2)) \/
    (exists k,
       decode_block bin_path out true c fs1 = (r, <[out := File k]> fs1) /\
       decode_block bin_path out true c fs2 = (r, <[out := File k]> fs2)).
Proof.
  intros Hdir Hnone. unfold decode_block, f_read.
  destruct (negb (bool_decide (take (Z.to_nat 4) c = magic))).
  { eexists. left. split; reflexivity. }
  set (c1 := drop (Z.to_nat 4) c).
  destruct (struct.unpack_I (take (Z.to_nat 4) c1)) as [e|w].
  { exists (inl e). left. split; reflexivity. }
  set (c2 := drop (Z.to_nat 4) c1).
  destruct (struct.unpack_I (take (Z.to_nat 4) c2)) as [e|h].
  { exists (inl e). left. split; reflexivity. }
  set (c3 := drop (Z.to_nat 4) c2).
  destruct (struct.unpack_B (take (Z.to_nat 1) c3)) as [e|m].
  { exists (inl e). left. split; reflexivity. }
  set (c4 := drop (Z.to_nat 1) c3).
  destruct (struct.unpack_I (take (Z.to_nat 4) c4)) as [e|n].
  { exists (inl e). left. split; reflexivity. }
  rewrite !bind_lift_inr.
  apply rebuild_frame; assumption.
Qed.

Lemma try_except_frame (m : M (bool * string)) h out (fs1 fs2 : filesystem) :
  (exists r,
     (m fs1 = (r, fs1) /\ m fs2 = (r, fs2)) \/
     (exists k, m fs1 = (r, <[out := File k]> fs1) /\
                m fs2 = (r, <[out := File k]> fs2))) ->
  exists r,
    (try_except m (fun e => ret (false, h e)) fs1 = (inr r, fs1) /\
     try_except m (fun e => ret (false, h e)) fs2 = (inr r, fs2)) \/
    (exists k,
       try_except m (fun e => ret (false, h e)) fs1 = (inr r, <[out := File k]> fs1) /\
       try_except m (fun e => ret (false, h e)) fs2 = (inr r, <[out := File k]> fs2)).
Proof.
  intros [[e|r] [[H1 H2]|(k & H1 & H2)]]; unfold try_except; rewrite H1, H2;
    eexists; solve [left; split; reflexivity | right; eexists; split; reflexivity].
Qed.

(** A file that ends after the bytes-per-pixel byte: the read of the data
    size finds nothing to unpack. *)
Lemma decode_block_header_only bin_path out w h (fs : filesystem) :
  u32 w -> u32 h ->
  decode_block bin_path out true
    (magic ++ struct.le32 w ++ struct.le32 h ++ [Byte.x04]) fs
  = (inl (struct_error "unpack requires a buffer of 4 bytes"), fs).
Proof.
  intros Hw Hh. unfold decode_block.
  rewrite f_read_app by reflexivity.
  rewrite bool_decide_eq_true_2 by reflexivity. cbv beta iota delta [negb].
  rewrite f_read_app by reflexivity. rewrite (unpack_pack_I _ Hw).
  rewrite bind_lift_inr.
  rewrite f_read_app by reflexivity. rewrite (unpack_pack_I _ Hh).
  rewrite bind_lift_inr.
  reflexivity.
Qed.

End Rebuild.

(** ** The reference library keeps the contracts *)

Lemma raw_lib_frombytes_builds : frombytes_builds raw_lib.
Proof.
  intros w h px (Hw & Hh & Hlen). simpl. unfold raw_frombytes. simpl.
  rewrite bool_decide_eq_true_2 by exact Hlen. reflexivity.
Qed.

Lemma raw_lib_frombytes_checks_length : frombytes_checks_length raw_lib.
Proof.
  intros w h px Hlen. simpl. unfold raw_frombytes. simpl.
  rewrite bool_decide_eq_false_2 by exact Hlen. eauto.
Qed.

Lemma frombytes_checks_length_short lib :
  frombytes_checks_length lib -> frombytes_needs_enough lib.
Proof. intros Hcheck w h px Hshort. apply Hcheck. lia. Qed.

Lemma raw_lib_png_encode_total : png_encode_total raw_lib.
Proof.
  intros w h px Hbuf Hn. simpl. unfold raw_encode. simpl.
  destruct (rgba_buffer_u32 w h px Hbuf Hn) as [Hw Hh].
  rewrite (pack_I_ok w Hw), (pack_I_ok h Hh). eauto.
Qed.

Lemma raw_lib_opens_within_limit : opens_within_limit raw_lib.
Proof.
  intros c img (img0 & Hd & Hc). simpl in Hd. unfold raw_decode in Hd.
  destruct (struct.unpack_I (take 4 c)) as [e|w]; [discriminate|].
  destruct (struct.unpack_I (take 4 (drop 4 c))) as [e|h]; [discriminate|].
  destruct (Z.ltb_spec (2 * MAX_IMAGE_PIXELS) (w * h)) as [Hbig|Hfit];
    [discriminate|].
  destruct (bool_decide_reflect
              (1 <= w /\ 1 <= h /\ Z.of_nat (length (drop 8 c)) = w * h * 4))
    as [Hbuf|Hbuf]; [|discriminate].
  injection Hd as <-. simpl in Hc. injection Hc as <-.
  split; [exact Hbuf|exact Hfit].
Qed.

(** ** Little-endian fields *)

Lemma le32_little_endian (n : Z) : struct.le32 n = little_endian_u32 n.
Proof.
  unfold struct.le32, little_endian_u32.
  change 255 with (Z.ones 8).
  rewrite !Z.land_ones by lia.
  rewrite !Z.shiftr_div_pow2 by lia.
  reflexivity.
Qed.

(** ** The 16384 x 16384 image *)

Lemma bomb_pixels_length : Z.of_nat (length bomb_pixels) = 1073741824.
Proof.
  unfold bomb_pixels. rewrite repeat_length. apply Z2Nat.id. lia.
Qed.

Global Opaque bomb_pixels.

Lemma bomb_image_buffer : rgba_buffer 16384 16384 bomb_pixels.
Proof.
  unfold rgba_buffer. rewrite bomb_pixels_length. lia.
Qed.

Lemma bomb_file_refused :
  png_decode (ImageLib := raw_lib) bomb_file = inl (DecompressionBombError 268435456).
Proof.
  simpl. unfold raw_decode, bomb_file.
  change (take 4 (struct.le32 16384 ++ struct.le32 16384 ++ bomb_pixels))
    with (struct.le32 16384).
  change (drop 4 (struct.le32 16384 ++ struct.le32 16384 ++ bomb_pixels))
    with (struct.le32 16384 ++ bomb_pixels)%list.
  change (take 4 (struct.le32 16384 ++ bomb_pixels)) with (struct.le32 16384).
  rewrite !unpack_pack_I by (unfold u32; lia).
  reflexivity.
Qed.

(** * The properties of the specification *)

(** ** Failures reported at the boundary *)

(** C7: a source path that does not exist, or whose extension is not '.png'
    up to case, makes [convert_png_to_bin] return [(False, message)] and
    change nothing; a source path that does not exist makes
    [read_bin_to_png] return [(False, message)] and change nothing. *)
Theorem missing_or_wrong_source_reported {lib : ImageLib} :
  (forall png_path bin_path include_metadata (fs : filesystem),
     fs !! png_path = None \/ lower (suffix png_path) <> ".png" ->
     exists msg,
       convert_png_to_bin png_path bin_path include_metadata fs
       = (inr (false, msg), fs) /\
       (msg = "PNG file not found: " +:+ png_path \/
        msg = "File is not a PNG: " +:+ png_path)) /\
  (forall bin_path png_path has_metadata (fs : filesystem),
     fs !! bin_path = None ->
     read_bin_to_png bin_path png_path has_metadata fs
     = (inr (false, "BIN file not found: " +:+ bin_path), fs)).
Proof.
  split.
  - intros png_path bin_path include_metadata fs Hsrc.
    destruct (fs !! png_path) as [x|] eqn:Hf.
    + destruct Hsrc as [Hnone|Hext]; [discriminate|].
      eexists. split; [|right; reflexivity].
      eapply convert_png_to_bin_not_png; eassumption.
    + eexists. split; [|left; reflexivity].
      apply convert_png_to_bin_missing, Hf.
  - intros bin_path png_path has_metadata fs Hf.
    apply read_bin_to_png_missing, Hf.
Qed.

Lemma missing_or_wrong_source_reported_witness :
  (exists msg,
     convert_png_to_bin (lib := raw_lib) "a.PNG.txt" None true
       {[ "a.PNG.txt" := File file_1x1 ]}
     = (inr (false, msg), {[ "a.PNG.txt" := File file_1x1 ]}) /\
     (msg = "PNG file not found: a.PNG.txt" \/
      msg = "File is not a PNG: a.PNG.txt")) /\
  read_bin_to_png (lib := raw_lib) "a.bin" None true fs_1x1
  = (inr (false, "BIN file not found: a.bin"), fs_1x1).
Proof.
  destruct (missing_or_wrong_source_reported (lib := raw_lib)) as [Henc Hdec].
  split.
  - apply (Henc "a.PNG.txt" None true). right. vm_compute. discriminate.
  - apply (Hdec "a.bin" None true fs_1x1). reflexivity.
Defined.

(** C8: for every path, flag and file system both operations return a
    [(success, message)] pair and never raise; an exception raised inside
    the [try] block is turned into [(False, prefix + str(e))]. *)
Theorem operations_never_raise {lib : ImageLib} :
  (forall png_path bin_path include_metadata (fs : filesystem),
     exists b msg fs',
       convert_png_to_bin png_path bin_path include_metadata fs
       = (inr (b, msg), fs') /\
       forall e fs1,
         convert_png_to_bin_try png_path bin_path include_metadata fs = (inl e, fs1) ->
         b = false /\ msg = "Error converting PNG: " +:+ str e /\ fs' = fs1) /\
  (forall bin_path png_path has_metadata (fs : filesystem),
     exists b msg fs',
       read_bin_to_png bin_path png_path has_metadata fs = (inr (b, msg), fs') /\
       forall e fs1,
         read_bin_to_png_try bin_path png_path has_metadata fs = (inl e, fs1) ->
         b = false /\ msg = "Error converting BIN to PNG: " +:+ str e /\ fs' = fs1).
Proof.
  split; intros src dst flag fs.
  - apply (try_except_returns (convert_png_to_bin_try src dst flag)
             (fun e => "Error converting PNG: " +:+ str e)).
  - apply (try_except_returns (read_bin_to_png_try src dst flag)
             (fun e => "Error converting BIN to PNG: " +:+ str e)).
Qed.

(** C8 at work: the decoder's [try] block raises on a directory and on a
    container cut inside its header, and the boundary returns a pair. *)
Lemma operations_never_raise_witness :
  (exists e fs1,
     read_bin_to_png_try (lib := raw_lib) "d" (Some "o.png") true {[ "d" := Dir ]}
     = (inl e, fs1)) /\
  (exists b msg fs',
     read_bin_to_png (lib := raw_lib) "d" (Some "o.png") true {[ "d" := Dir ]}
     = (inr (b, msg), fs') /\ b = false) /\
  (exists b msg fs',
     convert_png_to_bin (lib := raw_lib) "d.png" None true {[ "d.png" := Dir ]}
     = (inr (b, msg), fs') /\ b = false).
Proof.
  destruct (operations_never_raise (lib := raw_lib)) as [Henc Hdec].
  split; [|split].
  - do 2 eexists. vm_compute. reflexivity.
  - destruct (Hdec "d" (Some "o.png") true {[ "d" := Dir ]})
      as (b & msg & fs' & Hrun & Hcaught).
    exists b, msg, fs'. split; [exact Hrun|].
    eapply Hcaught. vm_compute. reflexivity.
  - destruct (Henc "d.png" None true {[ "d.png" := Dir ]})
      as (b & msg & fs' & Hrun & Hcaught).
    exists b, msg, fs'. split; [exact Hrun|].
    eapply Hcaught. vm_compute. reflexivity.
Defined.

(** C3: on an existing source file, whatever its content,
    [read_bin_to_png] with [has_metadata=False] returns [(False, "Cannot
    read raw BIN without metadata (width/height unknown)")] and changes
    nothing; so it does on the file [convert_png_to_bin] wrote with
    [include_metadata=False]. *)
Theorem headerless_decode_refused {lib : ImageLib} :
  (forall bin_path png_path (fs : filesystem) c out,
     fs !! bin_path = Some (File c) ->
     destination png_path bin_path ".png" = inr out ->
     read_bin_to_png bin_path png_path false fs
     = (inr (false, "Cannot read raw BIN without metadata (width/height unknown)"),
        fs)) /\
  (forall png_path bin_path out_path (fs : filesystem) c img dest out,
     fs !! png_path = Some (File c) ->
     lower (suffix png_path) = ".png" ->
     decodes_to_rgba c img ->
     destination bin_path png_path ".bin" = inr dest ->
     fs !! dest ≠ Some Dir ->
     destination out_path dest ".png" = inr out ->
     exists msg fs1,
       convert_png_to_bin png_path bin_path false fs = (inr (true, msg), fs1) /\
       fs1 !! dest = Some (File (im_bytes img)) /\
       read_bin_to_png dest out_path false fs1
       = (inr (false, "Cannot read raw BIN without metadata (width/height unknown)"),
          fs1)).
Proof.
  assert (Hraw : forall bin_path png_path (fs : filesystem) c out,
     fs !! bin_path = Some (File c) ->
     destination png_path bin_path ".png" = inr out ->
     read_bin_to_png bin_path png_path false fs
     = (inr (false, "Cannot read raw BIN without metadata (width/height unknown)"),
        fs)).
  { intros bin_path png_path fs c out Hf Hout. apply try_except_inr.
    rewrite (read_bin_to_png_try_open _ _ _ _ _ _ Hf Hout). reflexivity. }
  split; [exact Hraw|].
  intros png_path bin_path out_path fs c img dest out Hf Hs Hd Hdest Hdir Hout.
  do 2 eexists. split; [|split].
  - eapply convert_png_to_bin_raw; eassumption.
  - apply lookup_insert_eq.
  - eapply Hraw; [apply lookup_insert_eq | exact Hout].
Qed.

Lemma headerless_decode_refused_witness :
  read_bin_to_png (lib := raw_lib) "a.png" None false fs_1x1
  = (inr (false, "Cannot read raw BIN without metadata (width/height unknown)"),
     fs_1x1) /\
  exists msg fs1,
    convert_png_to_bin (lib := raw_lib) "a.png" None false fs_1x1
    = (inr (true, msg), fs1) /\
    fs1 !! "a.bin" = Some (File pixel_1x1) /\
    read_bin_to_png (lib := raw_lib) "a.bin" (Some "b.png") false fs1
    = (inr (false, "Cannot read raw BIN without metadata (width/height unknown)"),
       fs1).
Proof.
  destruct (headerless_decode_refused (lib := raw_lib)) as [Hany Hown].
  split.
  - apply (Hany "a.png" None fs_1x1 file_1x1 "a.png"); reflexivity.
  - apply (Hown "a.png" None (Some "b.png") fs_1x1 file_1x1
             {| im_mode := "RGBA"; im_size := (1, 1); im_bytes := pixel_1x1 |}
             "a.bin" "b.png"); try reflexivity.
    + exists {| im_mode := "RGBA"; im_size := (1, 1); im_bytes := pixel_1x1 |}.
      split; reflexivity.
    + vm_compute. discriminate.
Defined.

(** C4: on a source file whose first four bytes are not [50 4E 47 00],
    whatever follows them, [read_bin_to_png] with [has_metadata=True]
    returns [(False, "Invalid BIN file format (missing PNG magic number)")]
    and changes nothing. *)
Theorem bad_magic_rejected {lib : ImageLib} bin_path png_path
    (fs : filesystem) c out :
  fs !! bin_path = Some (File c) ->
  destination png_path bin_path ".png" = inr out ->
  take 4 c <> magic ->
  read_bin_to_png bin_path png_path true fs
  = (inr (false, "Invalid BIN file format (missing PNG magic number)"), fs).
Proof.
  intros Hf Hout Hmagic. apply try_except_inr.
  rewrite (read_bin_to_png_try_open _ _ _ _ _ _ Hf Hout).
  unfold decode_block, f_read. change (Z.to_nat 4) with 4%nat.
  rewrite bool_decide_eq_false_2 by exact Hmagic. reflexivity.
Qed.

Lemma bad_magic_rejected_witness :
  read_bin_to_png (lib := raw_lib) "x.bin" None true {[ "x.bin" := File bad_magic_1x1 ]}
  = (inr (false, "Invalid BIN file format (missing PNG magic number)"),
     {[ "x.bin" := File bad_magic_1x1 ]}).
Proof.
  apply (bad_magic_rejected (lib := raw_lib) "x.bin" None _ bad_magic_1x1 "x.png").
  - reflexivity.
  - reflexivity.
  - vm_compute. discriminate.
Defined.

(** ** The layout of the container *)

(** C2: the container [convert_png_to_bin] produces with
    [include_metadata=True] for an image of width [w] and height [h] is the
    four bytes [50 4E 47 00], [w] and [h] as 4-byte little-endian unsigned
    integers (least significant byte first), the byte 4, [w*h*4] as a
    4-byte little-endian unsigned integer, and the pixel bytes:
    [17 + w*h*4] bytes in all.  It is produced whenever the destination can
    be written and [w*h*4] fits four bytes. *)
Theorem header_container_layout {lib : ImageLib} png_path bin_path
    (fs : filesystem) c img dest w h :
  fs !! png_path = Some (File c) ->
  lower (suffix png_path) = ".png" ->
  decodes_to_rgba c img ->
  destination bin_path png_path ".bin" = inr dest ->
  im_size img = (w, h) ->
  Z.of_nat (length (im_bytes img)) = w * h * 4 ->
  let k := ([Byte.x50; Byte.x4e; Byte.x47; Byte.x00]
              ++ little_endian_u32 w ++ little_endian_u32 h ++ [Byte.x04]
              ++ little_endian_u32 (w * h * 4) ++ im_bytes img)%list in
  (forall msg fs',
     convert_png_to_bin png_path bin_path true fs = (inr (true, msg), fs') ->
     fs' !! dest = Some (File k) /\
     Z.of_nat (length k) = 17 + w * h * 4 /\
     struct.unpack_I (take 4 (drop 4 k)) = inr w /\
     struct.unpack_I (take 4 (drop 8 k)) = inr h /\
     struct.unpack_I (take 4 (drop 13 k)) = inr (w * h * 4)) /\
  (1 <= w -> 1 <= h -> u32 (w * h * 4) -> fs !! dest ≠ Some Dir ->
   exists msg,
     convert_png_to_bin png_path bin_path true fs
     = (inr (true, msg), <[dest := File k]> fs)).
Proof.
  intros Hf Hs Hd Hdest Hsize Hlen.
  rewrite <- !le32_little_endian.
  change [Byte.x50; Byte.x4e; Byte.x47; Byte.x00] with magic.
  intros k. split.
  - intros msg fs' Hrun.
    destruct (convert_png_to_bin_success _ _ _ _ _ _ _ _ Hf Hs Hd Hdest Hrun)
      as (_ & Hw & Hh & Hn & ->).
    rewrite Hsize, Hlen in *. simpl in Hw, Hh.
    split; [apply lookup_insert_eq|].
    split; [fold (container w h Byte.x04 (w * h * 4) (im_bytes img)) in k;
            subst k; rewrite container_length; lia|].
    subst k. repeat split.
    + exact (unpack_pack_I w Hw).
    + exact (unpack_pack_I h Hh).
    + exact (unpack_pack_I (w * h * 4) Hn).
  - intros Hw1 Hh1 Hn Hdir. eexists.
    rewrite (convert_png_to_bin_ok _ _ _ _ _ _ Hf Hs Hd Hdest Hdir);
      rewrite ?Hsize, ?Hlen; simpl; unfold u32 in *; try nia.
    reflexivity.
Qed.

Lemma header_container_layout_witness :
  let k := ([Byte.x50; Byte.x4e; Byte.x47; Byte.x00]
              ++ little_endian_u32 1 ++ little_endian_u32 1 ++ [Byte.x04]
              ++ little_endian_u32 (1 * 1 * 4) ++ pixel_1x1)%list in
  exists msg fs',
    convert_png_to_bin (lib := raw_lib) "a.png" None true fs_1x1
    = (inr (true, msg), fs') /\
    fs' !! "a.bin" = Some (File k) /\
    Z.of_nat (length k) = 17 + 1 * 1 * 4 /\
    struct.unpack_I (take 4 (drop 4 k)) = inr 1 /\
    struct.unpack_I (take 4 (drop 8 k)) = inr 1 /\
    struct.unpack_I (take 4 (drop 13 k)) = inr (1 * 1 * 4).
Proof.
  intros k.
  destruct (header_container_layout (lib := raw_lib) "a.png" None fs_1x1 file_1x1
              {| im_mode := "RGBA"; im_size := (1, 1); im_bytes := pixel_1x1 |}
              "a.bin" 1 1) as [Hlayout Hproduced]; try reflexivity.
  { exists {| im_mode := "RGBA"; im_size := (1, 1); im_bytes := pixel_1x1 |}.
    split; reflexivity. }
  destruct Hproduced as [msg Hrun]; try lia.
  { unfold u32. lia. }
  { vm_compute. discriminate. }
  exists msg, (<["a.bin" := File k]> fs_1x1). split; [exact Hrun|].
  apply (Hlayout msg), Hrun.
Defined.

(** C9: encoding a 1x1 image whose pixel is (10,20,30,40) with
    [include_metadata=True] produces a container whose bytes 13-16 are
    [04 00 00 00] and whose bytes 17-20 are [0A 14 1E 28]. *)
Theorem one_pixel_container {lib : ImageLib} png_path bin_path
    (fs : filesystem) c img dest :
  fs !! png_path = Some (File c) ->
  lower (suffix png_path) = ".png" ->
  decodes_to_rgba c img ->
  destination bin_path png_path ".bin" = inr dest ->
  fs !! dest ≠ Some Dir ->
  im_size img = (1, 1) ->
  im_bytes img = [Byte.x0a; Byte.x14; Byte.x1e; Byte.x28] ->
  exists msg fs' k,
    convert_png_to_bin png_path bin_path true fs = (inr (true, msg), fs') /\
    fs' !! dest = Some (File k) /\
    length k = 21%nat /\
    take 4 (drop 13 k) = [Byte.x04; Byte.x00; Byte.x00; Byte.x00] /\
    take 4 (drop 17 k) = [Byte.x0a; Byte.x14; Byte.x1e; Byte.x28].
Proof.
  intros Hf Hs Hd Hdest Hdir Hsize Hpx.
  pose proof (convert_png_to_bin_ok _ _ _ _ _ _ Hf Hs Hd Hdest Hdir) as Hrun.
  rewrite Hsize, Hpx in Hrun. simpl fst in Hrun. simpl snd in Hrun.
  simpl length in Hrun.
  do 3 eexists. split; [apply Hrun; unfold u32; simpl; lia|].
  split; [apply lookup_insert_eq|].
  repeat split; vm_compute; reflexivity.
Qed.

Lemma one_pixel_container_witness :
  exists msg fs' k,
    convert_png_to_bin (lib := raw_lib) "a.png" None true fs_1x1
    = (inr (true, msg), fs') /\
    fs' !! "a.bin" = Some (File k) /\
    length k = 21%nat /\
    take 4 (drop 13 k) = [Byte.x04; Byte.x00; Byte.x00; Byte.x00] /\
    take 4 (drop 17 k) = [Byte.x0a; Byte.x14; Byte.x1e; Byte.x28].
Proof.
  apply (one_pixel_container (lib := raw_lib) "a.png" None fs_1x1 file_1x1
           {| im_mode := "RGBA"; im_size := (1, 1); im_bytes := pixel_1x1 |}
           "a.bin"); try reflexivity.
  - exists {| im_mode := "RGBA"; im_size := (1, 1); im_bytes := pixel_1x1 |}.
    split; reflexivity.
  - vm_compute. discriminate.
Defined.

(** ** Round trip *)

(** C1, amended: for every image with width >= 1, height >= 1 and RGBA
    content that the library opens from the source file, which PIL does
    for at most [2 * MAX_IMAGE_PIXELS] = 178,956,970 pixels,
    [convert_png_to_bin] with [include_metadata=True] succeeds, and
    [read_bin_to_png] with [has_metadata=True] on the container it wrote
    succeeds, rebuilds the image from the identical width, height and pixel
    buffer, and saves it. *)
Theorem roundtrip {lib : ImageLib} png_path bin_path out_path
    (fs : filesystem) c img dest out w h :
  frombytes_builds lib ->
  png_encode_total lib ->
  fs !! png_path = Some (File c) ->
  lower (suffix png_path) = ".png" ->
  decodes_to_rgba c img ->
  im_size img = (w, h) ->
  rgba_buffer w h (im_bytes img) ->
  w * h <= 2 * MAX_IMAGE_PIXELS ->
  destination bin_path png_path ".bin" = inr dest ->
  fs !! dest ≠ Some Dir ->
  destination out_path dest ".png" = inr out ->
  fs !! out ≠ Some Dir ->
  exists m1 fs1 m2 fs2 k,
    convert_png_to_bin png_path bin_path true fs = (inr (true, m1), fs1) /\
    read_bin_to_png_try dest out_path true fs1
    = rebuild dest out w h (im_bytes img) fs1 /\
    Image_frombytes "RGBA" (w, h) (im_bytes img)
    = inr {| im_mode := "RGBA"; im_size := (w, h); im_bytes := im_bytes img |} /\
    png_encode {| im_mode := "RGBA"; im_size := (w, h); im_bytes := im_bytes img |}
    = inr k /\
    read_bin_to_png dest out_path true fs1 = (inr (true, m2), fs2) /\
    fs2 !! out = Some (File k).
Proof.
  intros Hbuild Hsave Hf Hs Hd Hsize Hbuf Hlimit Hdest Hdir Hout Hodir.
  assert (Hn : u32 (w * h * 4)).
  { destruct Hbuf as (_ & _ & Hlen). unfold u32, MAX_IMAGE_PIXELS in *. lia. }
  destruct (rgba_buffer_u32 _ _ _ Hbuf Hn) as [Hw Hh].
  pose proof Hbuf as (_ & _ & Hlen).
  destruct (Hsave w h (im_bytes img) Hbuf Hn) as [k Hk].
  pose proof (convert_png_to_bin_ok _ _ _ _ _ _ Hf Hs Hd Hdest Hdir) as Henc.
  rewrite Hsize, Hlen in Henc. simpl fst in Henc. simpl snd in Henc.
  specialize (Henc Hw Hh Hn).
  set (fs1 := <[dest := File (container w h Byte.x04 (w * h * 4) (im_bytes img))]> fs)
    in *.
  assert (Hf1 : fs1 !! dest
                = Some (File (container w h Byte.x04 (w * h * 4) (im_bytes img))))
    by apply lookup_insert_eq.
  assert (Hodir1 : fs1 !! out ≠ Some Dir).
  { subst fs1. destruct (decide (dest = out)) as [->|Hne].
    - rewrite lookup_insert_eq. discriminate.
    - rewrite lookup_insert_ne by exact Hne. exact Hodir. }
  assert (Htake : take (Z.to_nat (w * h * 4)) (im_bytes img) = im_bytes img).
  { apply take_ge. lia. }
  pose proof (read_bin_to_png_try_container _ _ _ _ _ _ _ _ _ Hf1 Hw Hh Hn Hout)
    as Htry.
  rewrite Htake in Htry.
  eexists _, fs1, _, (<[out := File k]> fs1), k.
  split; [exact Henc|]. split; [exact Htry|].
  split; [apply Hbuild, Hbuf|]. split; [exact Hk|]. split.
  - unfold read_bin_to_png. apply try_except_inr. rewrite Htry.
    eapply rebuild_ok; [apply Hbuild, Hbuf | exact Hk | exact Hodir1].
  - apply lookup_insert_eq.
Qed.

Lemma roundtrip_witness :
  exists m1 fs1 m2 fs2 k,
    convert_png_to_bin (lib := raw_lib) "a.png" None true fs_1x1
    = (inr (true, m1), fs1) /\
    read_bin_to_png_try (lib := raw_lib) "a.bin" (Some "b.png") true fs1
    = rebuild (lib := raw_lib) "a.bin" "b.png" 1 1 pixel_1x1 fs1 /\
    Image_frombytes (ImageLib := raw_lib) "RGBA" (1, 1) pixel_1x1
    = inr {| im_mode := "RGBA"; im_size := (1, 1); im_bytes := pixel_1x1 |} /\
    png_encode (ImageLib := raw_lib)
      {| im_mode := "RGBA"; im_size := (1, 1); im_bytes := pixel_1x1 |}
    = inr k /\
    read_bin_to_png (lib := raw_lib) "a.bin" (Some "b.png") true fs1
    = (inr (true, m2), fs2) /\
    fs2 !! "b.png" = Some (File k).
Proof.
  apply (roundtrip (lib := raw_lib) "a.png" None (Some "b.png") fs_1x1 file_1x1
           {| im_mode := "RGBA"; im_size := (1, 1); im_bytes := pixel_1x1 |}
           "a.bin" "b.png" 1 1).
  - exact raw_lib_frombytes_builds.
  - exact raw_lib_png_encode_total.
  - reflexivity.
  - reflexivity.
  - exists {| im_mode := "RGBA"; im_size := (1, 1); im_bytes := pixel_1x1 |}.
    split; reflexivity.
  - reflexivity.
  - unfold rgba_buffer. simpl. lia.
  - unfold MAX_IMAGE_PIXELS. lia.
  - reflexivity.
  - vm_compute. discriminate.
  - reflexivity.
  - vm_compute. discriminate.
Defined.

(** C1 as stated fails on a 16384 x 16384 image: width and height are at
    least 1, the source file holds the image with all its 2^30 bytes of
    RGBA content and the destination is free, the library keeps its
    contracts, yet [Image.open] refuses the 268,435,456 pixels, so the
    encoder reports failure and writes nothing, and there is no container
    to decode. *)
Lemma roundtrip_refused :
  bomb_fs !! "bomb.png" = Some (File bomb_file) /\
  lower (suffix "bomb.png") = ".png" /\
  bomb_file = (struct.le32 16384 ++ struct.le32 16384 ++ bomb_pixels)%list /\
  rgba_buffer 16384 16384 bomb_pixels /\
  frombytes_builds raw_lib /\
  png_encode_total raw_lib /\
  bomb_fs !! "bomb.bin" = None /\
  convert_png_to_bin (lib := raw_lib) "bomb.png" None true bomb_fs
  = (inr (false,
          "Error converting PNG: Image size (268435456 pixels) exceeds limit of 178956970 pixels, could be decompression bomb DOS attack."),
     bomb_fs) /\
  read_bin_to_png (lib := raw_lib) "bomb.bin" (Some "out.png") true bomb_fs
  = (inr (false, "BIN file not found: bomb.bin"), bomb_fs).
Proof.
  assert (Hf : bomb_fs !! "bomb.png" = Some (File bomb_file))
    by apply lookup_singleton_eq.
  assert (Hfree : bomb_fs !! "bomb.bin" = None)
    by (apply lookup_singleton_ne; discriminate).
  split; [exact Hf|]. split; [reflexivity|]. split; [reflexivity|].
  split; [exact bomb_image_buffer|].
  split; [exact raw_lib_frombytes_builds|].
  split; [exact raw_lib_png_encode_total|]. split; [exact Hfree|].
  split.
  - exact (convert_png_to_bin_undecodable (lib := raw_lib) "bomb.png" None true
             bomb_fs bomb_file _ Hf eq_refl bomb_file_refused).
  - exact (read_bin_to_png_missing (lib := raw_lib) "bomb.bin" (Some "out.png")
             true bomb_fs Hfree).
Qed.

(** ** The data-size field and the buffer read *)

(** C5 as stated fails: the data-size field (5) is larger than the number
    of bytes after the header (4), the library refuses every buffer of the
    wrong length, and yet the decoder succeeds: the 4 bytes it reads make
    up the 1x1 image. *)
Lemma oversized_data_size_accepted :
  struct.unpack_I (take 4 (drop 13 oversized_1x1)) = inr 5 /\
  length (drop 17 oversized_1x1) = 4%nat /\
  frombytes_checks_length raw_lib /\
  read_bin_to_png (lib := raw_lib) "t.bin" None true
    {[ "t.bin" := File oversized_1x1 ]}
  = (inr (true, "Successfully converted: t.bin -> t.png"),
     <["t.png" := File (struct.le32 1 ++ struct.le32 1 ++ pixel_1x1)]>
       {[ "t.bin" := File oversized_1x1 ]}).
Proof.
  split; [reflexivity|]. split; [reflexivity|].
  split; [exact raw_lib_frombytes_checks_length|].
  vm_compute. reflexivity.
Qed.

(** C5, amended: on a container with a complete header, when the pixel
    buffer actually read (the first [data_size] bytes after the header, or
    all of them when fewer remain) is shorter than [width*height*4],
    [Image.frombytes] has not enough data and [read_bin_to_png] returns
    [(False, "Error converting BIN to PNG: ...")] and writes nothing; this is
    the case of a container whose [data_size] is [width*height*4] with fewer
    bytes left.  With an image library that refuses every buffer whose length
    differs from [width*height*4], so it is for every such buffer.  The
    data-size field itself is compared with nothing. *)
Theorem wrong_buffer_length_rejected {lib : ImageLib} bin_path png_path
    (fs : filesystem) w h bpp size rest out :
  fs !! bin_path = Some (File (container w h bpp size rest)) ->
  u32 w -> u32 h -> u32 size ->
  destination png_path bin_path ".png" = inr out ->
  let pixel_data := take (Z.to_nat size) rest in
  let fails :=
    exists e,
      read_bin_to_png_try bin_path png_path true fs = (inl e, fs) /\
      read_bin_to_png bin_path png_path true fs
      = (inr (false, "Error converting BIN to PNG: " +:+ str e), fs) in
  (frombytes_needs_enough lib ->
   Z.of_nat (length pixel_data) < w * h * 4 -> fails) /\
  (frombytes_needs_enough lib ->
   size = w * h * 4 -> Z.of_nat (length rest) < size -> fails) /\
  (frombytes_checks_length lib ->
   Z.of_nat (length pixel_data) <> w * h * 4 -> fails).
Proof.
  intros Hf Hw Hh Hs Hout pixel_data fails.
  assert (Hmain : forall e,
            Image_frombytes "RGBA" (w, h) pixel_data = inl e -> fails).
  { intros e He. exists e.
    assert (Htry : read_bin_to_png_try bin_path png_path true fs = (inl e, fs)).
    { rewrite (read_bin_to_png_try_container _ _ _ _ _ _ _ _ _ Hf Hw Hh Hs Hout).
      apply rebuild_rejected, He. }
    split; [exact Htry|].
    unfold read_bin_to_png. rewrite (try_except_inl _ _ _ _ _ Htry).
    reflexivity. }
  split; [|split].
  - intros Hshort Hlen. destruct (Hshort w h pixel_data Hlen) as [e He].
    exact (Hmain e He).
  - intros Hshort Hsize Hrest.
    destruct (Hshort w h pixel_data) as [e He]; [|exact (Hmain e He)].
    subst pixel_data. rewrite length_take. lia.
  - intros Hcheck Hlen. destruct (Hcheck w h pixel_data Hlen) as [e He].
    exact (Hmain e He).
Qed.

Lemma wrong_buffer_length_rejected_witness :
  exists e,
    read_bin_to_png_try (lib := raw_lib) "t.bin" None true
      {[ "t.bin" := File truncated_1x1 ]}
    = (inl e, {[ "t.bin" := File truncated_1x1 ]}) /\
    read_bin_to_png (lib := raw_lib) "t.bin" None true
      {[ "t.bin" := File truncated_1x1 ]}
    = (inr (false, "Error converting BIN to PNG: " +:+ str e),
       {[ "t.bin" := File truncated_1x1 ]}).
Proof.
  destruct (wrong_buffer_length_rejected (lib := raw_lib) "t.bin" None
              {[ "t.bin" := File truncated_1x1 ]} 1 1 Byte.x04 4
              [Byte.x0a; Byte.x14; Byte.x1e] "t.png") as (_ & Htrunc & _).
  - reflexivity.
  - unfold u32. lia.
  - unfold u32. lia.
  - unfold u32. lia.
  - reflexivity.
  - apply Htrunc.
    + apply frombytes_checks_length_short, raw_lib_frombytes_checks_length.
    + reflexivity.
    + simpl. lia.
Defined.

(** ** The bytes-per-pixel byte *)

(** C6: two containers that differ at most in the byte at offset 12 get the
    same result from [read_bin_to_png] with [has_metadata=True]: the same
    pair [(success, message)], and either no write at all or the same PNG
    bytes written to the same destination.  The byte is never compared with
    4. *)
Theorem bytes_per_pixel_ignored {lib : ImageLib} bin_path png_path
    (fs : filesystem) (c1 c2 : list byte) :
  length c1 = length c2 ->
  (forall i : nat, i <> 12%nat -> c1 !! i = c2 !! i) ->
  let fs1 := <[bin_path := File c1]> fs in
  let fs2 := <[bin_path := File c2]> fs in
  exists r,
    (read_bin_to_png bin_path png_path true fs1 = (inr r, fs1) /\
     read_bin_to_png bin_path png_path true fs2 = (inr r, fs2)) \/
    (exists out k,
       destination png_path bin_path ".png" = inr out /\
       read_bin_to_png bin_path png_path true fs1 = (inr r, <[out := File k]> fs1) /\
       read_bin_to_png bin_path png_path true fs2 = (inr r, <[out := File k]> fs2)).
Proof.
  intros Hlen Hsame fs1 fs2.
  assert (Hf1 : fs1 !! bin_path = Some (File c1)) by apply lookup_insert_eq.
  assert (Hf2 : fs2 !! bin_path = Some (File c2)) by apply lookup_insert_eq.
  destruct (destination png_path bin_path ".png") as [e|out] eqn:Hout.
  { (* the default destination cannot be formed: both calls report it *)
    exists (false, "Error converting BIN to PNG: " +:+ str e). left.
    unfold read_bin_to_png, try_except, read_bin_to_png_try.
    rewrite (bind_inr _ _ _ _ _ (Path_exists_Some _ _ _ Hf1)).
    rewrite (bind_inr _ _ _ _ _ (Path_exists_Some _ _ _ Hf2)).
    destruct png_path as [p|]; [discriminate Hout|]. simpl in Hout.
    simpl. rewrite Hout. split; reflexivity. }
  assert (Hblock : decode_block bin_path out true c1
                   = decode_block bin_path out true c2).
  { destruct (decide (length c1 ≤ 12)%nat) as [Hshort|Hlong].
    - f_equal. apply list_eq. intros i.
      destruct (decide (i = 12%nat)) as [->|Hi]; [|apply Hsame, Hi].
      rewrite !lookup_ge_None_2 by lia. reflexivity.
    - destruct (lookup_lt_is_Some_2 c1 12) as [b1 Hb1]; [lia|].
      destruct (lookup_lt_is_Some_2 c2 12) as [b2 Hb2]; [lia|].
      rewrite <- (take_drop_middle c1 12 b1 Hb1), <- (take_drop_middle c2 12 b2 Hb2).
      replace (take 12 c2) with (take 12 c1); cycle 1.
      { apply list_eq. intros i. destruct (decide (i < 12)%nat).
        - rewrite !lookup_take_lt by assumption. apply Hsame. lia.
        - rewrite !lookup_take_ge by lia. reflexivity. }
      replace (drop 13 c2) with (drop 13 c1); cycle 1.
      { apply list_eq. intros i. rewrite !lookup_drop. apply Hsame. lia. }
      apply decode_block_bpp. rewrite length_take. lia. }
  assert (Hdir : fs1 !! out = Some Dir <-> fs2 !! out = Some Dir).
  { subst fs1 fs2. destruct (decide (bin_path = out)) as [->|Hne].
    - rewrite !lookup_insert_eq. split; discriminate.
    - rewrite !lookup_insert_ne by exact Hne. reflexivity. }
  assert (Hnone : fs1 !! out = None <-> fs2 !! out = None).
  { subst fs1 fs2. destruct (decide (bin_path = out)) as [->|Hne].
    - rewrite !lookup_insert_eq. split; discriminate.
    - rewrite !lookup_insert_ne by exact Hne. reflexivity. }
  pose proof (decode_block_frame bin_path out c1 fs1 fs2 Hdir Hnone) as Hframe.
  rewrite <- (read_bin_to_png_try_open _ _ true _ _ _ Hf1 Hout) in Hframe.
  rewrite Hblock in Hframe.
  rewrite <- (read_bin_to_png_try_open _ _ true _ _ _ Hf2 Hout) in Hframe.
  destruct (try_except_frame _ (fun e => "Error converting BIN to PNG: " +:+ str e)
              _ _ _ Hframe) as [r [Hr|(k & Hr)]].
  - exists r. left. exact Hr.
  - exists r. right. exists out, k. split; [reflexivity|exact Hr].
Qed.

Lemma bytes_per_pixel_ignored_witness :
  let fs1 : filesystem := <["t.bin" := File (container 1 1 Byte.x04 4 pixel_1x1)]> ∅ in
  let fs2 : filesystem := <["t.bin" := File seven_1x1]> ∅ in
  exists r,
    (read_bin_to_png (lib := raw_lib) "t.bin" None true fs1 = (inr r, fs1) /\
     read_bin_to_png (lib := raw_lib) "t.bin" None true fs2 = (inr r, fs2)) \/
    (exists out k,
       destination None "t.bin" ".png" = inr out /\
       read_bin_to_png (lib := raw_lib) "t.bin" None true fs1
       = (inr r, <[out := File k]> fs1) /\
       read_bin_to_png (lib := raw_lib) "t.bin" None true fs2
       = (inr r, <[out := File k]> fs2)).
Proof.
  apply (bytes_per_pixel_ignored (lib := raw_lib) "t.bin" None ∅
           (container 1 1 Byte.x04 4 pixel_1x1) seven_1x1).
  - reflexivity.
  - intros i Hi.
    do 12 (destruct i as [|i]; [reflexivity|]).
    destruct i as [|i]; [contradiction Hi; reflexivity|].
    reflexivity.
Defined.

(** ** The decoder and the source's name *)

(** C10: [read_bin_to_png] makes no check of its source path's extension:
    on an existing file that holds a well-formed header container it
    succeeds with [has_metadata=True] whatever the path's name, while
    [convert_png_to_bin] refuses an existing source whose extension is not
    '.png'. *)
Theorem decoder_checks_no_extension {lib : ImageLib} bin_path png_path
    (fs : filesystem) w h bpp px out :
  frombytes_builds lib ->
  png_encode_total lib ->
  fs !! bin_path = Some (File (container w h bpp (w * h * 4) px)) ->
  rgba_buffer w h px ->
  u32 (w * h * 4) ->
  destination png_path bin_path ".png" = inr out ->
  fs !! out ≠ Some Dir ->
  (exists k,
     png_encode {| im_mode := "RGBA"; im_size := (w, h); im_bytes := px |} = inr k /\
     read_bin_to_png bin_path png_path true fs
     = (inr (true, "Successfully converted: " +:+ bin_path +:+ " -> " +:+ out),
        <[out := File k]> fs)) /\
  (lower (suffix bin_path) <> ".png" ->
   forall dest include_metadata,
     convert_png_to_bin bin_path dest include_metadata fs
     = (inr (false, "File is not a PNG: " +:+ bin_path), fs)).
Proof.
  intros Hbuild Hsave Hf Hbuf Hn Hout Hodir. split.
  - destruct (rgba_buffer_u32 _ _ _ Hbuf Hn) as [Hw Hh].
    destruct (Hsave w h px Hbuf Hn) as [k Hk]. exists k. split; [exact Hk|].
    rewrite (read_bin_to_png_container _ _ _ _ _ _ _ _ _ Hf Hw Hh Hn Hout).
    apply try_except_inr.
    replace (take (Z.to_nat (w * h * 4)) px) with px; cycle 1.
    { symmetry. apply take_ge. destruct Hbuf as (_ & _ & Hlen). lia. }
    eapply rebuild_ok; [apply Hbuild, Hbuf | exact Hk | exact Hodir].
  - intros Hext dest include_metadata.
    eapply convert_png_to_bin_not_png; eassumption.
Qed.

Lemma decoder_checks_no_extension_witness :
  let fs : filesystem :=
    {[ "photo.jpeg" := File (container 1 1 Byte.x04 (1 * 1 * 4) pixel_1x1) ]} in
  (exists k,
     png_encode (ImageLib := raw_lib)
       {| im_mode := "RGBA"; im_size := (1, 1); im_bytes := pixel_1x1 |} = inr k /\
     read_bin_to_png (lib := raw_lib) "photo.jpeg" None true fs
     = (inr (true, "Successfully converted: photo.jpeg -> photo.png"),
        <["photo.png" := File k]> fs)) /\
  convert_png_to_bin (lib := raw_lib) "photo.jpeg" None true fs
  = (inr (false, "File is not a PNG: photo.jpeg"), fs).
Proof.
  intros fs.
  destruct (decoder_checks_no_extension (lib := raw_lib) "photo.jpeg" None fs
              1 1 Byte.x04 pixel_1x1 "photo.png") as [Hdec Henc].
  - exact raw_lib_frombytes_builds.
  - exact raw_lib_png_encode_total.
  - reflexivity.
  - unfold rgba_buffer. simpl. lia.
  - unfold u32. lia.
  - reflexivity.
  - vm_compute. discriminate.
  - split; [exact Hdec|]. apply Henc. vm_compute. discriminate.
Defined.

(** * Further properties *)

Lemma testbit_byte_high (b : byte) (i : Z) : 8 <= i -> Z.testbit (byte_to_Z b) i = false.
Proof.
  intros Hi. pose proof (byte_to_Z_range b) as Hb.
  rewrite <- (Z.mod_small (byte_to_Z b) (2 ^ 8)) by (change (2 ^ 8) with 256; lia).
  apply Z.mod_pow2_bits_high. lia.
Qed.

Lemma lane_of_bytes (b0 b1 b2 b3 : byte) (k : Z) (b : byte) :
  (k = 0 /\ b = b0) \/ (k = 8 /\ b = b1) \/ (k = 16 /\ b = b2) \/ (k = 24 /\ b = b3) ->
  Z.land (Z.shiftr (Z.lor (byte_to_Z b0)
            (Z.lor (Z.shiftl (byte_to_Z b1) 8)
            (Z.lor (Z.shiftl (byte_to_Z b2) 16)
                   (Z.shiftl (byte_to_Z b3) 24)))) k) 255 = byte_to_Z b.
Proof.
  intros Hk. apply Z.bits_inj'. intros i Hi.
  assert (0 <= k) by lia.
  rewrite Z.land_spec, Z.shiftr_spec, testbit_255 by lia.
  rewrite !Z.lor_spec, !Z.shiftl_spec by lia.
  destruct (Z.ltb_spec i 8) as [Hlt|Hge].
  - rewrite andb_true_r.
    destruct Hk as [[-> ->]|[[-> ->]|[[-> ->]|[-> ->]]]].
    + rewrite Z.add_0_r.
      rewrite (Z.testbit_neg_r _ (i - 8)), (Z.testbit_neg_r _ (i - 16)),
        (Z.testbit_neg_r _ (i - 24)) by lia.
      rewrite !orb_false_r. reflexivity.
    + rewrite (testbit_byte_high b0) by lia.
      rewrite (Z.testbit_neg_r _ (i + 8 - 16)), (Z.testbit_neg_r _ (i + 8 - 24)) by lia.
      rewrite !orb_false_r. simpl. f_equal. lia.
    + rewrite (testbit_byte_high b0), (testbit_byte_high b1) by lia.
      rewrite (Z.testbit_neg_r _ (i + 16 - 24)) by lia.
      rewrite !orb_false_r. simpl. f_equal. lia.
    + rewrite (testbit_byte_high b0), (testbit_byte_high b1), (testbit_byte_high b2) by lia.
      simpl. f_equal. lia.
  - rewrite andb_false_r. symmetry. apply testbit_byte_high. lia.
Qed.

Lemma pack_unpack_I (b : list byte) (n : Z) :
  struct.unpack_I b = inr n -> u32 n /\ struct.le32 n = b.
Proof.
  unfold struct.unpack_I.
  destruct b as [|b0 [|b1 [|b2 [|b3 [|? ?]]]]]; try discriminate.
  intros [= <-]. split.
  - unfold u32.
    pose proof (byte_to_Z_range b0). pose proof (byte_to_Z_range b1).
    pose proof (byte_to_Z_range b2). pose proof (byte_to_Z_range b3).
    split.
    + repeat (apply Z.lor_nonneg; split); try apply Z.shiftl_nonneg; lia.
    + change 4294967296 with (2 ^ 32).
      match goal with |- ?x < _ => assert (0 <= x) end.
      { repeat (apply Z.lor_nonneg; split); try apply Z.shiftl_nonneg; lia. }
      match goal with |- ?x < _ => destruct (Z.eq_dec x 0) as [->|Hnz] end; [lia|].
      apply Z.log2_lt_pow2; [lia|].
      repeat (rewrite Z.log2_lor by (repeat (apply Z.lor_nonneg; split); try apply Z.shiftl_nonneg; lia)).
      assert (forall b k, 0 <= k -> Z.log2 (Z.shiftl (byte_to_Z b) k) < 8 + k).
      { intros b k Hk. pose proof (byte_to_Z_range b).
        destruct (Z.eq_dec (byte_to_Z b) 0) as [->|Hb].
        - rewrite Z.shiftl_0_l. simpl. lia.
        - rewrite Z.log2_shiftl by lia.
          assert (Z.log2 (byte_to_Z b) < 8) by (apply Z.log2_lt_pow2; [lia|change (2^8) with 256; lia]).
          lia. }
      pose proof (H4 b0 0 ltac:(lia)) as H00. rewrite Z.shiftl_0_r in H00.
      pose proof (H4 b1 8 ltac:(lia)). pose proof (H4 b2 16 ltac:(lia)).
      pose proof (H4 b3 24 ltac:(lia)). lia.
  - unfold struct.le32.
    rewrite <- (Z.shiftr_0_r (Z.lor (byte_to_Z b0) _)) at 1.
    rewrite (lane_of_bytes b0 b1 b2 b3 0 b0), (lane_of_bytes b0 b1 b2 b3 8 b1),
      (lane_of_bytes b0 b1 b2 b3 16 b2), (lane_of_bytes b0 b1 b2 b3 24 b3) by tauto.
    rewrite !Z_to_byte_to_Z. reflexivity.
Qed.

Lemma destination_lift (given : option string) (source ext : string) :
  match given with
  | None => lift (with_suffix source ext)
  | Some p => ret p
  end = lift (destination given source ext).
Proof. destruct given; reflexivity. Qed.

Section EncoderCases.
Context {lib : ImageLib}.

Lemma convert_png_to_bin_try_unreadable png_path bin_path include_metadata
    (fs : filesystem) :
  (exists img dest, encodable fs png_path bin_path img dest) \/
  (exists r, convert_png_to_bin_try png_path bin_path include_metadata fs = (r, fs) /\
             forall msg, r <> inr (true, msg)).
Proof.
  unfold convert_png_to_bin_try.
  destruct (fs !! png_path) as [x|] eqn:Hf.
  2:{ right. erewrite bind_inr by (apply Path_exists_None, Hf).
      eexists. split; [reflexivity|]. intros msg [=]. }
  erewrite bind_inr by (eapply Path_exists_Some, Hf). simpl.
  destruct (String.eqb_spec (lower (suffix png_path)) ".png") as [Hs|Hs]; simpl.
  2:{ right. eexists. split; [reflexivity|]. intros msg [=]. }
  destruct x as [c|].
  2:{ right. erewrite bind_inl; cycle 1.
      { unfold Image_open. erewrite bind_inl; [reflexivity|].
        unfold open_rb. rewrite Hf. reflexivity. }
      eexists. split; [reflexivity|]. intros msg [=]. }
  destruct (png_decode c) as [e|img0] eqn:Hd.
  { right. erewrite bind_inl; cycle 1.
    { unfold Image_open. erewrite bind_inr by (apply open_rb_File, Hf).
      rewrite Hd. reflexivity. }
    eexists. split; [reflexivity|]. intros msg [=]. }
  erewrite bind_inr; cycle 1.
  { unfold Image_open. erewrite bind_inr by (apply open_rb_File, Hf).
    rewrite Hd. reflexivity. }
  rewrite (destination_lift bin_path png_path ".bin").
  destruct (destination bin_path png_path ".bin") as [e|dest] eqn:Hdest.
  { right. rewrite bind_lift_inl.
    eexists. split; [reflexivity|]. intros msg [=]. }
  rewrite bind_lift_inr.
  destruct (if negb (im_mode img0 =? "RGBA")%string
            then Image_convert img0 "RGBA" else inr img0) as [e|img] eqn:Hc.
  { right. erewrite bind_inl; cycle 1.
    { destruct (negb (im_mode img0 =? "RGBA")%string).
      - rewrite Hc. reflexivity.
      - discriminate Hc. }
    eexists. split; [reflexivity|]. intros msg [=]. }
  left. exists img, dest, c. repeat split; try assumption.
  exists img0. split; assumption.
Qed.

End EncoderCases.

Section EncoderMore.
Context {lib : ImageLib}.

(** Lines 54-69 in either mode, once the source is read. *)
Lemma convert_png_to_bin_try_encodable png_path bin_path include_metadata
    (fs : filesystem) img dest :
  encodable fs png_path bin_path img dest ->
  convert_png_to_bin_try png_path bin_path include_metadata fs
  = (if include_metadata then write_container png_path dest img
     else
       (let* f := open_wb dest in
        do f_write f (im_bytes img) in
        ret (true, "Successfully converted: " +:+ png_path +:+ " -> " +:+ dest))%mon)
      fs.
Proof.
  intros (c & Hf & Hs & (img0 & Hd & Hc) & Hdest).
  destruct include_metadata.
  { eapply convert_png_to_bin_try_open; try eassumption. exists img0. auto. }
  unfold convert_png_to_bin_try.
  erewrite bind_inr by (eapply Path_exists_Some, Hf). simpl.
  rewrite Hs. simpl.
  erewrite bind_inr; cycle 1.
  { unfold Image_open. erewrite bind_inr by (apply open_rb_File, Hf).
    rewrite Hd. reflexivity. }
  rewrite (destination_lift bin_path png_path ".bin"), Hdest, bind_lift_inr.
  erewrite bind_inr; cycle 1.
  { destruct (negb (im_mode img0 =? "RGBA")%string).
    - rewrite Hc. reflexivity.
    - injection Hc as ->. reflexivity. }
  destruct (im_size img) as [w h]. reflexivity.
Qed.

Lemma convert_png_to_bin_true png_path bin_path include_metadata
    (fs fs' : filesystem) msg :
  convert_png_to_bin png_path bin_path include_metadata fs = (inr (true, msg), fs') ->
  exists img dest,
    encodable fs png_path bin_path img dest /\
    fs !! dest ≠ Some Dir /\
    (include_metadata = true ->
     u32 (im_size img).1 /\ u32 (im_size img).2 /\
     u32 (Z.of_nat (length (im_bytes img)))) /\
    msg = "Successfully converted: " +:+ png_path +:+ " -> " +:+ dest /\
    fs' = <[dest := File (encoded include_metadata img)]> fs.
Proof.
  intros Hrun.
  destruct (convert_png_to_bin_try_unreadable png_path bin_path include_metadata fs)
    as [(img & dest & Henc)|(r & Hr & Hnot)].
  2:{ unfold convert_png_to_bin, try_except in Hrun. rewrite Hr in Hrun.
      destruct r as [e|[b m]].
      - discriminate Hrun.
      - injection Hrun as -> -> _. destruct (Hnot msg eq_refl). }
  exists img, dest. split; [exact Henc|].
  pose proof Henc as (c & Hf & Hs & Hd & Hdest).
  destruct include_metadata.
  - destruct (convert_png_to_bin_success _ _ _ _ _ _ _ _ Hf Hs Hd Hdest Hrun)
      as (Hdir & Hw & Hh & Hn & ->).
    split; [exact Hdir|]. split; [intros _; auto|]. split; [|reflexivity].
    rewrite (convert_png_to_bin_ok _ _ _ _ _ _ Hf Hs Hd Hdest Hdir Hw Hh Hn) in Hrun.
    congruence.
  - destruct (decide (fs !! dest = Some Dir)) as [Hdir|Hdir].
    { unfold convert_png_to_bin, try_except in Hrun.
      rewrite (convert_png_to_bin_try_encodable _ _ _ _ _ _ Henc) in Hrun.
      unfold bind, open_wb in Hrun. rewrite Hdir in Hrun. discriminate Hrun. }
    rewrite (convert_png_to_bin_raw _ _ _ _ _ _ Hf Hs Hd Hdest Hdir) in Hrun.
    injection Hrun as <- <-.
    split; [exact Hdir|]. split; [discriminate|]. split; reflexivity.
Qed.

End EncoderMore.

Section DecoderCases.
Context {lib : ImageLib}.

Lemma decode_block_container bin_path out w h bpp size rest :
  u32 w -> u32 h -> u32 size ->
  decode_block bin_path out true (container w h bpp size rest)
  = rebuild bin_path out w h (take (Z.to_nat size) rest).
Proof.
  intros Hw Hh Hs. unfold decode_block, container.
  rewrite f_read_app by reflexivity.
  rewrite bool_decide_eq_true_2 by reflexivity. cbv beta iota delta [negb].
  rewrite f_read_app by reflexivity. rewrite (unpack_pack_I _ Hw), bind_lift_inr.
  rewrite f_read_app by reflexivity. rewrite (unpack_pack_I _ Hh), bind_lift_inr.
  rewrite f_read_app by reflexivity.
  change (struct.unpack_B [bpp]) with (@inr exn Z (byte_to_Z bpp)).
  rewrite bind_lift_inr.
  rewrite f_read_app by reflexivity. rewrite (unpack_pack_I _ Hs), bind_lift_inr.
  reflexivity.
Qed.

(** Either the source is a complete header followed by some bytes, or the
    block returns or raises without touching the file system. *)
Lemma decode_block_parse bin_path out (c : list byte) :
  (exists w h bpp size rest,
     c = container w h bpp size rest /\ u32 w /\ u32 h /\ u32 size) \/
  (exists r, (forall fs : filesystem, decode_block bin_path out true c fs = (r, fs)) /\
             forall msg, r <> inr (true, msg)).
Proof.
  destruct (decide (take 4 c = magic)) as [Hm|Hm].
  2:{ right. eexists. split.
      - intros fs. unfold decode_block, f_read. change (Z.to_nat 4) with 4%nat.
        rewrite bool_decide_eq_false_2 by exact Hm. reflexivity.
      - intros msg [=]. }
  assert (Hc : c = (magic ++ drop 4 c)%list) by (rewrite <- Hm; symmetry; apply take_drop).
  set (c1 := drop 4 c) in *.
  destruct (struct.unpack_I (take 4 c1)) as [e|w] eqn:Ew.
  { right. exists (inl e). split; [|intros msg [=]].
    intros fs. rewrite Hc. unfold decode_block.
    rewrite f_read_app by reflexivity.
    rewrite bool_decide_eq_true_2 by reflexivity. cbv beta iota delta [negb].
    unfold f_read at 1. change (Z.to_nat 4) with 4%nat. rewrite Ew. reflexivity. }
  destruct (pack_unpack_I _ _ Ew) as [Hw Hbw].
  assert (Hc1 : c1 = (struct.le32 w ++ drop 4 c1)%list)
    by (rewrite Hbw; symmetry; apply take_drop).
  set (c2 := drop 4 c1) in *.
  destruct (struct.unpack_I (take 4 c2)) as [e|h] eqn:Eh.
  { right. exists (inl e). split; [|intros msg [=]].
    intros fs. rewrite Hc, Hc1. unfold decode_block.
    rewrite f_read_app by reflexivity.
    rewrite bool_decide_eq_true_2 by reflexivity. cbv beta iota delta [negb].
    rewrite f_read_app by reflexivity. rewrite (unpack_pack_I _ Hw), bind_lift_inr.
    unfold f_read at 1. change (Z.to_nat 4) with 4%nat. rewrite Eh. reflexivity. }
  destruct (pack_unpack_I _ _ Eh) as [Hh Hbh].
  assert (Hc2 : c2 = (struct.le32 h ++ drop 4 c2)%list)
    by (rewrite Hbh; symmetry; apply take_drop).
  set (c3 := drop 4 c2) in *.
  destruct c3 as [|bpp c4] eqn:Ec3.
  { right. exists (inl (struct_error "unpack requires a buffer of 1 bytes")).
    split; [|intros msg [=]].
    intros fs. rewrite Hc, Hc1, Hc2. unfold decode_block.
    rewrite f_read_app by reflexivity.
    rewrite bool_decide_eq_true_2 by reflexivity. cbv beta iota delta [negb].
    rewrite f_read_app by reflexivity. rewrite (unpack_pack_I _ Hw), bind_lift_inr.
    rewrite f_read_app by reflexivity. rewrite (unpack_pack_I _ Hh), bind_lift_inr.
    reflexivity. }
  destruct (struct.unpack_I (take 4 c4)) as [e|size] eqn:Es.
  { right. exists (inl e). split; [|intros msg [=]].
    intros fs. rewrite Hc, Hc1, Hc2. unfold decode_block.
    rewrite f_read_app by reflexivity.
    rewrite bool_decide_eq_true_2 by reflexivity. cbv beta iota delta [negb].
    rewrite f_read_app by reflexivity. rewrite (unpack_pack_I _ Hw), bind_lift_inr.
    rewrite f_read_app by reflexivity. rewrite (unpack_pack_I _ Hh), bind_lift_inr.
    change (bpp :: c4) with ([bpp] ++ c4)%list.
    rewrite (f_read_app 1 [bpp] c4) by reflexivity.
    change (struct.unpack_B [bpp]) with (@inr exn Z (byte_to_Z bpp)).
    rewrite bind_lift_inr.
    unfold f_read at 1. change (Z.to_nat 4) with 4%nat. rewrite Es. reflexivity. }
  destruct (pack_unpack_I _ _ Es) as [Hs Hbs].
  left. exists w, h, bpp, size, (drop 4 c4). split; [|auto].
  unfold container. rewrite Hbs, take_drop.
  change ([bpp] ++ c4)%list with (bpp :: c4).
  rewrite <- Hc2, <- Hc1. exact Hc.
Qed.

Lemma container_min_length w h bpp size rest :
  (17 <= length (container w h bpp size rest))%nat.
Proof.
  pose proof (container_length w h bpp size rest). lia.
Qed.

Lemma Image_save_true img out (fs fs' : filesystem) :
  Image_save img out fs = (inr tt, fs') ->
  exists k, png_encode img = inr k /\ fs !! out ≠ Some Dir /\
            fs' = <[out := File k]> fs.
Proof.
  rewrite Image_save_run.
  destruct (fs !! out) as [[c|]|]; [| discriminate |];
    destruct (png_encode img) as [e|k]; try destruct (ends_with_char "/" out);
    try discriminate; intros [= <-]; exists k; repeat split; discriminate.
Qed.

Lemma rebuild_true bin_path out w h px (fs fs' : filesystem) msg :
  rebuild bin_path out w h px fs = (inr (true, msg), fs') ->
  exists img k,
    Image_frombytes "RGBA" (w, h) px = inr img /\ png_encode img = inr k /\
    fs !! out ≠ Some Dir /\
    msg = "Successfully converted: " +:+ bin_path +:+ " -> " +:+ out /\
    fs' = <[out := File k]> fs.
Proof.
  unfold rebuild. destruct (Image_frombytes "RGBA" (w, h) px) as [e|img] eqn:Hi.
  { rewrite bind_lift_inl. discriminate. }
  rewrite bind_lift_inr. unfold bind at 1.
  destruct (Image_save img out fs) as [[e|[]] fs1] eqn:Hsave; [discriminate|].
  intros [= <- <-].
  destruct (Image_save_true _ _ _ _ Hsave) as (k & Hk & Hd & ->).
  exists img, k. auto.
Qed.

(** What makes [read_bin_to_png] report success. *)
Lemma read_bin_to_png_true bin_path png_path has_metadata (fs fs' : filesystem) msg :
  read_bin_to_png bin_path png_path has_metadata fs = (inr (true, msg), fs') ->
  has_metadata = true /\
  exists w h bpp size rest out img k,
    fs !! bin_path = Some (File (container w h bpp size rest)) /\
    u32 w /\ u32 h /\ u32 size /\
    destination png_path bin_path ".png" = inr out /\
    Image_frombytes "RGBA" (w, h) (take (Z.to_nat size) rest) = inr img /\
    png_encode img = inr k /\
    fs !! out ≠ Some Dir /\
    msg = "Successfully converted: " +:+ bin_path +:+ " -> " +:+ out /\
    fs' = <[out := File k]> fs.
Proof.
  unfold read_bin_to_png, try_except.
  destruct (fs !! bin_path) as [[c|]|] eqn:Hf.
  3:{ unfold read_bin_to_png_try.
      erewrite bind_inr by (apply Path_exists_None, Hf). discriminate. }
  2:{ unfold read_bin_to_png_try.
      erewrite bind_inr by (eapply Path_exists_Some, Hf). simpl.
      rewrite (destination_lift png_path bin_path ".png").
      destruct (destination png_path bin_path ".png") as [e|out].
      - rewrite bind_lift_inl. discriminate.
      - rewrite bind_lift_inr. unfold bind, open_rb. rewrite Hf. discriminate. }
  destruct (destination png_path bin_path ".png") as [e|out] eqn:Hout.
  { unfold read_bin_to_png_try.
    erewrite bind_inr by (eapply Path_exists_Some, Hf). simpl.
    rewrite (destination_lift png_path bin_path ".png"), Hout, bind_lift_inl.
    discriminate. }
  rewrite (read_bin_to_png_try_open _ _ _ _ _ _ Hf Hout).
  destruct has_metadata; [|discriminate].
  destruct (decode_block_parse bin_path out c)
    as [(w & h & bpp & size & rest & -> & Hw & Hh & Hs)|(r & Hr & Hnot)].
  2:{ rewrite Hr. destruct r as [e|[b m]]; [discriminate|].
      intros [= -> -> _]. destruct (Hnot msg eq_refl). }
  rewrite (decode_block_container _ _ _ _ _ _ _ Hw Hh Hs).
  destruct (rebuild bin_path out w h (take (Z.to_nat size) rest) fs)
    as [[e|[b m]] fs1] eqn:Hre; [discriminate|].
  intros [= -> -> ->]. split; [reflexivity|].
  destruct (rebuild_true _ _ _ _ _ _ _ _ Hre) as (img & k & Hi & Hk & Hd & Hm & Hfs).
  exists w, h, bpp, size, rest, out, img, k. auto 10.
Qed.

End DecoderCases.

Lemma string_app_cons (x : ascii) (a b : string) :
  String x a +:+ b = String x (a +:+ b).
Proof. reflexivity. Qed.

Lemma string_app_nil (b : string) : "" +:+ b = b.
Proof. reflexivity. Qed.

Lemma string_app_assoc (a b c : string) : (a +:+ b) +:+ c = a +:+ b +:+ c.
Proof.
  induction a as [|x a IH]; [reflexivity|].
  rewrite !string_app_cons, IH. reflexivity.
Qed.

Lemma string_app_length (a b : string) :
  String.length (a +:+ b) = (String.length a + String.length b)%nat.
Proof.
  induction a as [|x a IH]; [reflexivity|].
  rewrite string_app_cons. simpl. rewrite IH. reflexivity.
Qed.

Lemma substring_prefix (a b : string) :
  substring 0 (String.length a) (a +:+ b) = a.
Proof.
  induction a as [|x a IH].
  - rewrite string_app_nil. destruct b; reflexivity.
  - rewrite string_app_cons. simpl. rewrite IH. reflexivity.
Qed.

Lemma contains_char_app d (a b : string) :
  contains_char d (a +:+ b) = contains_char d a || contains_char d b.
Proof.
  induction a as [|x a IH]; [reflexivity|].
  rewrite string_app_cons. simpl. rewrite IH. apply orb_assoc.
Qed.

Lemma last_component_plain (x : string) :
  contains_char "/" x = false -> last_component x = x.
Proof.
  destruct x as [|c r]; simpl; [reflexivity|].
  intros H. apply orb_false_iff in H as [Hc Hr]. rewrite Hr, Hc. reflexivity.
Qed.

(** A path is a directory part and its last component. *)
Lemma last_component_split (p : string) :
  exists d, p = d +:+ last_component p /\
    contains_char "/" (last_component p) = false /\
    forall x, contains_char "/" x = false -> last_component (d +:+ x) = x.
Proof.
  induction p as [|c r (d & Hr & Hno & Hd)].
  - exists "". repeat split. intros x Hx. apply last_component_plain, Hx.
  - simpl. destruct (contains_char "/" r) eqn:Hs.
    + exists (String c d). split; [rewrite string_app_cons, <- Hr; reflexivity|].
      split; [exact Hno|].
      intros x Hx. rewrite string_app_cons. simpl.
      assert (Hdx : contains_char "/" (d +:+ x) = true).
      { rewrite contains_char_app.
        rewrite Hr, contains_char_app, Hno, orb_false_r in Hs. rewrite Hs. reflexivity. }
      rewrite Hdx. apply Hd, Hx.
    + destruct (is_char c "/") eqn:Hc.
      * exists (String c ""). split; [reflexivity|]. split; [exact Hs|].
        intros x Hx. rewrite string_app_cons, string_app_nil. simpl.
        rewrite Hx, Hc. reflexivity.
      * exists "". split; [reflexivity|]. split; [simpl; rewrite Hc, Hs; reflexivity|].
        intros x Hx. apply last_component_plain, Hx.
Qed.

Lemma from_last_dot_none (e : string) :
  contains_char "." e = false -> from_last_dot e = None.
Proof.
  induction e as [|c e IH]; simpl; [reflexivity|].
  intros H. apply orb_false_iff in H as [Hc He]. rewrite (IH He), Hc. reflexivity.
Qed.

Lemma from_last_dot_app (a e : string) :
  contains_char "." e = false ->
  from_last_dot (a +:+ String "." e) = Some (String "." e).
Proof.
  intros He. induction a as [|c a IH].
  - rewrite string_app_nil. simpl. rewrite (from_last_dot_none e He). reflexivity.
  - rewrite string_app_cons. simpl. rewrite IH. reflexivity.
Qed.

Lemma from_last_dot_some (n t : string) :
  from_last_dot n = Some t ->
  exists a e, n = a +:+ t /\ t = String "." e /\ contains_char "." e = false.
Proof.
  revert t. induction n as [|c n IH]; simpl; intros t H; [discriminate|].
  destruct (from_last_dot n) as [t'|] eqn:Hn.
  - injection H as <-. destruct (IH t' eq_refl) as (a & e & -> & -> & He).
    exists (String c a), e. auto.
  - destruct (is_char c ".") eqn:Hc; [|discriminate]. injection H as <-.
    apply Ascii.eqb_eq in Hc. subst c.
    exists "", n. repeat split.
    clear IH. induction n as [|c n IH]; simpl in *; [reflexivity|].
    destruct (from_last_dot n); [discriminate|].
    destruct (is_char c "."); [discriminate|]. simpl. apply IH. reflexivity.
Qed.

(** The path with another extension, when it has one. *)
Lemma with_suffix_of_suffixed (p : string) :
  suffix p <> "" ->
  exists stem,
    p = stem +:+ suffix p /\
    forall e, plain_ext e ->
      with_suffix p (String "." e) = inr (stem +:+ String "." e) /\
      suffix (stem +:+ String "." e) = String "." e.
Proof.
  intros Hsuf. unfold suffix in *.
  destruct (from_last_dot (name p)) as [t|] eqn:Ht; [|contradiction].
  destruct ((1 <? String.length t)%nat && (String.length t <? String.length (name p))%nat)
    eqn:Hlen; [|contradiction].
  apply andb_true_iff in Hlen as [H1 H2].
  apply Nat.ltb_lt in H1, H2.
  destruct (from_last_dot_some _ _ Ht) as (a & e0 & Hn & Hte & He0).
  assert (Hname : name p = last_component p /\ p <> ".").
  { unfold name in *. destruct (String.eqb_spec p "."); [simpl in Ht; discriminate|auto]. }
  destruct Hname as [Hname Hpdot].
  destruct (last_component_split p) as (d & Hp & Hno & Hd).
  rewrite <- Hname in Hp, Hno.
  assert (Ha : a <> "").
  { intros ->. rewrite Hn, string_app_nil in H2. lia. }
  assert (Hano : contains_char "/" a = false).
  { rewrite Hn, contains_char_app in Hno. apply orb_false_iff in Hno. tauto. }
  assert (Hpp : p = (d +:+ a) +:+ t).
  { rewrite string_app_assoc, <- Hn. exact Hp. }
  exists (d +:+ a). split; [exact Hpp|].
  intros e (Hne & Hedot & Heslash).
  assert (Hsub : substring 0 (String.length p - String.length t) p = d +:+ a).
  { rewrite Hpp, string_app_length.
    replace (String.length (d +:+ a) + String.length t - String.length t)%nat
      with (String.length (d +:+ a)) by lia.
    apply substring_prefix. }
  assert (Hax : contains_char "/" (a +:+ String "." e) = false).
  { rewrite contains_char_app, Hano. simpl. exact Heslash. }
  assert (Hname' : name ((d +:+ a) +:+ String "." e) = a +:+ String "." e).
  { unfold name. rewrite string_app_assoc.
    destruct (String.eqb_spec (d +:+ a +:+ String "." e) ".") as [Heq|_].
    - apply (f_equal String.length) in Heq.
      rewrite !string_app_length in Heq. simpl in Heq.
      destruct a; [contradiction|]. simpl in Heq. lia.
    - apply Hd, Hax. }
  split.
  - unfold with_suffix.
    destruct (String.eqb_spec (name p) "") as [Hz|_].
    { rewrite Hz in Ht. discriminate. }
    unfold suffix. rewrite Ht.
    rewrite (proj2 (andb_true_iff _ _) (conj (proj2 (Nat.ltb_lt _ _) H1)
                                             (proj2 (Nat.ltb_lt _ _) H2))).
    rewrite Hsub. reflexivity.
  - unfold suffix. rewrite Hname', (from_last_dot_app a e Hedot).
    assert (Hl1 : (1 <? String.length (String "." e))%nat = true).
    { apply Nat.ltb_lt. destruct e; [contradiction|]. simpl. lia. }
    assert (Hl2 : (String.length (String "." e) <? String.length (a +:+ String "." e))%nat
                  = true).
    { apply Nat.ltb_lt. rewrite string_app_length. destruct a; [contradiction|].
      simpl. lia. }
    rewrite Hl1, Hl2. reflexivity.
Qed.

Lemma plain_ext_bin : plain_ext "bin".
Proof. repeat split. discriminate. Qed.

Lemma plain_ext_png : plain_ext "png".
Proof. repeat split. discriminate. Qed.

(** Lines 40 and 96 composed. *)
Lemma default_destinations (p : string) :
  lower (suffix p) = ".png" ->
  exists stem,
    p = stem +:+ suffix p /\
    with_suffix p ".bin" = inr (stem +:+ ".bin") /\
    with_suffix (stem +:+ ".bin") ".png" = inr (stem +:+ ".png").
Proof.
  intros Hlow.
  assert (Hsuf : suffix p <> "") by (intros Hz; rewrite Hz in Hlow; discriminate).
  destruct (with_suffix_of_suffixed p Hsuf) as (stem & Hp & Hext).
  exists stem. split; [exact Hp|].
  destruct (Hext "bin" plain_ext_bin) as [Hbin Hsbin]. split; [exact Hbin|].
  assert (Hsuf' : suffix (stem +:+ ".bin") <> "") by (rewrite Hsbin; discriminate).
  destruct (with_suffix_of_suffixed _ Hsuf') as (stem' & Hp' & Hext').
  destruct (Hext' "png" plain_ext_png) as [Hpng _]. rewrite Hpng. f_equal. f_equal.
  rewrite Hsbin in Hp'.
  (* stem +:+ ".bin" = stem' +:+ ".bin" *)
  apply (f_equal (substring 0 (String.length stem'))) in Hp' as Hcut.
  rewrite substring_prefix in Hcut.
  assert (Hlen : String.length stem = String.length stem').
  { apply (f_equal String.length) in Hp'. rewrite !string_app_length in Hp'. lia. }
  rewrite <- Hlen, substring_prefix in Hcut. symmetry. exact Hcut.
Qed.

Lemma preserves_ret q {A} (a : A) : preserves q (ret a).
Proof. intros fs. reflexivity. Qed.

Lemma preserves_lift q {A} (r : exn + A) : preserves q (lift r).
Proof. intros fs. destruct r; reflexivity. Qed.

Lemma preserves_bind q {A B} (m : M A) (k : A -> M B) :
  preserves q m ->
  (forall a fs fs', m fs = (inr a, fs') -> preserves q (k a)) ->
  preserves q (bind m k).
Proof.
  intros Hm Hk fs. unfold bind. specialize (Hm fs).
  destruct (m fs) as [[e|a] fs'] eqn:E; simpl in *; [exact Hm|].
  rewrite (Hk a fs fs' E fs'). exact Hm.
Qed.

Lemma preserves_try_except q {A} (m : M A) (h : exn -> A) :
  preserves q m -> preserves q (try_except m (fun e => ret (h e))).
Proof.
  intros Hm fs. unfold try_except. specialize (Hm fs).
  destruct (m fs) as [[e|a] fs']; exact Hm.
Qed.

Lemma preserves_Path_exists q p : preserves q (Path_exists p).
Proof. intros fs. reflexivity. Qed.

Lemma preserves_open_rb q p : preserves q (open_rb p).
Proof. intros fs. unfold open_rb. destruct (fs !! p) as [[c|]|]; reflexivity. Qed.

Lemma preserves_open_wb q p : p <> q -> preserves q (open_wb p).
Proof.
  intros Hne fs. unfold open_wb.
  destruct (fs !! p) as [[c|]|]; simpl; rewrite ?lookup_insert_ne by exact Hne;
    reflexivity.
Qed.

Lemma open_wb_returns p (fs fs' : filesystem) f : open_wb p fs = (inr f, fs') -> f = p.
Proof.
  unfold open_wb. destruct (fs !! p) as [[c|]|]; intros [=]; congruence.
Qed.

Lemma preserves_f_write q p b : p <> q -> preserves q (f_write p b).
Proof.
  intros Hne fs. unfold f_write.
  destruct (fs !! p) as [[c|]|]; simpl; rewrite ?lookup_insert_ne by exact Hne;
    reflexivity.
Qed.

Lemma lift_returns {A} (r : exn + A) (fs fs' : filesystem) a :
  lift r fs = (inr a, fs') -> r = inr a.
Proof. destruct r; intros [=]; congruence. Qed.

Section Frames.
Context {lib : ImageLib}.

Lemma preserves_Image_open q p : preserves q (Image_open p).
Proof.
  apply preserves_bind; [apply preserves_open_rb|]. intros. apply preserves_lift.
Qed.

Lemma preserves_Image_save q img p : p <> q -> preserves q (Image_save img p).
Proof.
  intros Hne fs. rewrite Image_save_run.
  destruct (fs !! p) as [[c|]|]; [| reflexivity |];
    destruct (png_encode img) as [e|k]; try destruct (ends_with_char "/" p);
    simpl; rewrite ?lookup_insert_ne by exact Hne; reflexivity.
Qed.

Lemma preserves_convert_png_to_bin q png_path bin_path include_metadata :
  destination bin_path png_path ".bin" <> inr q ->
  preserves q (convert_png_to_bin png_path bin_path include_metadata).
Proof.
  intros Hq. apply (preserves_try_except q _ (fun e => (false, _))).
  unfold convert_png_to_bin_try.
  apply preserves_bind; [apply preserves_Path_exists|]. intros found _ _ _.
  destruct (negb found); [apply preserves_ret|].
  destruct (negb _); [apply preserves_ret|].
  apply preserves_bind; [apply preserves_Image_open|]. intros img0 _ _ _.
  rewrite (destination_lift bin_path png_path ".bin").
  apply preserves_bind; [apply preserves_lift|]. intros dest fs1 fs2 Hdest.
  apply lift_returns in Hdest.
  assert (Hne : dest <> q) by congruence.
  apply preserves_bind.
  { destruct (negb _); [apply preserves_lift|apply preserves_ret]. }
  intros img _ _ _. destruct (im_size img) as [w h].
  apply preserves_bind; [apply preserves_open_wb, Hne|]. intros f fs3 fs4 Hf.
  apply open_wb_returns in Hf as ->.
  apply preserves_bind; [|intros; apply preserves_ret].
  destruct include_metadata; [|apply preserves_f_write, Hne].
  repeat (apply preserves_bind;
          [first [apply preserves_f_write, Hne | apply preserves_lift]|intros]).
  apply preserves_f_write, Hne.
Qed.

Lemma preserves_read_bin_to_png q bin_path png_path has_metadata :
  destination png_path bin_path ".png" <> inr q ->
  preserves q (read_bin_to_png bin_path png_path has_metadata).
Proof.
  intros Hq. apply (preserves_try_except q _ (fun e => (false, _))).
  unfold read_bin_to_png_try.
  apply preserves_bind; [apply preserves_Path_exists|]. intros found _ _ _.
  destruct (negb found); [apply preserves_ret|].
  rewrite (destination_lift png_path bin_path ".png").
  apply preserves_bind; [apply preserves_lift|]. intros out fs1 fs2 Hout.
  apply lift_returns in Hout.
  assert (Hne : out <> q) by congruence.
  apply preserves_bind; [apply preserves_open_rb|]. intros c _ _ _.
  destruct has_metadata; [|apply preserves_ret].
  unfold f_read. destruct (negb _); [apply preserves_ret|].
  repeat (apply preserves_bind; [apply preserves_lift|intros]).
  apply preserves_bind; [apply preserves_Image_save, Hne|]. intros.
  apply preserves_ret.
Qed.

End Frames.

Section CommandLineFacts.
Context {lib : ImageLib}.

Lemma main_exit_status_aux (m : M (bool * string)) (fs : filesystem) b msg fs' :
  m fs = (inr (b, msg), fs') ->
  bind m (fun r => let '(success, message) := r in
                   ret ([message], if success then 0 else 1)) fs
  = (inr ([msg], if b then 0 else 1), fs').
Proof. intros H. unfold bind. rewrite H. reflexivity. Qed.

End CommandLineFacts.

(** ** The encoder beyond the container's layout *)

(** X1: when the source cannot be delivered as an RGBA image with a
    destination (it is missing, has another suffix, is a directory, does
    not decode or convert, or no destination name can be formed),
    [convert_png_to_bin] returns [(False, message)] and the file system is
    as before: the destination is neither created nor truncated.  A source
    the library does not decode is reported with the library's message. *)
Theorem unreadable_source_changes_nothing {lib : ImageLib} png_path bin_path
    include_metadata (fs : filesystem) :
  ((forall img dest, ~ encodable fs png_path bin_path img dest) ->
   exists msg,
     convert_png_to_bin png_path bin_path include_metadata fs
     = (inr (false, msg), fs)) /\
  (forall c e,
     fs !! png_path = Some (File c) ->
     lower (suffix png_path) = ".png" ->
     png_decode c = inl e ->
     convert_png_to_bin png_path bin_path include_metadata fs
     = (inr (false, "Error converting PNG: " +:+ str e), fs)).
Proof.
  split.
  - intros Hno.
    destruct (convert_png_to_bin_try_unreadable png_path bin_path include_metadata fs)
      as [(img & dest & Henc)|(r & Hr & Hnot)].
    { destruct (Hno img dest Henc). }
    unfold convert_png_to_bin, try_except. rewrite Hr.
    destruct r as [e|[[] m]].
    + eexists. reflexivity.
    + destruct (Hnot m eq_refl).
    + eexists. reflexivity.
  - intros c e Hf Hs Hd. unfold convert_png_to_bin.
    erewrite try_except_inl; [reflexivity|].
    unfold convert_png_to_bin_try.
    erewrite bind_inr by (eapply Path_exists_Some, Hf). simpl.
    rewrite Hs. simpl.
    erewrite bind_inl; [reflexivity|].
    unfold Image_open. erewrite bind_inr by (apply open_rb_File, Hf).
    rewrite Hd. reflexivity.
Qed.

Lemma unreadable_source_changes_nothing_witness :
  convert_png_to_bin (lib := raw_lib) "x.png" (Some "old.bin") true fs_garbage
  = (inr (false, "Error converting PNG: cannot identify image file"), fs_garbage).
Proof.
  destruct (unreadable_source_changes_nothing (lib := raw_lib) "x.png"
              (Some "old.bin") true fs_garbage) as [_ Hdecode].
  apply (Hdecode [Byte.x00; Byte.x01]
           (Exception "UnidentifiedImageError" "cannot identify image file"));
    reflexivity.
Defined.

(** X2: with [include_metadata=False] the encoder writes the pixel buffer
    and nothing else, whatever its length; the file written with a header
    is those same bytes behind 17 bytes of header. *)
Theorem headerless_is_header_file_less_17 {lib : ImageLib} png_path bin_path
    (fs : filesystem) img dest :
  encodable fs png_path bin_path img dest ->
  fs !! dest ≠ Some Dir ->
  convert_png_to_bin png_path bin_path false fs
  = (inr (true, "Successfully converted: " +:+ png_path +:+ " -> " +:+ dest),
     <[dest := File (im_bytes img)]> fs) /\
  forall msg fs',
    convert_png_to_bin png_path bin_path true fs = (inr (true, msg), fs') ->
    exists k, fs' !! dest = Some (File k) /\ drop 17 k = im_bytes img /\
              length k = (17 + length (im_bytes img))%nat.
Proof.
  intros (c & Hf & Hs & Hd & Hdest) Hdir. split.
  - eapply convert_png_to_bin_raw; eassumption.
  - intros msg fs' Hrun.
    destruct (convert_png_to_bin_success _ _ _ _ _ _ _ _ Hf Hs Hd Hdest Hrun)
      as (_ & _ & _ & _ & ->).
    eexists. split; [apply lookup_insert_eq|]. split.
    + reflexivity.
    + pose proof (container_length (im_size img).1 (im_size img).2 Byte.x04
                    (Z.of_nat (length (im_bytes img))) (im_bytes img)). lia.
Qed.

Lemma encodable_1x1 :
  encodable (lib := raw_lib) fs_1x1 "a.png" None
    {| im_mode := "RGBA"; im_size := (1, 1); im_bytes := pixel_1x1 |} "a.bin".
Proof.
  exists file_1x1. repeat split.
  exists {| im_mode := "RGBA"; im_size := (1, 1); im_bytes := pixel_1x1 |}.
  split; reflexivity.
Qed.

Lemma headerless_is_header_file_less_17_witness :
  convert_png_to_bin (lib := raw_lib) "a.png" None false fs_1x1
  = (inr (true, "Successfully converted: a.png -> a.bin"),
     <["a.bin" := File pixel_1x1]> fs_1x1) /\
  forall msg fs',
    convert_png_to_bin (lib := raw_lib) "a.png" None true fs_1x1
    = (inr (true, msg), fs') ->
    exists k, fs' !! "a.bin" = Some (File k) /\ drop 17 k = pixel_1x1 /\
              length k = (17 + length pixel_1x1)%nat.
Proof.
  apply (headerless_is_header_file_less_17 (lib := raw_lib) "a.png" None fs_1x1
           {| im_mode := "RGBA"; im_size := (1, 1); im_bytes := pixel_1x1 |} "a.bin").
  - exact encodable_1x1.
  - vm_compute. discriminate.
Defined.

(** X3: a successful encoding does not depend on what the destination held
    before: over any earlier file at the destination (other than the source
    itself) the call returns the same pair and leaves the same file system,
    so encoding twice is encoding once. *)
Theorem destination_overwritten {lib : ImageLib} png_path bin_path
    include_metadata (fs fs1 : filesystem) img dest msg :
  encodable fs png_path bin_path img dest ->
  dest <> png_path ->
  convert_png_to_bin png_path bin_path include_metadata fs = (inr (true, msg), fs1) ->
  (forall old,
     convert_png_to_bin png_path bin_path include_metadata (<[dest := File old]> fs)
     = (inr (true, msg), fs1)) /\
  convert_png_to_bin png_path bin_path include_metadata fs1 = (inr (true, msg), fs1).
Proof.
  intros Henc Hne Hrun.
  destruct (convert_png_to_bin_true _ _ _ _ _ _ Hrun)
    as (img' & dest' & Henc' & Hdir & Hfit & -> & ->).
  assert (Hsame : img' = img /\ dest' = dest).
  { destruct Henc as (c & Hf & _ & (i0 & Hd & Hc) & Hdest).
    destruct Henc' as (c' & Hf' & _ & (i0' & Hd' & Hc') & Hdest').
    rewrite Hf in Hf'. injection Hf' as <-. rewrite Hd in Hd'. injection Hd' as <-.
    split; congruence. }
  destruct Hsame as [-> ->].
  assert (Hover : forall old,
    convert_png_to_bin png_path bin_path include_metadata (<[dest := File old]> fs)
    = (inr (true, "Successfully converted: " +:+ png_path +:+ " -> " +:+ dest),
       <[dest := File (encoded include_metadata img)]> fs)).
  { intros old. destruct Henc as (c & Hf & Hs & Hd & Hdest).
    assert (Hf2 : <[dest := File old]> fs !! png_path = Some (File c))
      by (rewrite lookup_insert_ne by exact Hne; exact Hf).
    assert (Hdir2 : <[dest := File old]> fs !! dest ≠ Some Dir)
      by (rewrite lookup_insert_eq; discriminate).
    destruct include_metadata.
    - destruct (Hfit eq_refl) as (Hw & Hh & Hn).
      rewrite (convert_png_to_bin_ok _ _ _ _ _ _ Hf2 Hs Hd Hdest Hdir2 Hw Hh Hn).
      rewrite insert_insert_eq. reflexivity.
    - rewrite (convert_png_to_bin_raw _ _ _ _ _ _ Hf2 Hs Hd Hdest Hdir2).
      rewrite insert_insert_eq. reflexivity. }
  split; [exact Hover|]. apply Hover.
Qed.

Lemma destination_overwritten_witness :
  let fs1 : filesystem :=
    <["a.bin" := File (container 1 1 Byte.x04 4 pixel_1x1)]> fs_1x1 in
  (forall old,
     convert_png_to_bin (lib := raw_lib) "a.png" None true
       (<["a.bin" := File old]> fs_1x1)
     = (inr (true, "Successfully converted: a.png -> a.bin"), fs1)) /\
  convert_png_to_bin (lib := raw_lib) "a.png" None true fs1
  = (inr (true, "Successfully converted: a.png -> a.bin"), fs1).
Proof.
  apply (destination_overwritten (lib := raw_lib) "a.png" None true fs_1x1 _
           {| im_mode := "RGBA"; im_size := (1, 1); im_bytes := pixel_1x1 |} "a.bin").
  - exact encodable_1x1.
  - discriminate.
  - vm_compute. reflexivity.
Defined.

(** X4: with an image library that keeps PIL's pixel limit the encoder
    never leaves a partial file: whatever it returns, either the file
    system is as it was, or it reports success and the destination holds
    the complete container (the complete pixel buffer without a header).
    The packing of a field cannot fail between two writes, because
    every image the library opens fits the 4-byte fields. *)
Theorem no_partial_container {lib : ImageLib} png_path bin_path
    include_metadata (fs fs' : filesystem) r :
  opens_within_limit lib ->
  convert_png_to_bin png_path bin_path include_metadata fs = (r, fs') ->
  fs' = fs \/
  exists img dest msg,
    encodable fs png_path bin_path img dest /\
    r = inr (true, msg) /\
    fs' = <[dest := File (encoded include_metadata img)]> fs.
Proof.
  intros Hlimit Hrun.
  destruct (convert_png_to_bin_try_unreadable png_path bin_path include_metadata fs)
    as [(img & dest & Henc)|(r0 & Hr & _)].
  2:{ left. unfold convert_png_to_bin, try_except in Hrun. rewrite Hr in Hrun.
      destruct r0; injection Hrun as _ <-; reflexivity. }
  pose proof Henc as (c & Hf & Hs & Hd & Hdest).
  destruct (Hlimit c img Hd) as [Hbuf Hpix].
  assert (Hn : u32 ((im_size img).1 * (im_size img).2 * 4)).
  { destruct Hbuf as (_ & _ & Hlen). unfold u32, MAX_IMAGE_PIXELS in *. lia. }
  destruct (rgba_buffer_u32 _ _ _ Hbuf Hn) as [Hw Hh].
  assert (Hlen : u32 (Z.of_nat (length (im_bytes img)))).
  { destruct Hbuf as (_ & _ & ->). exact Hn. }
  destruct (decide (fs !! dest = Some Dir)) as [Hdir|Hdir].
  { left. unfold convert_png_to_bin, try_except in Hrun.
    rewrite (convert_png_to_bin_try_encodable _ _ _ _ _ _ Henc) in Hrun.
    destruct include_metadata; unfold write_container, bind, open_wb in Hrun;
      rewrite Hdir in Hrun; injection Hrun as _ <-; reflexivity. }
  right. exists img, dest. destruct include_metadata.
  - rewrite (convert_png_to_bin_ok _ _ _ _ _ _ Hf Hs Hd Hdest Hdir Hw Hh Hlen) in Hrun.
    injection Hrun as <- <-. eexists. repeat split; [exact Henc].
  - rewrite (convert_png_to_bin_raw _ _ _ _ _ _ Hf Hs Hd Hdest Hdir) in Hrun.
    injection Hrun as <- <-. eexists. repeat split; [exact Henc].
Qed.

Lemma no_partial_container_witness :
  <["a.bin" := File (container 1 1 Byte.x04 4 pixel_1x1)]> fs_1x1 = fs_1x1 \/
  exists img dest msg,
    encodable (lib := raw_lib) fs_1x1 "a.png" None img dest /\
    inr (true, "Successfully converted: a.png -> a.bin")
    = (inr (true, msg) : exn + bool * string) /\
    <["a.bin" := File (container 1 1 Byte.x04 4 pixel_1x1)]> fs_1x1
    = <[dest := File (encoded true img)]> fs_1x1.
Proof.
  apply (no_partial_container (lib := raw_lib) "a.png" None true fs_1x1
           (<["a.bin" := File (container 1 1 Byte.x04 4 pixel_1x1)]> fs_1x1)
           (inr (true, "Successfully converted: a.png -> a.bin"))
           raw_lib_opens_within_limit).
  vm_compute. reflexivity.
Defined.

(** ** The decoder beyond well-formed containers *)

(** X5: a source file shorter than the 17-byte header, the empty file
    among them, makes [read_bin_to_png] with [has_metadata=True] return
    [(False, message)] and write nothing. *)
Theorem truncated_header_refused {lib : ImageLib} bin_path png_path
    (fs : filesystem) c out :
  fs !! bin_path = Some (File c) ->
  destination png_path bin_path ".png" = inr out ->
  (length c < 17)%nat ->
  exists msg,
    read_bin_to_png bin_path png_path true fs = (inr (false, msg), fs).
Proof.
  intros Hf Hout Hshort. unfold read_bin_to_png, try_except.
  rewrite (read_bin_to_png_try_open _ _ _ _ _ _ Hf Hout).
  destruct (decode_block_parse bin_path out c)
    as [(w & h & bpp & size & rest & -> & _)|(r & Hr & Hnot)].
  { pose proof (container_min_length w h bpp size rest). lia. }
  rewrite Hr. destruct r as [e|[[] m]].
  - eexists. reflexivity.
  - destruct (Hnot m eq_refl).
  - eexists. reflexivity.
Qed.

Lemma truncated_header_refused_witness :
  exists msg,
    read_bin_to_png (lib := raw_lib) "e.bin" None true {[ "e.bin" := File [] ]}
    = (inr (false, msg), {[ "e.bin" := File [] ]}).
Proof.
  apply (truncated_header_refused (lib := raw_lib) "e.bin" None _ [] "e.png").
  - reflexivity.
  - reflexivity.
  - simpl. lia.
Defined.

(** X6: bytes that follow the [data_size] bytes of pixel data are never
    read: a container and the same container with anything appended get
    the same pair from [read_bin_to_png], and either no write or the same
    PNG bytes at the same destination. *)
Theorem trailing_bytes_ignored {lib : ImageLib} bin_path png_path
    (fs : filesystem) w h bpp size px junk out :
  u32 w -> u32 h -> u32 size ->
  Z.of_nat (length px) = size ->
  destination png_path bin_path ".png" = inr out ->
  let fs1 := <[bin_path := File (container w h bpp size px)]> fs in
  let fs2 := <[bin_path := File (container w h bpp size (px ++ junk))]> fs in
  exists r,
    (read_bin_to_png bin_path png_path true fs1 = (inr r, fs1) /\
     read_bin_to_png bin_path png_path true fs2 = (inr r, fs2)) \/
    (exists k,
       read_bin_to_png bin_path png_path true fs1 = (inr r, <[out := File k]> fs1) /\
       read_bin_to_png bin_path png_path true fs2 = (inr r, <[out := File k]> fs2)).
Proof.
  intros Hw Hh Hs Hlen Hout fs1 fs2.
  assert (Hf1 : fs1 !! bin_path = Some (File (container w h bpp size px)))
    by apply lookup_insert_eq.
  assert (Hf2 : fs2 !! bin_path = Some (File (container w h bpp size (px ++ junk))))
    by apply lookup_insert_eq.
  assert (Hdir : fs1 !! out = Some Dir <-> fs2 !! out = Some Dir).
  { subst fs1 fs2. destruct (decide (bin_path = out)) as [->|Hne].
    - rewrite !lookup_insert_eq. split; discriminate.
    - rewrite !lookup_insert_ne by exact Hne. reflexivity. }
  assert (Hn : Z.to_nat size = length px) by lia.
  assert (Hnone : fs1 !! out = None <-> fs2 !! out = None).
  { subst fs1 fs2. destruct (decide (bin_path = out)) as [->|Hne].
    - rewrite !lookup_insert_eq. split; discriminate.
    - rewrite !lookup_insert_ne by exact Hne. reflexivity. }
  pose proof (rebuild_frame bin_path out w h px fs1 fs2 Hdir Hnone) as Hframe.
  pose proof (read_bin_to_png_try_container _ _ _ _ _ _ _ _ _ Hf1 Hw Hh Hs Hout)
    as Ht1.
  pose proof (read_bin_to_png_try_container _ _ _ _ _ _ _ _ _ Hf2 Hw Hh Hs Hout)
    as Ht2.
  rewrite Hn, take_app_length in Ht2. rewrite Hn, firstn_all in Ht1.
  rewrite <- Ht1, <- Ht2 in Hframe.
  exact (try_except_frame _ (fun e => "Error converting BIN to PNG: " +:+ str e)
           _ _ _ Hframe).
Qed.

Lemma trailing_bytes_ignored_witness :
  let fs1 : filesystem := <["t.bin" := File (container 1 1 Byte.x04 4 pixel_1x1)]> ∅ in
  let fs2 : filesystem :=
    <["t.bin" := File (container 1 1 Byte.x04 4 (pixel_1x1 ++ [Byte.xff; Byte.xff]))]> ∅ in
  exists r,
    (read_bin_to_png (lib := raw_lib) "t.bin" None true fs1 = (inr r, fs1) /\
     read_bin_to_png (lib := raw_lib) "t.bin" None true fs2 = (inr r, fs2)) \/
    (exists k,
       read_bin_to_png (lib := raw_lib) "t.bin" None true fs1
       = (inr r, <["t.png" := File k]> fs1) /\
       read_bin_to_png (lib := raw_lib) "t.bin" None true fs2
       = (inr r, <["t.png" := File k]> fs2)).
Proof.
  apply (trailing_bytes_ignored (lib := raw_lib) "t.bin" None ∅ 1 1 Byte.x04 4
           pixel_1x1 [Byte.xff; Byte.xff] "t.png");
    try (unfold u32; lia); reflexivity.
Defined.

(** X7: [read_bin_to_png] reports success only with [has_metadata=True], on
    a source that is a complete header followed by bytes, after the image
    library has built an image from the first [data_size] of them and
    encoded it, and with that PNG written at the destination: the result
    file system is the old one with that one file set. *)
Theorem decode_success_means_written {lib : ImageLib} bin_path png_path
    has_metadata (fs fs' : filesystem) msg :
  read_bin_to_png bin_path png_path has_metadata fs = (inr (true, msg), fs') ->
  has_metadata = true /\
  exists w h bpp size rest out img k,
    fs !! bin_path = Some (File (container w h bpp size rest)) /\
    u32 w /\ u32 h /\ u32 size /\
    destination png_path bin_path ".png" = inr out /\
    Image_frombytes "RGBA" (w, h) (take (Z.to_nat size) rest) = inr img /\
    png_encode img = inr k /\
    msg = "Successfully converted: " +:+ bin_path +:+ " -> " +:+ out /\
    fs' !! out = Some (File k) /\
    forall q, q <> out -> fs' !! q = fs !! q.
Proof.
  intros Hrun.
  destruct (read_bin_to_png_true _ _ _ _ _ _ Hrun)
    as (Hm & w & h & bpp & size & rest & out & img & k
        & Hf & Hw & Hh & Hs & Hout & Hi & Hk & Hdir & Hmsg & ->).
  split; [exact Hm|].
  exists w, h, bpp, size, rest, out, img, k.
  repeat (split; [assumption|]).
  split; [apply lookup_insert_eq|].
  intros q Hq. apply lookup_insert_ne. congruence.
Qed.

Lemma decode_success_means_written_witness :
  exists w h bpp size rest out img k,
    ({[ "t.bin" := File (container 1 1 Byte.x04 4 pixel_1x1) ]} : filesystem) !! "t.bin"
    = Some (File (container w h bpp size rest)) /\
    u32 w /\ u32 h /\ u32 size /\
    destination None "t.bin" ".png" = inr out /\
    Image_frombytes (ImageLib := raw_lib) "RGBA" (w, h) (take (Z.to_nat size) rest)
    = inr img /\
    png_encode (ImageLib := raw_lib) img = inr k /\
    "Successfully converted: t.bin -> t.png"
    = "Successfully converted: " +:+ "t.bin" +:+ " -> " +:+ out.
Proof.
  destruct (decode_success_means_written (lib := raw_lib) "t.bin" None true
              {[ "t.bin" := File (container 1 1 Byte.x04 4 pixel_1x1) ]}
              (<["t.png" := File (struct.le32 1 ++ struct.le32 1 ++ pixel_1x1)]>
                 {[ "t.bin" := File (container 1 1 Byte.x04 4 pixel_1x1) ]})
              "Successfully converted: t.bin -> t.png")
    as (_ & w & h & bpp & size & rest & out & img & k
        & Hf & Hw & Hh & Hs & Hout & Hi & Hk & Hmsg & _).
  - vm_compute. reflexivity.
  - exists w, h, bpp, size, rest, out, img, k. auto 10.
Defined.

(** X8: each operation changes at most its destination: whatever it
    returns, every path that is not the destination it resolved is in the
    file system as before, the source among them when it is another
    path. *)
Theorem only_the_destination_changes {lib : ImageLib} (q : string) :
  (forall png_path bin_path include_metadata (fs : filesystem),
     destination bin_path png_path ".bin" <> inr q ->
     (convert_png_to_bin png_path bin_path include_metadata fs).2 !! q = fs !! q) /\
  (forall bin_path png_path has_metadata (fs : filesystem),
     destination png_path bin_path ".png" <> inr q ->
     (read_bin_to_png bin_path png_path has_metadata fs).2 !! q = fs !! q).
Proof.
  split.
  - intros png_path bin_path include_metadata fs Hq.
    apply (preserves_convert_png_to_bin q png_path bin_path include_metadata Hq).
  - intros bin_path png_path has_metadata fs Hq.
    apply (preserves_read_bin_to_png q bin_path png_path has_metadata Hq).
Qed.

Lemma only_the_destination_changes_witness :
  (convert_png_to_bin (lib := raw_lib) "a.png" None true fs_1x1).2 !! "a.png"
  = fs_1x1 !! "a.png" /\
  (read_bin_to_png (lib := raw_lib) "a.png" None true fs_1x1).2 !! "a.bin"
  = fs_1x1 !! "a.bin".
Proof.
  destruct (only_the_destination_changes (lib := raw_lib) "a.png") as [Henc _].
  destruct (only_the_destination_changes (lib := raw_lib) "a.bin") as [_ Hdec].
  split.
  - apply Henc. vm_compute. discriminate.
  - apply Hdec. vm_compute. discriminate.
Defined.

(** X9: [convert_png_to_bin] reports success only for an existing regular
    source file with a '.png' suffix that the library decodes, and then the
    destination holds the complete container (or, without a header, the
    pixel buffer) and nothing else has changed. *)
Theorem encode_success_means_written {lib : ImageLib} png_path bin_path
    include_metadata (fs fs' : filesystem) msg :
  convert_png_to_bin png_path bin_path include_metadata fs = (inr (true, msg), fs') ->
  exists c img dest,
    fs !! png_path = Some (File c) /\
    lower (suffix png_path) = ".png" /\
    decodes_to_rgba c img /\
    destination bin_path png_path ".bin" = inr dest /\
    msg = "Successfully converted: " +:+ png_path +:+ " -> " +:+ dest /\
    fs' !! dest
    = Some (File (if include_metadata
                  then container (im_size img).1 (im_size img).2 Byte.x04
                         (Z.of_nat (length (im_bytes img))) (im_bytes img)
                  else im_bytes img)) /\
    forall q, q <> dest -> fs' !! q = fs !! q.
Proof.
  intros Hrun.
  destruct (convert_png_to_bin_true _ _ _ _ _ _ Hrun)
    as (img & dest & (c & Hf & Hs & Hd & Hdest) & Hdir & Hfit & -> & ->).
  exists c, img, dest. repeat (split; [assumption || reflexivity|]).
  split; [apply lookup_insert_eq|].
  intros q Hq. apply lookup_insert_ne. congruence.
Qed.

Lemma encode_success_means_written_witness :
  exists c img dest,
    fs_1x1 !! "a.png" = Some (File c) /\
    lower (suffix "a.png") = ".png" /\
    decodes_to_rgba (lib := raw_lib) c img /\
    destination None "a.png" ".bin" = inr dest /\
    (<["a.bin" := File pixel_1x1]> fs_1x1) !! dest = Some (File (im_bytes img)).
Proof.
  destruct (encode_success_means_written (lib := raw_lib) "a.png" None false
              fs_1x1 (<["a.bin" := File pixel_1x1]> fs_1x1)
              "Successfully converted: a.png -> a.bin")
    as (c & img & dest & Hf & Hs & Hd & Hdest & _ & Hfile & _).
  - vm_compute. reflexivity.
  - exists c, img, dest. auto.
Defined.

(** ** The command line *)

(** X10: [main] never raises and exits with status 0 or 1.  Status 0 means
    that one line was printed, the "Successfully converted" message of the
    operation, that the source named on the command line existed, and that
    the file system is the old one with the destination file set.  Without
    a file argument it prints the usage or the "--to-png" error, exits
    with 1 and changes nothing. *)
Theorem main_exit_status {lib : ImageLib} (argv : list string) (fs : filesystem) :
  exists out status fs',
    main argv fs = (inr (out, status), fs') /\
    (status = 0 \/ status = 1) /\
    (status = 0 ->
     exists src dst k,
       out = ["Successfully converted: " +:+ src +:+ " -> " +:+ dst] /\
       (src = nth 1 argv "" \/ (nth 1 argv "" = "--to-png" /\ src = nth 2 argv "")) /\
       is_Some (fs !! src) /\
       fs' = <[dst := File k]> fs) /\
    ((length argv < 2)%nat \/ argv = [nth 0 argv ""; "--to-png"] ->
     status = 1 /\ fs' = fs).
Proof.
  unfold main.
  destruct (Nat.ltb_spec (length argv) 2) as [Hlen|Hlen].
  { exists usage, 1, fs. split; [reflexivity|]. split; [auto|].
    split; [discriminate|]. auto. }
  destruct (String.eqb_spec (nth 1 argv "") "--to-png") as [Hto|Hto].
  - destruct (Nat.ltb_spec (length argv) 3) as [Hlen3|Hlen3].
    { eexists _, 1, fs. split; [reflexivity|]. split; [auto|].
      split; [discriminate|]. auto. }
    set (png_file := if (3 <? length argv)%nat then Some (nth 3 argv "") else None).
    destruct (try_except_returns
                (read_bin_to_png_try (nth 2 argv "") png_file true)
                (fun e => "Error converting BIN to PNG: " +:+ str e) fs)
      as (b & msg & fs' & Hrun & _).
    fold (read_bin_to_png (nth 2 argv "") png_file true) in Hrun.
    rewrite (main_exit_status_aux _ _ _ _ _ Hrun).
    exists [msg], (if b then 0 else 1), fs'. split; [reflexivity|].
    split; [destruct b; auto|]. split.
    + destruct b; [|discriminate]. intros _.
      destruct (read_bin_to_png_true _ _ _ _ _ _ Hrun)
        as (_ & w & h & bpp & size & rest & out & img & k
            & Hf & _ & _ & _ & _ & _ & _ & _ & -> & ->).
      exists (nth 2 argv ""), out, k. split; [reflexivity|].
      split; [right; auto|]. split; [rewrite Hf; eauto|reflexivity].
    + intros [Hl|Hl]; [lia|]. rewrite Hl in Hlen3. simpl in Hlen3. lia.
  - set (bin_file := if (2 <? length argv)%nat then Some (nth 2 argv "") else None).
    destruct (try_except_returns
                (convert_png_to_bin_try (nth 1 argv "") bin_file true)
                (fun e => "Error converting PNG: " +:+ str e) fs)
      as (b & msg & fs' & Hrun & _).
    fold (convert_png_to_bin (nth 1 argv "") bin_file true) in Hrun.
    rewrite (main_exit_status_aux _ _ _ _ _ Hrun).
    exists [msg], (if b then 0 else 1), fs'. split; [reflexivity|].
    split; [destruct b; auto|]. split.
    + destruct b; [|discriminate]. intros _.
      destruct (convert_png_to_bin_true _ _ _ _ _ _ Hrun)
        as (img & dest & (c & Hf & _) & _ & _ & -> & ->).
      exists (nth 1 argv ""), dest, (encoded true img). split; [reflexivity|].
      split; [left; reflexivity|]. split; [rewrite Hf; eauto|reflexivity].
    + intros [Hl|Hl]; [lia|]. rewrite Hl in Hto. simpl in Hto. contradiction.
Qed.

Lemma string_app_inv_head (a b c : string) : a +:+ b = a +:+ c -> b = c.
Proof.
  induction a as [|x a IH]; [auto|].
  rewrite !string_app_cons. intros [= H]. apply IH, H.
Qed.

(** X11: the two default destinations (lines 40 and 96) composed: for a
    source the encoder accepts, the default '.bin' path exists as a name,
    the decoder's default for it exists too, and it is the source path
    itself exactly when the source's suffix is '.png' in lower case. *)
Theorem default_destinations_compose (p : string) :
  lower (suffix p) = ".png" ->
  exists b q,
    destination None p ".bin" = inr b /\
    destination None b ".png" = inr q /\
    lower (suffix b) = ".bin" /\
    (q = p <-> suffix p = ".png").
Proof.
  intros Hlow.
  assert (Hsuf : suffix p <> "") by (intros Hz; rewrite Hz in Hlow; discriminate).
  destruct (with_suffix_of_suffixed p Hsuf) as (stem & Hp & Hext).
  destruct (Hext "bin" plain_ext_bin) as [Hbin Hsbin].
  destruct (default_destinations p Hlow) as (stem' & Hp' & Hbin' & Hpng').
  assert (stem' = stem) as ->.
  { rewrite Hbin in Hbin'. injection Hbin' as Heq.
    apply (f_equal (substring 0 (String.length stem))) in Heq as Hcut.
    rewrite substring_prefix in Hcut.
    assert (Hlen : String.length stem = String.length stem').
    { apply (f_equal String.length) in Heq. rewrite !string_app_length in Heq. lia. }
    rewrite Hlen, substring_prefix in Hcut. congruence. }
  exists (stem +:+ ".bin"), (stem +:+ ".png").
  split; [exact Hbin|]. split; [exact Hpng'|].
  split; [rewrite Hsbin; reflexivity|]. split.
  - intros Heq.
    assert (Heq2 : stem +:+ ".png" = stem +:+ suffix p) by congruence.
    apply string_app_inv_head in Heq2. congruence.
  - intros Heq. rewrite Heq in Hp. congruence.
Qed.

Lemma default_destinations_compose_witness :
  exists b q,
    destination None "shots/Photo.PNG" ".bin" = inr b /\
    destination None b ".png" = inr q /\
    lower (suffix b) = ".bin" /\
    (q = "shots/Photo.PNG" <-> suffix "shots/Photo.PNG" = ".png").
Proof.
  apply (default_destinations_compose "shots/Photo.PNG"). reflexivity.
Defined.

(** ** The web layer's file names (src/app.py) *)

Lemma substring_all (s : string) : substring 0 (String.length s) s = s.
Proof. induction s as [|c s IH]; simpl; [reflexivity|]. rewrite IH. reflexivity. Qed.

Lemma from_last_dot_contains (s t : string) :
  from_last_dot s = Some t -> contains_char "." s = true.
Proof.
  intros H. destruct (contains_char "." s) eqn:E; [reflexivity|].
  rewrite (from_last_dot_none s E) in H. discriminate.
Qed.

Lemma from_last_dot_prefix (d n t : string) :
  from_last_dot n = Some t -> from_last_dot (d +:+ n) = Some t.
Proof.
  intros H. induction d as [|c d IH]; [exact H|].
  rewrite string_app_cons. simpl. rewrite IH. reflexivity.
Qed.

Lemma rsplit_dot_ext (x e : string) :
  contains_char "." e = false ->
  rsplit_dot (x +:+ String "." e) = [x; e].
Proof.
  intros He. unfold rsplit_dot. rewrite (from_last_dot_app x e He).
  rewrite string_app_length.
  replace (String.length x + String.length (String "." e) - String.length (String "." e))%nat
    with (String.length x) by lia.
  rewrite substring_prefix. simpl. rewrite Nat.sub_0_r, substring_all. reflexivity.
Qed.

Lemma lower_cons c s : lower (String c s) = String (lower_ascii c) (lower s).
Proof. reflexivity. Qed.

(** X13: every path whose suffix [convert_png_to_bin] accepts passes
    [allowed_png]; the web check is the weaker one: it passes the name
    '.png', which [convert_png_to_bin] refuses as not a PNG. *)
Theorem allowed_png_covers_suffix_check :
  (forall p, lower (suffix p) = ".png" -> allowed_png p = true) /\
  allowed_png ".png" = true /\
  (forall (lib : ImageLib) bin_path include_metadata (fs : filesystem) x,
     fs !! ".png" = Some x ->
     convert_png_to_bin ".png" bin_path include_metadata fs
     = (inr (false, "File is not a PNG: .png"), fs)).
Proof.
  split; [|split; [reflexivity|]].
  - intros p Hlow. unfold suffix in Hlow.
    destruct (from_last_dot (name p)) as [t|] eqn:Ht; [|discriminate].
    destruct (_ && _) in Hlow; [|discriminate].
    assert (Hname : name p = last_component p).
    { unfold name in *. destruct (String.eqb_spec p "."); [discriminate|reflexivity]. }
    destruct (last_component_split p) as (d & Hp & _ & _).
    rewrite <- Hname in Hp.
    assert (Hfld : from_last_dot p = Some t).
    { rewrite Hp. apply from_last_dot_prefix, Ht. }
    destruct (from_last_dot_some _ _ Hfld) as (a & e & Hpe & -> & He).
    unfold allowed_png. rewrite (from_last_dot_contains _ _ Hfld). simpl.
    rewrite Hpe, (rsplit_dot_ext a e He). simpl.
    rewrite lower_cons in Hlow. injection Hlow as Hlow. rewrite Hlow.
    reflexivity.
  - intros lib bin_path include_metadata fs x Hf.
    eapply convert_png_to_bin_not_png; [exact Hf|]. vm_compute. discriminate.
Qed.

Lemma allowed_png_covers_suffix_check_witness :
  allowed_png "uploads/Photo.tar.PnG" = true /\
  convert_png_to_bin (lib := raw_lib) ".png" None true {[ ".png" := File file_1x1 ]}
  = (inr (false, "File is not a PNG: .png"), {[ ".png" := File file_1x1 ]}).
Proof.
  destruct allowed_png_covers_suffix_check as (Hcover & _ & Hrefused).
  split.
  - apply Hcover. reflexivity.
  - apply (Hrefused raw_lib None true _ (File file_1x1)). reflexivity.
Defined.

(** X14: no file name passes both [allowed_png] and [allowed_bin]. *)
Theorem allowed_png_excludes_allowed_bin (filename : string) :
  allowed_png filename && allowed_bin filename = false.
Proof.
  unfold allowed_png, allowed_bin.
  destruct (contains_char "." filename); [simpl|reflexivity].
  destruct (bool_decide_reflect
              (lower (nth 1 (rsplit_dot filename) "") ∈ ALLOWED_EXTENSIONS_PNG))
    as [Hp|Hp]; [simpl|reflexivity].
  apply bool_decide_eq_false_2. intros Hb.
  unfold ALLOWED_EXTENSIONS_PNG in Hp. unfold ALLOWED_EXTENSIONS_BIN in Hb.
  apply list_elem_of_singleton in Hp, Hb. rewrite Hp in Hb. discriminate.
Qed.

(** X15: the name each endpoint gives its result (lines 62 and 109) passes
    the other endpoint's check, whatever the uploaded name was, and naming
    back and forth keeps the text before the last dot. *)
Theorem converted_name_accepted (filename : string) :
  allowed_bin (converted_name filename ".bin") = true /\
  allowed_png (converted_name filename ".png") = true /\
  converted_name (converted_name filename ".bin") ".png"
  = converted_name filename ".png".
Proof.
  unfold converted_name. set (stem := nth 0 (rsplit_dot filename) "").
  assert (Hbin : rsplit_dot (stem +:+ ".bin") = [stem; "bin"])
    by (apply rsplit_dot_ext; reflexivity).
  assert (Hpng : rsplit_dot (stem +:+ ".png") = [stem; "png"])
    by (apply rsplit_dot_ext; reflexivity).
  split; [|split].
  - unfold allowed_bin. rewrite Hbin, contains_char_app. simpl.
    rewrite orb_true_r. reflexivity.
  - unfold allowed_png. rewrite Hpng, contains_char_app. simpl.
    rewrite orb_true_r. reflexivity.
  - rewrite Hbin. reflexivity.
Qed.

(** ** The command line, there and back *)

(** X12: with the default destinations, [main] on a source [p] whose suffix
    is '.png' in lower case, then [main --to-png] on the container it
    wrote, both exit with status 0, and the second run overwrites [p]
    itself with the PNG of the rebuilt RGBA image; the container stays
    beside it. *)
Theorem cli_round_trip_overwrites_source {lib : ImageLib} (prog p : string)
    (fs : filesystem) c img w h :
  frombytes_builds lib ->
  png_encode_total lib ->
  fs !! p = Some (File c) ->
  suffix p = ".png" ->
  decodes_to_rgba c img ->
  im_size img = (w, h) ->
  rgba_buffer w h (im_bytes img) ->
  u32 (w * h * 4) ->
  (forall b, destination None p ".bin" = inr b -> fs !! b ≠ Some Dir) ->
  exists b fs1 fs2 k,
    destination None p ".bin" = inr b /\
    main [prog; p] fs
    = (inr (["Successfully converted: " +:+ p +:+ " -> " +:+ b], 0), fs1) /\
    main [prog; "--to-png"; b] fs1
    = (inr (["Successfully converted: " +:+ b +:+ " -> " +:+ p], 0), fs2) /\
    png_encode {| im_mode := "RGBA"; im_size := (w, h); im_bytes := im_bytes img |}
    = inr k /\
    fs2 !! p = Some (File k) /\
    fs2 !! b = Some (File (container w h Byte.x04 (w * h * 4) (im_bytes img))).
Proof.
  intros Hbuild Hsave Hf Hsuf Hd Hsize Hbuf Hn Hfree.
  assert (Hlow : lower (suffix p) = ".png") by (rewrite Hsuf; reflexivity).
  destruct (default_destinations p Hlow) as (stem & Hp & Hbin & Hpng).
  assert (Hq : stem +:+ ".png" = p) by (rewrite Hsuf in Hp; congruence).
  rewrite Hq in Hpng. set (b := stem +:+ ".bin") in *.
  assert (Hbp : b <> p).
  { intros Heq. subst b. rewrite <- Hq in Heq. apply string_app_inv_head in Heq.
    discriminate. }
  pose proof (Hfree b Hbin) as Hdir.
  destruct (rgba_buffer_u32 _ _ _ Hbuf Hn) as [Hw Hh].
  pose proof Hbuf as (_ & _ & Hlen).
  destruct (Hsave w h (im_bytes img) Hbuf Hn) as [k Hk].
  pose proof (convert_png_to_bin_ok p None fs c img b Hf Hlow Hd Hbin Hdir) as Henc.
  rewrite Hsize, Hlen in Henc. simpl fst in Henc. simpl snd in Henc.
  specialize (Henc Hw Hh Hn).
  set (fs1 := <[b := File (container w h Byte.x04 (w * h * 4) (im_bytes img))]> fs) in *.
  assert (Hf1 : fs1 !! b = Some (File (container w h Byte.x04 (w * h * 4) (im_bytes img))))
    by apply lookup_insert_eq.
  assert (Hpdir : fs1 !! p ≠ Some Dir).
  { subst fs1. rewrite lookup_insert_ne by exact Hbp. rewrite Hf. discriminate. }
  assert (Hdec : read_bin_to_png b None true fs1
                 = (inr (true, "Successfully converted: " +:+ b +:+ " -> " +:+ p),
                    <[p := File k]> fs1)).
  { rewrite (read_bin_to_png_container b None fs1 _ _ _ _ _ p Hf1 Hw Hh Hn Hpng).
    apply try_except_inr.
    replace (take (Z.to_nat (w * h * 4)) (im_bytes img)) with (im_bytes img)
      by (symmetry; apply take_ge; lia).
    eapply rebuild_ok; [apply Hbuild, Hbuf | exact Hk | exact Hpdir]. }
  assert (Hnot : (p =? "--to-png")%string = false).
  { destruct (String.eqb_spec p "--to-png") as [Heq|]; [|reflexivity].
    rewrite Heq in Hsuf. discriminate Hsuf. }
  exists b, fs1, (<[p := File k]> fs1), k.
  split; [exact Hbin|]. split; [|split; [|split; [exact Hk|split]]].
  - unfold main. simpl. rewrite Hnot.
    apply (main_exit_status_aux _ _ _ _ _ Henc).
  - unfold main. simpl.
    apply (main_exit_status_aux _ _ _ _ _ Hdec).
  - apply lookup_insert_eq.
  - rewrite lookup_insert_ne by congruence. exact Hf1.
Qed.

Lemma cli_round_trip_overwrites_source_witness :
  exists b fs1 fs2 k,
    destination None "a.png" ".bin" = inr b /\
    main (lib := raw_lib) ["png_to_bin.py"; "a.png"] fs_1x1
    = (inr (["Successfully converted: " +:+ "a.png" +:+ " -> " +:+ b], 0), fs1) /\
    main (lib := raw_lib) ["png_to_bin.py"; "--to-png"; b] fs1
    = (inr (["Successfully converted: " +:+ b +:+ " -> " +:+ "a.png"], 0), fs2) /\
    png_encode (ImageLib := raw_lib)
      {| im_mode := "RGBA"; im_size := (1, 1); im_bytes := pixel_1x1 |} = inr k /\
    fs2 !! "a.png" = Some (File k) /\
    fs2 !! b = Some (File (container 1 1 Byte.x04 (1 * 1 * 4) pixel_1x1)).
Proof.
  apply (cli_round_trip_overwrites_source (lib := raw_lib) "png_to_bin.py" "a.png"
           fs_1x1 file_1x1
           {| im_mode := "RGBA"; im_size := (1, 1); im_bytes := pixel_1x1 |} 1 1).
  - exact raw_lib_frombytes_builds.
  - exact raw_lib_png_encode_total.
  - reflexivity.
  - reflexivity.
  - exists {| im_mode := "RGBA"; im_size := (1, 1); im_bytes := pixel_1x1 |}.
    split; reflexivity.
  - reflexivity.
  - unfold rgba_buffer. simpl. lia.
  - unfold u32. lia.
  - intros b [= <-]. vm_compute. discriminate.
Defined.

(** ** The web endpoints (src/app.py) *)

Example format_thousands_examples :
  format_thousands 0 = "0" /\ format_thousands 999 = "999" /\
  format_thousands 1000 = "1,000" /\ format_thousands 40017 = "40,017" /\
  format_thousands 1234567 = "1,234,567".
Proof. repeat split. Qed.

Example os_path_join_examples :
  os_path_join "/srv/uploads" "a.png" = "/srv/uploads/a.png" /\
  os_path_join "uploads/" "a.png" = "uploads/a.png" /\
  os_path_join "uploads" "/etc/x" = "/etc/x" /\
  os_path_join "" "a.png" = "a.png" /\
  os_path_join "uploads" "" = "uploads/".
Proof. repeat split. Qed.

Example png_to_bin_api_1x1 :
  png_to_bin_api (lib := raw_lib) (host := plain_host) (inr upload_1x1) ∅
  = (inr (converted "Successfully converted: /srv/app/uploads/a.png -> /srv/app/uploads/a.bin"
            "a.bin" 12 21, 200),
     <["/srv/app/uploads/a.bin" := File (container 1 1 Byte.x04 4 pixel_1x1)]>
       {[ "/srv/app/uploads/a.png" := File file_1x1 ]}).
Proof. vm_compute. reflexivity. Qed.

Lemma FileStorage_save_ok file dst (fs : filesystem) :
  ends_with_char "/" dst = false -> fs !! dst ≠ Some Dir ->
  FileStorage_save file dst fs = (inr tt, <[dst := File (stream file)]> fs).
Proof.
  intros Hs Hd. unfold FileStorage_save. rewrite Hs.
  rewrite (bind_inr _ _ _ _ _ (open_wb_ok dst fs Hd)).
  apply f_write_open.
Qed.

Lemma FileStorage_save_raises file dst (fs : filesystem) :
  ends_with_char "/" dst = true \/ fs !! dst = Some Dir ->
  FileStorage_save file dst fs = (inl (IsADirectoryError dst), fs).
Proof.
  intros H. unfold FileStorage_save.
  destruct (ends_with_char "/" dst); [reflexivity|].
  destruct H as [H|H]; [discriminate|].
  unfold bind, open_wb. rewrite H. reflexivity.
Qed.

Lemma ends_with_char_app c (d t : string) :
  t <> "" -> ends_with_char c (d +:+ t) = ends_with_char c t.
Proof.
  intros Ht. induction d as [|x d IH]; [reflexivity|].
  rewrite string_app_cons. simpl.
  destruct (d +:+ t) eqn:E; [|exact IH].
  destruct d; [|discriminate E]. rewrite string_app_nil in E. contradiction.
Qed.

(** A name that ends with an extension has that suffix or none. *)
Lemma suffix_of_ext (d e : string) :
  plain_ext e ->
  suffix (d +:+ String "." e) = String "." e \/ suffix (d +:+ String "." e) = "".
Proof.
  intros (Hne & Hdot & Hslash).
  destruct (last_component_split d) as (d0 & Hd & Hno & Hlast).
  assert (Hx : contains_char "/" (last_component d +:+ String "." e) = false).
  { rewrite contains_char_app, Hno. simpl. exact Hslash. }
  assert (Hname : name (d +:+ String "." e) = last_component d +:+ String "." e).
  { unfold name.
    destruct (String.eqb_spec (d +:+ String "." e) ".") as [Heq|_].
    - apply (f_equal String.length) in Heq. rewrite string_app_length in Heq.
      destruct e; [contradiction|]. simpl in Heq. lia.
    - rewrite Hd at 1. rewrite string_app_assoc. apply Hlast, Hx. }
  unfold suffix. rewrite Hname, (from_last_dot_app _ e Hdot).
  destruct (_ && _); auto.
Qed.

Lemma os_path_join_ext (a x e : string) :
  exists d, os_path_join a (x +:+ String "." e) = d +:+ String "." e.
Proof.
  unfold os_path_join.
  destruct (starts_with_char "/" (x +:+ String "." e)); [exists x; reflexivity|].
  destruct (_ || _).
  - exists (a +:+ x). rewrite string_app_assoc. reflexivity.
  - exists (a +:+ "/" +:+ x). rewrite !string_app_assoc. reflexivity.
Qed.

(** Line 62: the container never gets the path of an upload that
    [convert_png_to_bin] accepts as a PNG. *)
Lemma converted_path_differs (folder filename : string) :
  lower (suffix (os_path_join folder filename)) = ".png" ->
  os_path_join folder filename
  <> os_path_join folder (converted_name filename ".bin").
Proof.
  intros Hlow Heq. unfold converted_name in Heq.
  destruct (os_path_join_ext folder (nth 0 (rsplit_dot filename) "") "bin") as (d & Hd).
  rewrite Hd in Heq. rewrite Heq in Hlow.
  destruct (suffix_of_ext d "bin" plain_ext_bin) as [H|H];
    rewrite H in Hlow; discriminate.
Qed.

Lemma converted_path_is_file (folder filename e : string) :
  ends_with_char "/" (os_path_join folder (converted_name filename (String "." e)))
  = ends_with_char "/" (String "." e).
Proof.
  unfold converted_name.
  destruct (os_path_join_ext folder (nth 0 (rsplit_dot filename) "") e) as (d & Hd).
  rewrite Hd. apply ends_with_char_app. discriminate.
Qed.

Section WebFacts.

Context {lib : ImageLib} {host : WebHost}.

Lemma os_path_getsize_File p (fs : filesystem) c :
  ends_with_char "/" p = false -> fs !! p = Some (File c) ->
  os_path_getsize p fs = (inr (Z.of_nat (length c)), fs).
Proof.
  intros Hs Hf. unfold os_path_getsize. rewrite Hs, Hf. reflexivity.
Qed.

Lemma png_to_bin_api_passed files file (fs : filesystem) :
  files !! "file" = Some file -> filename file <> "" ->
  allowed_png (filename file) = true ->
  png_to_bin_api (inr files) fs
  = try_except (png_to_bin_api_saved file)
      (fun e => ret (failure ("Error: " +:+ str e), 500)) fs.
Proof.
  intros Hf Hn Ha. unfold png_to_bin_api. rewrite bind_lift_inr, Hf.
  destruct (String.eqb_spec (filename file) ""); [contradiction|].
  rewrite Ha. reflexivity.
Qed.

(** What the PNG endpoint does with an upload that passed the checks. *)
Lemma png_to_bin_api_saved_cases (file : FileStorage) (fs : filesystem) :
  let png_path := os_path_join UPLOAD_FOLDER (secure_filename (filename file)) in
  let bin_filename := converted_name (secure_filename (filename file)) ".bin" in
  let bin_path := os_path_join UPLOAD_FOLDER bin_filename in
  ((ends_with_char "/" png_path = true \/ fs !! png_path = Some Dir) /\
   png_to_bin_api_saved file fs = (inl (IsADirectoryError png_path), fs))
  \/
  (ends_with_char "/" png_path = false /\ fs !! png_path ≠ Some Dir /\
   ((exists msg fs',
       convert_png_to_bin png_path (Some bin_path) true
         (<[png_path := File (stream file)]> fs) = (inr (false, msg), fs') /\
       png_to_bin_api_saved file fs = (inr (failure msg, 400), fs'))
    \/
    (exists img,
       lower (suffix png_path) = ".png" /\
       decodes_to_rgba (stream file) img /\
       png_path <> bin_path /\
       png_to_bin_api_saved file fs
       = (inr (converted
                 ("Successfully converted: " +:+ png_path +:+ " -> " +:+ bin_path)
                 bin_filename
                 (Z.of_nat (length (stream file)))
                 (17 + Z.of_nat (length (im_bytes img))), 200),
          <[bin_path := File (container (im_size img).1 (im_size img).2 Byte.x04
                                (Z.of_nat (length (im_bytes img))) (im_bytes img))]>
            (<[png_path := File (stream file)]> fs))))).
Proof.
  intros png_path bin_filename bin_path.
  destruct (ends_with_char "/" png_path) eqn:Hs.
  { left. split; [auto|]. unfold png_to_bin_api_saved. fold png_path.
    rewrite (bind_inl _ _ _ _ _ (FileStorage_save_raises file png_path fs (or_introl Hs))).
    reflexivity. }
  destruct (decide (fs !! png_path = Some Dir)) as [Hd|Hd].
  { left. split; [auto|]. unfold png_to_bin_api_saved. fold png_path.
    rewrite (bind_inl _ _ _ _ _ (FileStorage_save_raises file png_path fs (or_intror Hd))).
    reflexivity. }
  right. split; [reflexivity|]. split; [exact Hd|].
  unfold png_to_bin_api_saved. fold png_path bin_filename bin_path.
  rewrite (bind_inr _ _ _ _ _ (FileStorage_save_ok file png_path fs Hs Hd)).
  destruct (try_except_returns
              (convert_png_to_bin_try png_path (Some bin_path) true)
              (fun e => "Error converting PNG: " +:+ str e)
              (<[png_path := File (stream file)]> fs))
    as (b & msg & fs' & Hrun & _).
  fold (convert_png_to_bin png_path (Some bin_path) true) in Hrun.
  rewrite (bind_inr _ _ _ _ _ Hrun).
  destruct b; simpl.
  2:{ left. exists msg, fs'. auto. }
  right.
  destruct (convert_png_to_bin_true _ _ _ _ _ _ Hrun)
    as (img & dest & (c & Hf & Hsuf & Hdec & Hdest) & _ & _ & -> & ->).
  simpl in Hdest. injection Hdest as <-.
  rewrite lookup_insert_eq in Hf. injection Hf as <-.
  assert (Hne : png_path <> bin_path) by (apply converted_path_differs, Hsuf).
  exists img. split; [exact Hsuf|]. split; [exact Hdec|]. split; [exact Hne|].
  erewrite bind_inr; cycle 1.
  { apply os_path_getsize_File; [exact Hs|].
    rewrite lookup_insert_ne by congruence. apply lookup_insert_eq. }
  erewrite bind_inr; cycle 1.
  { apply os_path_getsize_File; [apply (converted_path_is_file _ _ "bin")|].
    apply lookup_insert_eq. }
  unfold ret, encoded. rewrite container_length.
  replace (Z.of_nat (17 + length (im_bytes img)))
    with (17 + Z.of_nat (length (im_bytes img))) by lia.
  reflexivity.
Qed.

Lemma bin_to_png_api_passed files file (fs : filesystem) :
  files !! "file" = Some file -> filename file <> "" ->
  allowed_bin (filename file) = true ->
  bin_to_png_api (inr files) fs
  = try_except (bin_to_png_api_saved file)
      (fun e => ret (failure ("Error: " +:+ str e), 500)) fs.
Proof.
  intros Hf Hn Ha. unfold bin_to_png_api. rewrite bind_lift_inr, Hf.
  destruct (String.eqb_spec (filename file) ""); [contradiction|].
  rewrite Ha. reflexivity.
Qed.

(** What the BIN endpoint does with an upload that passed the checks. *)
Lemma bin_to_png_api_saved_cases (file : FileStorage) (fs : filesystem) :
  let bin_path := os_path_join UPLOAD_FOLDER (secure_filename (filename file)) in
  let png_filename := converted_name (secure_filename (filename file)) ".png" in
  let png_path := os_path_join UPLOAD_FOLDER png_filename in
  ((ends_with_char "/" bin_path = true \/ fs !! bin_path = Some Dir) /\
   bin_to_png_api_saved file fs = (inl (IsADirectoryError bin_path), fs))
  \/
  (ends_with_char "/" bin_path = false /\ fs !! bin_path ≠ Some Dir /\
   ((exists msg fs',
       read_bin_to_png bin_path (Some png_path) true
         (<[bin_path := File (stream file)]> fs) = (inr (false, msg), fs') /\
       bin_to_png_api_saved file fs = (inr (failure msg, 400), fs'))
    \/
    (exists w h bpp size rest img k,
       stream file = container w h bpp size rest /\
       u32 w /\ u32 h /\ u32 size /\
       Image_frombytes "RGBA" (w, h) (take (Z.to_nat size) rest) = inr img /\
       png_encode img = inr k /\
       bin_to_png_api_saved file fs
       = (inr (converted
                 ("Successfully converted: " +:+ bin_path +:+ " -> " +:+ png_path)
                 png_filename
                 (Z.of_nat (length (if bool_decide (bin_path = png_path)
                                    then k else stream file)))
                 (Z.of_nat (length k)), 200),
          <[png_path := File k]> (<[bin_path := File (stream file)]> fs))))).
Proof.
  intros bin_path png_filename png_path.
  destruct (ends_with_char "/" bin_path) eqn:Hs.
  { left. split; [auto|]. unfold bin_to_png_api_saved. fold bin_path.
    rewrite (bind_inl _ _ _ _ _ (FileStorage_save_raises file bin_path fs (or_introl Hs))).
    reflexivity. }
  destruct (decide (fs !! bin_path = Some Dir)) as [Hd|Hd].
  { left. split; [auto|]. unfold bin_to_png_api_saved. fold bin_path.
    rewrite (bind_inl _ _ _ _ _ (FileStorage_save_raises file bin_path fs (or_intror Hd))).
    reflexivity. }
  right. split; [reflexivity|]. split; [exact Hd|].
  unfold bin_to_png_api_saved. fold bin_path png_filename png_path.
  rewrite (bind_inr _ _ _ _ _ (FileStorage_save_ok file bin_path fs Hs Hd)).
  destruct (try_except_returns
              (read_bin_to_png_try bin_path (Some png_path) true)
              (fun e => "Error converting BIN to PNG: " +:+ str e)
              (<[bin_path := File (stream file)]> fs))
    as (b & msg & fs' & Hrun & _).
  fold (read_bin_to_png bin_path (Some png_path) true) in Hrun.
  rewrite (bind_inr _ _ _ _ _ Hrun).
  destruct b; simpl.
  2:{ left. exists msg, fs'. auto. }
  right.
  destruct (read_bin_to_png_true _ _ _ _ _ _ Hrun)
    as (_ & w & h & bpp & size & rest & out & img & k
        & Hf & Hw & Hh & Hsz & Hout & Hi & Hk & _ & -> & ->).
  simpl in Hout. injection Hout as <-.
  rewrite lookup_insert_eq in Hf. injection Hf as Hf.
  exists w, h, bpp, size, rest, img, k.
  repeat (split; [assumption|]).
  erewrite bind_inr; cycle 1.
  { apply (os_path_getsize_File _ _
             (if bool_decide (bin_path = png_path) then k else stream file));
      [exact Hs|].
    destruct (bool_decide_reflect (bin_path = png_path)) as [Heq|Hne].
    - rewrite Heq. apply lookup_insert_eq.
    - rewrite lookup_insert_ne by congruence. apply lookup_insert_eq. }
  erewrite bind_inr; cycle 1.
  { apply os_path_getsize_File; [apply (converted_path_is_file _ _ "png")|].
    apply lookup_insert_eq. }
  reflexivity.
Qed.

Lemma os_remove_File p (fs : filesystem) c :
  ends_with_char "/" p = false -> fs !! p = Some (File c) ->
  os_remove p fs = (inr tt, delete p fs).
Proof. intros Hs Hf. unfold os_remove. rewrite Hs, Hf. reflexivity. Qed.

(** What [cleanup_file] does, by what its path names. *)
Lemma cleanup_file_cases (filename : string) (fs : filesystem) :
  let file_path := os_path_join UPLOAD_FOLDER (secure_filename filename) in
  ((ends_with_char "/" file_path = true \/ fs !! file_path = Some Dir) /\
   cleanup_file filename fs
   = (inr (failure (str (IsADirectoryError file_path)), 500), fs))
  \/
  (ends_with_char "/" file_path = false /\ fs !! file_path ≠ Some Dir /\
   cleanup_file filename fs = (inr ([("success", JBool true)], 200), delete file_path fs)).
Proof.
  intros file_path. unfold cleanup_file, try_except, os_path_exists, os_remove.
  fold file_path.
  destruct (ends_with_char "/" file_path) eqn:Hs.
  { left. split; [auto|]. reflexivity. }
  destruct (fs !! file_path) as [[c|]|] eqn:Hf.
  - right. split; [reflexivity|]. split; [discriminate|].
    rewrite (bind_inr _ _ _ _ _ (Path_exists_Some _ _ _ Hf)).
    unfold bind. rewrite Hf. reflexivity.
  - left. split; [auto|].
    rewrite (bind_inr _ _ _ _ _ (Path_exists_Some _ _ _ Hf)).
    unfold bind. rewrite Hf. reflexivity.
  - right. split; [reflexivity|]. split; [discriminate|].
    rewrite (bind_inr _ _ _ _ _ (Path_exists_None _ _ Hf)).
    rewrite (delete_id fs file_path Hf). reflexivity.
Qed.

End WebFacts.

Section WebAnswers.

Context {lib : ImageLib} {host : WebHost}.

Lemma endpoint_refuses (allowed : string -> bool) (error : string)
    (saved : FileStorage -> M response) files (fs : filesystem) :
  (forall file, ~ passes allowed files file) ->
  exists e,
    try_except
      (match files !! "file" with
       | None => ret (failure "No file provided", 400)
       | Some file =>
           if String.eqb (filename file) "" then
             ret (failure "No file selected", 400)
           else if negb (allowed (filename file)) then
             ret (failure error, 400)
           else saved file
       end)
      (fun e => ret (failure ("Error: " +:+ str e), 500)) fs
    = (inr (failure e, 400), fs).
Proof.
  intros Hno. unfold try_except.
  destruct (files !! "file") as [file|] eqn:Hf; [|eexists; reflexivity].
  destruct (String.eqb_spec (filename file) ""); [eexists; reflexivity|].
  destruct (allowed (filename file)) eqn:Ha; [|eexists; reflexivity].
  destruct (Hno file). repeat split; assumption.
Qed.


Lemma passes_dec allowed files :
  (exists file, passes allowed files file) \/ (forall file, ~ passes allowed files file).
Proof.
  destruct (files !! "file") as [file|] eqn:Hf.
  2:{ right. intros file [H _]. congruence. }
  destruct (String.eqb_spec (filename file) "") as [Hn|Hn].
  { right. intros file' [H [Hn' _]]. congruence. }
  destruct (allowed (filename file)) eqn:Ha.
  - left. exists file. repeat split; assumption.
  - right. intros file' [H [_ Ha']]. congruence.
Qed.

Lemma png_to_bin_api_refuses files (fs : filesystem) :
  (forall file, ~ passes allowed_png files file) ->
  exists e, png_to_bin_api (inr files) fs = (inr (failure e, 400), fs).
Proof.
  exact (endpoint_refuses allowed_png "File must be a PNG image"
           png_to_bin_api_saved files fs).
Qed.

Lemma bin_to_png_api_refuses files (fs : filesystem) :
  (forall file, ~ passes allowed_bin files file) ->
  exists e, bin_to_png_api (inr files) fs = (inr (failure e, 400), fs).
Proof.
  exact (endpoint_refuses allowed_bin "File must be a BIN file"
           bin_to_png_api_saved files fs).
Qed.



End WebAnswers.



(** X17: the PNG endpoint answers 200 only when [request.files] gave the
    files and the upload passed the checks, its saved path has a '.png'
    suffix and the library decodes its bytes.  The upload folder then
    holds the upload and, at another path, the complete container; the
    answer names the converted file twice (as 'filename' and 'file_id')
    and reports the length of the upload and 17 plus the length of the
    pixel buffer as the two sizes. *)
Theorem png_to_bin_api_ok {lib : ImageLib} {host : WebHost}
    (request_files : exn + gmap string FileStorage) (fs fs' : filesystem) body :
  png_to_bin_api request_files fs = (inr (body, 200), fs') ->
  exists files file img,
    request_files = inr files /\
    passes allowed_png files file /\
    lower (suffix (upload_path file)) = ".png" /\
    decodes_to_rgba (stream file) img /\
    upload_path file <> converted_path file ".bin" /\
    body = converted
             ("Successfully converted: " +:+ upload_path file +:+ " -> "
              +:+ converted_path file ".bin")
             (converted_name (secure_filename (filename file)) ".bin")
             (Z.of_nat (length (stream file)))
             (17 + Z.of_nat (length (im_bytes img))) /\
    fs' = <[converted_path file ".bin" :=
              File (container (im_size img).1 (im_size img).2 Byte.x04
                      (Z.of_nat (length (im_bytes img))) (im_bytes img))]>
            (<[upload_path file := File (stream file)]> fs).
Proof.
  intros Hrun. destruct request_files as [e|files]; [discriminate Hrun|].
  destruct (passes_dec allowed_png files) as [[file Hp]|Hno].
  2:{ destruct (png_to_bin_api_refuses files fs Hno) as (e & He).
      rewrite He in Hrun. discriminate Hrun. }
  pose proof Hp as (Hf & Hn & Ha).
  rewrite (png_to_bin_api_passed files file fs Hf Hn Ha) in Hrun.
  destruct (png_to_bin_api_saved_cases file fs)
    as [[_ Hsaved]|(_ & _ & [(msg & fs1 & _ & Hsaved)
                           |(img & Hsuf & Hdec & Hne & Hsaved)])].
  - rewrite (try_except_inl _ _ _ _ _ Hsaved) in Hrun. discriminate Hrun.
  - rewrite (try_except_inr _ _ _ _ _ Hsaved) in Hrun. discriminate Hrun.
  - rewrite (try_except_inr _ _ _ _ _ Hsaved) in Hrun.
    injection Hrun as <- <-. exists files, file, img. auto 10.
Qed.

Lemma png_to_bin_api_ok_witness :
  exists files file img,
    (inr upload_1x1 : exn + gmap string FileStorage) = inr files /\
    passes allowed_png files file /\
    lower (suffix (upload_path (host := plain_host) file)) = ".png" /\
    decodes_to_rgba (lib := raw_lib) (stream file) img /\
    converted "Successfully converted: /srv/app/uploads/a.png -> /srv/app/uploads/a.bin"
      "a.bin" 12 21
    = converted
        ("Successfully converted: " +:+ upload_path (host := plain_host) file
         +:+ " -> " +:+ converted_path (host := plain_host) file ".bin")
        (converted_name (secure_filename (WebHost := plain_host) (filename file)) ".bin")
        (Z.of_nat (length (stream file)))
        (17 + Z.of_nat (length (im_bytes img))).
Proof.
  destruct (png_to_bin_api_ok (lib := raw_lib) (host := plain_host) (inr upload_1x1) ∅
              (<["/srv/app/uploads/a.bin" := File (container 1 1 Byte.x04 4 pixel_1x1)]>
                 {[ "/srv/app/uploads/a.png" := File file_1x1 ]})
              (converted
                 "Successfully converted: /srv/app/uploads/a.png -> /srv/app/uploads/a.bin"
                 "a.bin" 12 21))
    as (files & file & img & Hfiles & Hp & Hs & Hd & _ & Hbody & _).
  - vm_compute. reflexivity.
  - exists files, file, img. auto 10.
Defined.

(** X18: the BIN endpoint answers 200 only when [request.files] gave the
    files and the upload passed the checks and is a container whose three
    32-bit fields the decoder read and from whose first [data_size] data
    bytes the library built and encoded an image.  The folder then holds
    the upload and the PNG; the answer reports the PNG's length as the
    converted size, and as the original size the upload's length, unless
    the secure name already ends in '.png': then the PNG has replaced the
    upload and its length is reported twice. *)
Theorem bin_to_png_api_ok {lib : ImageLib} {host : WebHost}
    (request_files : exn + gmap string FileStorage) (fs fs' : filesystem) body :
  bin_to_png_api request_files fs = (inr (body, 200), fs') ->
  exists files file w h bpp size rest img k,
    request_files = inr files /\
    passes allowed_bin files file /\
    stream file = container w h bpp size rest /\
    u32 w /\ u32 h /\ u32 size /\
    Image_frombytes "RGBA" (w, h) (take (Z.to_nat size) rest) = inr img /\
    png_encode img = inr k /\
    body = converted
             ("Successfully converted: " +:+ upload_path file +:+ " -> "
              +:+ converted_path file ".png")
             (converted_name (secure_filename (filename file)) ".png")
             (Z.of_nat (length (if bool_decide (upload_path file = converted_path file ".png")
                                then k else stream file)))
             (Z.of_nat (length k)) /\
    fs' = <[converted_path file ".png" := File k]>
            (<[upload_path file := File (stream file)]> fs).
Proof.
  intros Hrun. destruct request_files as [e|files]; [discriminate Hrun|].
  destruct (passes_dec allowed_bin files) as [[file Hp]|Hno].
  2:{ destruct (bin_to_png_api_refuses files fs Hno) as (e & He).
      rewrite He in Hrun. discriminate Hrun. }
  pose proof Hp as (Hf & Hn & Ha).
  rewrite (bin_to_png_api_passed files file fs Hf Hn Ha) in Hrun.
  destruct (bin_to_png_api_saved_cases file fs)
    as [[_ Hsaved]|(_ & _ & [(msg & fs1 & _ & Hsaved)
                           |(w & h & bpp & size & rest & img & k
                             & Hc & Hw & Hh & Hsz & Hi & Hk & Hsaved)])].
  - rewrite (try_except_inl _ _ _ _ _ Hsaved) in Hrun. discriminate Hrun.
  - rewrite (try_except_inr _ _ _ _ _ Hsaved) in Hrun. discriminate Hrun.
  - rewrite (try_except_inr _ _ _ _ _ Hsaved) in Hrun.
    injection Hrun as <- <-. exists files, file, w, h, bpp, size, rest, img, k. auto 12.
Qed.

Lemma bin_to_png_api_ok_witness :
  exists files file w h bpp size rest img k,
    (inr upload_container : exn + gmap string FileStorage) = inr files /\
    passes allowed_bin files file /\
    stream file = container w h bpp size rest /\
    u32 w /\ u32 h /\ u32 size /\
    Image_frombytes (ImageLib := raw_lib) "RGBA" (w, h) (take (Z.to_nat size) rest)
    = inr img /\
    png_encode (ImageLib := raw_lib) img = inr k.
Proof.
  destruct (bin_to_png_api_ok (lib := raw_lib) (host := plain_host) (inr upload_container) ∅
              (<["/srv/app/uploads/t.png" := File file_1x1]>
                 {[ "/srv/app/uploads/t.bin" := File (container 1 1 Byte.x04 4 pixel_1x1) ]})
              (converted
                 "Successfully converted: /srv/app/uploads/t.bin -> /srv/app/uploads/t.png"
                 "t.png" 21 12))
    as (files & file & w & h & bpp & size & rest & img & k
        & Hfiles & Hp & Hc & Hw & Hh & Hs & Hi & Hk & _).
  - vm_compute. reflexivity.
  - exists files, file, w, h, bpp, size, rest, img, k. auto 12.
Defined.

(** X19: a conversion that fails after the checks leaves the upload in the
    folder, and no endpoint code removes it.  After a 400 of the PNG
    endpoint the saved path holds the uploaded bytes and only it and the
    container's path can differ from before.  After a 400 of the BIN
    endpoint only the saved path and the PNG's path can differ from
    before, and the saved path holds the uploaded bytes when it is not the
    PNG's path as well; what a failed save leaves at the PNG's path is the
    library's matter. *)
Theorem failed_conversion_keeps_upload {lib : ImageLib} {host : WebHost}
    (files : gmap string FileStorage) (file : FileStorage)
    (fs fs' : filesystem) body :
  (passes allowed_png files file ->
   png_to_bin_api (inr files) fs = (inr (body, 400), fs') ->
   fs' !! upload_path file = Some (File (stream file)) /\
   forall q, q <> upload_path file -> q <> converted_path file ".bin" ->
     fs' !! q = fs !! q) /\
  (passes allowed_bin files file ->
   bin_to_png_api (inr files) fs = (inr (body, 400), fs') ->
   (upload_path file <> converted_path file ".png" ->
    fs' !! upload_path file = Some (File (stream file))) /\
   forall q, q <> upload_path file -> q <> converted_path file ".png" ->
     fs' !! q = fs !! q).
Proof.
  split; intros (Hf & Hn & Ha) Hrun.
  - rewrite (png_to_bin_api_passed files file fs Hf Hn Ha) in Hrun.
    destruct (png_to_bin_api_saved_cases file fs)
      as [[_ Hsaved]|(_ & _ & [(msg & fs1 & Hconv & Hsaved)
                             |(img & _ & _ & _ & Hsaved)])].
    + rewrite (try_except_inl _ _ _ _ _ Hsaved) in Hrun. discriminate Hrun.
    + rewrite (try_except_inr _ _ _ _ _ Hsaved) in Hrun.
      injection Hrun as _ <-.
      fold (upload_path file) in Hconv. fold (converted_path file ".bin") in Hconv.
      assert (Hframe : forall q, q <> converted_path file ".bin" ->
                fs1 !! q = (<[upload_path file := File (stream file)]> fs) !! q).
      { intros q Hq.
        pose proof (preserves_convert_png_to_bin q (upload_path file)
                      (Some (converted_path file ".bin")) true) as Hpres.
        specialize (Hpres ltac:(simpl; congruence)
                      (<[upload_path file := File (stream file)]> fs)).
        rewrite Hconv in Hpres. exact Hpres. }
      split.
      * destruct (decide (lower (suffix (upload_path file)) = ".png")) as [Hs|Hs].
        -- rewrite Hframe; [apply lookup_insert_eq|].
           intros Heq.
           exact (converted_path_differs UPLOAD_FOLDER
                    (secure_filename (filename file)) Hs Heq).
        -- rewrite (convert_png_to_bin_not_png _ _ _ _ (File (stream file))
                      (lookup_insert_eq _ _ _) Hs) in Hconv.
           injection Hconv as _ <-. apply lookup_insert_eq.
      * intros q Hq1 Hq2. rewrite (Hframe q Hq2). apply lookup_insert_ne. congruence.
    + rewrite (try_except_inr _ _ _ _ _ Hsaved) in Hrun. discriminate Hrun.
  - rewrite (bin_to_png_api_passed files file fs Hf Hn Ha) in Hrun.
    destruct (bin_to_png_api_saved_cases file fs)
      as [[_ Hsaved]|(_ & _ & [(msg & fs1 & Hconv & Hsaved)
                             |(w & h & bpp & size & rest & img & k
                               & _ & _ & _ & _ & _ & _ & Hsaved)])].
    + rewrite (try_except_inl _ _ _ _ _ Hsaved) in Hrun. discriminate Hrun.
    + rewrite (try_except_inr _ _ _ _ _ Hsaved) in Hrun.
      injection Hrun as _ <-.
      fold (upload_path file) in Hconv. fold (converted_path file ".png") in Hconv.
      assert (Hframe : forall q, q <> converted_path file ".png" ->
                fs1 !! q = (<[upload_path file := File (stream file)]> fs) !! q).
      { intros q Hq.
        pose proof (preserves_read_bin_to_png q (upload_path file)
                      (Some (converted_path file ".png")) true) as Hpres.
        specialize (Hpres ltac:(simpl; congruence)
                      (<[upload_path file := File (stream file)]> fs)).
        rewrite Hconv in Hpres. exact Hpres. }
      split.
      * intros Hne. rewrite (Hframe _ Hne). apply lookup_insert_eq.
      * intros q Hq1 Hq2. rewrite (Hframe q Hq2). apply lookup_insert_ne. congruence.
    + rewrite (try_except_inr _ _ _ _ _ Hsaved) in Hrun. discriminate Hrun.
Qed.

Lemma failed_conversion_keeps_upload_witness :
  (png_to_bin_api (lib := raw_lib) (host := plain_host) (inr upload_garbage) ∅
   = (inr (failure "Error converting PNG: cannot identify image file", 400),
      {[ "/srv/app/uploads/x.png" := File [Byte.x00; Byte.x01] ]}) /\
   ({[ "/srv/app/uploads/x.png" := File [Byte.x00; Byte.x01] ]} : filesystem)
     !! "/srv/app/uploads/x.png"
   = Some (File [Byte.x00; Byte.x01])) /\
  (bin_to_png_api (lib := raw_lib) (host := plain_host) (inr upload_truncated) ∅
   = (inr (failure "Error converting BIN to PNG: not enough image data", 400),
      {[ "/srv/app/uploads/t.bin" := File truncated_1x1 ]}) /\
   ({[ "/srv/app/uploads/t.bin" := File truncated_1x1 ]} : filesystem)
     !! "/srv/app/uploads/t.bin"
   = Some (File truncated_1x1)).
Proof.
  split.
  - assert (Hrun : png_to_bin_api (lib := raw_lib) (host := plain_host)
                     (inr upload_garbage) ∅
                   = (inr (failure "Error converting PNG: cannot identify image file", 400),
                      {[ "/srv/app/uploads/x.png" := File [Byte.x00; Byte.x01] ]}))
      by (vm_compute; reflexivity).
    split; [exact Hrun|].
    refine (proj1 (proj1 (failed_conversion_keeps_upload (lib := raw_lib)
              (host := plain_host) upload_garbage
              {| filename := "x.png"; stream := [Byte.x00; Byte.x01] |}
              ∅ _ _) _ Hrun)).
    repeat split. discriminate.
  - assert (Hrun : bin_to_png_api (lib := raw_lib) (host := plain_host)
                     (inr upload_truncated) ∅
                   = (inr (failure "Error converting BIN to PNG: not enough image data", 400),
                      {[ "/srv/app/uploads/t.bin" := File truncated_1x1 ]}))
      by (vm_compute; reflexivity).
    split; [exact Hrun|].
    refine (proj1 (proj2 (failed_conversion_keeps_upload (lib := raw_lib)
              (host := plain_host) upload_truncated
              {| filename := "t.bin"; stream := truncated_1x1 |}
              ∅ _ _) _ Hrun) _).
    + repeat split. discriminate.
    + vm_compute. discriminate.
Defined.

(** X20: [cleanup_file] never raises.  It answers 500, and removes
    nothing, exactly when its path names a directory; otherwise it answers
    200 with [{success: true}], also when no such file exists, the path is
    gone afterwards and every other path is as before, and a second call
    answers the same and changes nothing. *)
Theorem cleanup_file_removes {host : WebHost} (filename : string)
    (fs : filesystem) :
  exists body status fs',
    cleanup_file filename fs = (inr (body, status), fs') /\
    (status = 500 <->
     (ends_with_char "/" (os_path_join UPLOAD_FOLDER (secure_filename filename)) = true \/
      fs !! os_path_join UPLOAD_FOLDER (secure_filename filename) = Some Dir)) /\
    (status = 500 -> fs' = fs /\ exists error, body = failure error) /\
    (status <> 500 ->
     status = 200 /\ body = [("success", JBool true)] /\
     fs' = delete (os_path_join UPLOAD_FOLDER (secure_filename filename)) fs /\
     cleanup_file filename fs' = (inr (body, 200), fs')).
Proof.
  destruct (cleanup_file_cases filename fs) as [[Hbad Hrun]|(Hs & Hd & Hrun)].
  - eexists _, 500, fs. split; [exact Hrun|]. split; [tauto|].
    split; [|intros H; destruct (H eq_refl)].
    intros _. split; [reflexivity|]. eexists. reflexivity.
  - eexists _, 200, _. split; [exact Hrun|].
    split.
    { split; [discriminate|]. intros [H|H]; congruence. }
    split; [discriminate|]. intros _.
    split; [reflexivity|]. split; [reflexivity|]. split; [reflexivity|].
    destruct (cleanup_file_cases filename
                (delete (os_path_join UPLOAD_FOLDER (secure_filename filename)) fs))
      as [[[Hbad|Hbad] _]|(_ & _ & Hrun')].
    + congruence.
    + rewrite lookup_delete_eq in Hbad. discriminate.
    + rewrite Hrun'. rewrite delete_delete_eq. reflexivity.
Qed.

(** X21: a conversion followed by the clean-up of the file the answer
    names.  After a 200 of the PNG endpoint, [cleanup_file] on the
    answer's 'file_id', a name [secure_filename] keeps, answers 200 and
    removes the container; the uploaded PNG stays in the folder, and
    every other path is as it was before the upload. *)
Theorem convert_then_cleanup {lib : ImageLib} {host : WebHost}
    (request_files : exn + gmap string FileStorage) (fs fs' : filesystem) body :
  png_to_bin_api request_files fs = (inr (body, 200), fs') ->
  exists files file file_id,
    request_files = inr files /\
    passes allowed_png files file /\
    In ("file_id", JStr file_id) body /\
    (secure_filename file_id = file_id ->
     exists fs'',
       cleanup_file file_id fs' = (inr ([("success", JBool true)], 200), fs'') /\
       fs'' !! converted_path file ".bin" = None /\
       fs'' !! upload_path file = Some (File (stream file)) /\
       forall q, q <> upload_path file -> q <> converted_path file ".bin" ->
         fs'' !! q = fs !! q).
Proof.
  intros Hrun. destruct request_files as [e|files]; [discriminate Hrun|].
  destruct (passes_dec allowed_png files) as [[file Hp]|Hno].
  2:{ destruct (png_to_bin_api_refuses files fs Hno) as (e & He).
      rewrite He in Hrun. discriminate Hrun. }
  pose proof Hp as (Hf & Hn & Ha).
  rewrite (png_to_bin_api_passed files file fs Hf Hn Ha) in Hrun.
  destruct (png_to_bin_api_saved_cases file fs)
    as [[_ Hsaved]|(_ & _ & [(msg & fs1 & _ & Hsaved)
                           |(img & _ & _ & Hne & Hsaved)])].
  1,2: rewrite ?(try_except_inl _ _ _ _ _ Hsaved), ?(try_except_inr _ _ _ _ _ Hsaved)
         in Hrun; discriminate Hrun.
  rewrite (try_except_inr _ _ _ _ _ Hsaved) in Hrun.
  injection Hrun as <- <-.
  fold (upload_path file) in Hne. fold (converted_path file ".bin") in Hne.
  fold (upload_path file). fold (converted_path file ".bin").
  exists files, file, (converted_name (secure_filename (filename file)) ".bin").
  split; [reflexivity|]. split; [exact Hp|]. split; [simpl; auto 10|].
  intros Hid.
  destruct (cleanup_file_cases
              (converted_name (secure_filename (filename file)) ".bin")
              (<[converted_path file ".bin" :=
                   File (container (im_size img).1 (im_size img).2 Byte.x04
                           (Z.of_nat (length (im_bytes img))) (im_bytes img))]>
                 (<[upload_path file := File (stream file)]> fs)))
    as [[Hbad _]|(_ & _ & Hclean)]; rewrite Hid in *.
  { fold (converted_path file ".bin") in Hbad.
    destruct Hbad as [Hbad|Hbad].
    - unfold converted_path in Hbad.
      rewrite (converted_path_is_file _ _ "bin") in Hbad. discriminate.
    - rewrite lookup_insert_eq in Hbad. discriminate. }
  fold (converted_path file ".bin") in Hclean.
  eexists. split; [exact Hclean|].
  split; [apply lookup_delete_eq|].
  split.
  - rewrite lookup_delete_ne by congruence.
    rewrite lookup_insert_ne by congruence. apply lookup_insert_eq.
  - intros q Hq1 Hq2.
    rewrite lookup_delete_ne by congruence.
    rewrite !lookup_insert_ne by congruence. reflexivity.
Qed.

Lemma convert_then_cleanup_witness :
  png_to_bin_api (lib := raw_lib) (host := plain_host) (inr upload_1x1) ∅
  = (inr (converted
            "Successfully converted: /srv/app/uploads/a.png -> /srv/app/uploads/a.bin"
            "a.bin" 12 21, 200),
     <["/srv/app/uploads/a.bin" := File (container 1 1 Byte.x04 4 pixel_1x1)]>
       {[ "/srv/app/uploads/a.png" := File file_1x1 ]}) /\
  exists fs'' : filesystem,
    cleanup_file (host := plain_host) "a.bin"
      (<["/srv/app/uploads/a.bin" := File (container 1 1 Byte.x04 4 pixel_1x1)]>
         {[ "/srv/app/uploads/a.png" := File file_1x1 ]})
    = (inr ([("success", JBool true)], 200), fs'') /\
    fs'' !! "/srv/app/uploads/a.bin" = None /\
    fs'' !! "/srv/app/uploads/a.png" = Some (File file_1x1).
Proof.
  assert (Hrun : png_to_bin_api (lib := raw_lib) (host := plain_host)
                   (inr upload_1x1) ∅
                 = (inr (converted
                           "Successfully converted: /srv/app/uploads/a.png -> /srv/app/uploads/a.bin"
                           "a.bin" 12 21, 200),
                    <["/srv/app/uploads/a.bin" := File (container 1 1 Byte.x04 4 pixel_1x1)]>
                      {[ "/srv/app/uploads/a.png" := File file_1x1 ]}))
    by (vm_compute; reflexivity).
  split; [exact Hrun|].
  destruct (convert_then_cleanup (lib := raw_lib) (host := plain_host) _ _ _ _ Hrun)
    as (files & file & file_id & [= <-] & (Hf & _) & Hin & Hclean).
  unfold upload_1x1 in Hf. rewrite lookup_singleton_eq in Hf. injection Hf as <-.
  assert (Hid : file_id = "a.bin").
  { simpl in Hin. repeat (destruct Hin as [Hin|Hin]; [try discriminate Hin|]).
    - injection Hin as <-. reflexivity.
    - destruct Hin. }
  subst file_id.
  destruct (Hclean eq_refl) as (fs'' & Hc & Hgone & Hkept & _).
  exists fs''. split; [exact Hc|]. split; [exact Hgone|exact Hkept].
Defined.
